(** * ioBroker plugin-base: the plugin handler and the plugin base class

    A shallow embedding of [lib/PluginHandler.ts] (class [PluginHandler]) and
    of [lib/PluginBase.ts] (class [PluginBase]), with the lifecycle
    properties of the package stated and proved over it.

    Asynchronous methods are embedded as sequential state transformers: the
    handler awaits every promise before it goes on, so a rejected promise is
    a thrown exception at the [await].

    Conventions of the embedding:
    - a JavaScript object used as a mutable record is a Rocq record that is
      threaded through the code that mutates it;
    - [#plugins], an object used as a map from plugin names to entries, is an
      association list in property creation order; names are the suffixes of
      npm package names ([@iobroker/plugin-<name>]), and a lookup is a lookup
      of an own property;
    - a thrown value is an [Error] with a message and a stack;
    - the database clients, the module system and the classes of the plugin
      implementers are not part of the package: the clients are key/value
      stores whose calls may reject, the module system and the implementers
      are given by what their calls answer. *)

From Stdlib Require Import ZArith Ascii String.
From stdpp Require Import base strings gmap list sorting.

Local Open Scope string_scope.

(** ** JavaScript values *)

(** The values a state's [val] or a configuration key can hold; numbers are
    restricted to the integral ones. *)
Inductive JsValue :=
| JUndefined
| JNull
| JBool (b : bool)
| JNumber (n : Z)
| JString (s : string)
| JObject.

(** [!!v] *)
Definition truthy (v : JsValue) : bool :=
  match v with
  | JUndefined | JNull => false
  | JBool b => b
  | JNumber n => negb (n =? 0)%Z
  | JString s => negb (String.eqb s EmptyString)
  | JObject => true
  end.

(** [typeof v !== 'object' && v !== undefined] *)
Definition concrete (v : JsValue) : bool :=
  match v with
  | JUndefined | JNull | JObject => false
  | JBool _ | JNumber _ | JString _ => true
  end.

(** The double quote character *)
Definition quote : string := String (ascii_of_nat 34) EmptyString.

(** [`${b}`] for a boolean *)
Definition string_of_bool (b : bool) : string := if b then "true" else "false".

(** [Record<string, any>], the configuration of a plugin. *)
Abbreviation Config := (gmap string JsValue).

(** [o.key]: a missing key reads as [undefined]. *)
Definition prop (o : Config) (key : string) : JsValue := default JUndefined (o !! key).

(** ** Errors and results *)

Record Error := mkError { message : string; stack : string }.

(** [new Error(msg)]; the stack is not empty. *)
Definition new_Error (msg : string) : Error :=
  {| message := msg; stack := "Error: " +:+ msg |}.

Inductive Result (A : Type) :=
| Ok (a : A)
| Throw (e : Error).
Arguments Ok {A} a.
Arguments Throw {A} e.

(** Code that reads and writes a state [S] and may throw. What was written
    before a throw stays written. *)
Definition M (S A : Type) : Type := S → Result A * S.

Definition ret {S A} (a : A) : M S A := λ s, (Ok a, s).
Definition throw {S A} (e : Error) : M S A := λ s, (Throw e, s).
Definition bind {S A B} (m : M S A) (k : A → M S B) : M S B :=
  λ s, match m s with
       | (Ok a, s') => k a s'
       | (Throw e, s') => (Throw e, s')
       end.
Definition try_catch {S A} (m : M S A) (handler : Error → M S A) : M S A :=
  λ s, match m s with
       | (Ok a, s') => (Ok a, s')
       | (Throw e, s') => handler e s'
       end.
Definition get {S} : M S S := λ s, (Ok s, s).
Definition modify {S} (f : S → S) : M S unit := λ s, (Ok tt, f s).
Definition when {S} (b : bool) (m : M S unit) : M S unit := if b then m else ret tt.

(** What a run gives and what it leaves. *)
Definition result {S A} (m : M S A) (s : S) : Result A := (m s).1.
Definition after {S A} (m : M S A) (s : S) : S := (m s).2.

Notation "x <-- m ;; k" := (bind m (λ x, k))
  (at level 100, m at next level, right associativity).
Notation "m ;;; k" := (bind m (λ _, k))
  (at level 100, right associativity).

(** ** The persistent store *)

Record State := mkState { val : JsValue; ack : bool; from : string }.

Inductive ObjectType := TFolder | TState.

(** Modelled from the spec: the objects database client
    ([@iobroker/db-objects-redis], not part of the package). It is a
    key/value store whose calls may fail with a store-specific error;
    [objects_faulty] gives the ids on which the client rejects, each with
    the error it rejects with. *)
Record ObjectsClient := mkObjects {
  objects : gmap string ObjectType;
  objects_faulty : gmap string Error;
}.

(** Modelled from the spec: the states database client
    ([@iobroker/db-states-redis], not part of the package): a key/value
    store of states; [states_unreadable] and [states_unwritable] give the
    ids on which [getStateAsync] and [setStateAsync] reject. *)
Record StatesClient := mkStates {
  states : gmap string State;
  states_unreadable : gmap string Error;
  states_unwritable : gmap string Error;
}.

(** Modelled from the spec: [extendObjectAsync(id, obj)] of the objects
    client; of the object only its type is kept. *)
Definition extendObjectAsync (id : string) (ty : ObjectType) : M ObjectsClient unit :=
  λ db, match objects_faulty db !! id with
        | Some e => (Throw e, db)
        | None => (Ok tt, mkObjects (<[id := ty]> (objects db)) (objects_faulty db))
        end.

(** Modelled from the spec: [getStateAsync(id)] of the states client; a
    missing state reads as nothing. *)
Definition getStateAsync (id : string) : M StatesClient (option State) :=
  λ db, match states_unreadable db !! id with
        | Some e => (Throw e, db)
        | None => (Ok (states db !! id), db)
        end.

(** Modelled from the spec: [setStateAsync(id, state)] of the states
    client, which resolves to the id. *)
Definition setStateAsync (id : string) (st : State) : M StatesClient string :=
  λ db, match states_unwritable db !! id with
        | Some e => (Throw e, db)
        | None => (Ok id, mkStates (<[id := st]> (states db))
                                   (states_unreadable db) (states_unwritable db))
        end.

(** ** Logging and the calls that leave the package *)

Inductive Level := silly | debug | info | warn | error.

(** What the package asks of its collaborators, in the order it asks:
    the module system and the methods a plugin implementer overrides. *)
Inductive Call :=
| CallResolve (request : string) (paths : list string)
| CallRequire (path : string)
| CallNew (pluginNamespace : string)
| CallInit (pluginNamespace : string) (pluginConfig : Config)
| CallDestroy (pluginNamespace : string).

Inductive DestroyOutcome :=
| DestroyResolves (ok : bool)
| DestroyRejects (e : Error).

Inductive Scope := adapter | controller.

Record PluginSettings := mkPluginSettings {
  ps_pluginScope : Scope;
  ps_parentNamespace : string;
  ps_pluginNamespace : string;
  ps_pluginLogNamespace : string;
  ps_iobrokerConfig : Config;
  ps_parentPackage : option Config;
  ps_controllerVersion : string;
  ps_adapterDir : option string;
  ps_jsControllerDir : option string;
}.

(** A class that extends [PluginBase]: what its constructor, its [init] and
    its [destroy] do. The outcome of a call is a function of the calls made
    so far; [None] is a constructor that returns, or an [init] whose promise
    resolves. What an implementer does to the store, to the instance or to
    the configuration is outside the model. *)
Record PluginClass := mkPluginClass {
  impl_constructor : PluginSettings → option Error;
  impl_init : Config → list Call → option Error;
  impl_destroy : list Call → DestroyOutcome;
}.

(** [PluginBase] itself: [init] rejects, [destroy] resolves to [true]. *)
Definition PluginBase_class : PluginClass :=
  {| impl_constructor := λ _, None;
     impl_init := λ _ _, Some (new_Error "Not implemented");
     impl_destroy := λ _, DestroyResolves true |}.

Inductive ResolveOutcome :=
| ResolveThrows
| Resolved (pluginPath : string).

(** [module.exports] of a plugin package: the class itself, or an object
    with the class under [default]. *)
Record Exports := mkExports {
  exported : PluginClass;
  exported_default : option PluginClass;
}.

Inductive RequireOutcome :=
| RequireThrows (e : Error)
| Required (x : Exports).

(** Node's [require.resolve] and [require]. *)
Record ModuleSystem := mkModuleSystem {
  require_resolve : string → list string → ResolveOutcome;
  require : string → RequireOutcome;
}.

(** Everything outside the handler: the two database clients, the module
    system, the lines given to the ioBroker logger and the calls made. *)
Record Env := mkEnv {
  objectsClient : ObjectsClient;
  statesClient : StatesClient;
  node : ModuleSystem;
  logged : list (Level * string);
  calls : list Call;
}.

Definition with_objects (db : ObjectsClient) (e : Env) : Env :=
  mkEnv db (statesClient e) (node e) (logged e) (calls e).
Definition with_states (db : StatesClient) (e : Env) : Env :=
  mkEnv (objectsClient e) db (node e) (logged e) (calls e).
Definition add_log (l : Level * string) (e : Env) : Env :=
  mkEnv (objectsClient e) (statesClient e) (node e) (logged e ++ [l]) (calls e).
Definition add_call (c : Call) (e : Env) : Env :=
  mkEnv (objectsClient e) (statesClient e) (node e) (logged e) (calls e ++ [c]).

(** ** io-package of the parent *)

Record InstanceCommon := mkCommon {
  common_name : string;
  common_host : option string;
}.

Record IoPackageFile := mkIoPackage { common : option InstanceCommon }.

(** [parentConfig?.common?.host], when it is truthy. *)
Definition parent_host (parentConfig : option IoPackageFile) : option (InstanceCommon * string) :=
  match parentConfig with
  | Some {| common := Some c |} =>
      match common_host c with
      | Some h => if String.eqb h EmptyString then None else Some (c, h)
      | None => None
      end
  | _ => None
  end.

(** ** [String.prototype.replace] with the host pattern *)

Definition is_digit (c : ascii) : bool :=
  (48 <=? nat_of_ascii c)%nat && (nat_of_ascii c <=? 57)%nat.

Fixpoint strip_prefix (p s : string) : option string :=
  match p, s with
  | EmptyString, _ => Some s
  | String a p', String b s' => if Ascii.eqb a b then strip_prefix p' s' else None
  | String _ _, EmptyString => None
  end.

(** The longest run of digits at the head of [s], and what follows it. *)
Fixpoint take_digits (s : string) : string * string :=
  match s with
  | EmptyString => (EmptyString, EmptyString)
  | String c s' =>
      if is_digit c then (String c (take_digits s').1, (take_digits s').2)
      else (EmptyString, s)
  end.

(** A match of [system\.adapter\.<name>\.\d+\.] at the head of [s]: the
    matched text and the rest. The name is taken literally: adapter names
    are made of letters, digits, [-] and [_], none of which is special in a
    regular expression. *)
Definition match_adapter_prefix (name s : string) : option (string * string) :=
  match strip_prefix ("system.adapter." +:+ name +:+ ".") s with
  | None => None
  | Some r1 =>
      match take_digits r1 with
      | (String d ds, String c r2) =>
          if Ascii.eqb c "."%char then
            Some ("system.adapter." +:+ name +:+ "." +:+ String d ds +:+ ".", r2)
          else None
      | _ => None
      end
  end.

(** The replacement text: [$$], [$&], [$`] and [$'] are expanded; the
    pattern has no groups, so every other [$] stands for itself. *)
Fixpoint expand_replacement (repl matched before after : string) : string :=
  match repl with
  | EmptyString => EmptyString
  | String c r =>
      if Ascii.eqb c "$"%char then
        match r with
        | String c' r' =>
            if Ascii.eqb c' "$"%char then String "$"%char (expand_replacement r' matched before after)
            else if Ascii.eqb c' "&"%char then matched +:+ expand_replacement r' matched before after
            else if Ascii.eqb c' "`"%char then before +:+ expand_replacement r' matched before after
            else if Ascii.eqb c' "'"%char then after +:+ expand_replacement r' matched before after
            else String c (expand_replacement r matched before after)
        | EmptyString => String c EmptyString
        end
      else String c (expand_replacement r matched before after)
  end.

(** The leftmost match is replaced; without a match the text is unchanged. *)
Fixpoint replace_from (name repl before s : string) : string :=
  match match_adapter_prefix name s with
  | Some (matched, after) =>
      before +:+ expand_replacement repl matched before after +:+ after
  | None =>
      match s with
      | EmptyString => before
      | String c s' => replace_from name repl (before +:+ String c EmptyString) s'
      end
  end.

(** [ns.replace(new RegExp(`system\\.adapter\\.${name}\\.\\d+\\.`), `system.host.${host}.`)] *)
Definition hostNamespaceOf (pluginNamespace name host : string) : string :=
  replace_from name ("system.host." +:+ host +:+ ".") EmptyString pluginNamespace.




(** ** [Object.keys] *)

Definition digit_value (c : ascii) : N := (N_of_ascii c - 48)%N.

Fixpoint decimal_value (acc : N) (s : string) : N :=
  match s with
  | EmptyString => acc
  | String c s' => decimal_value (10 * acc + digit_value c) s'
  end.

Fixpoint all_digits (s : string) : bool :=
  match s with
  | EmptyString => true
  | String c s' => is_digit c && all_digits s'
  end.

(** An array index: the canonical decimal text of an integer below
    [2^32 - 1]. *)
Definition array_index (s : string) : option N :=
  match s with
  | EmptyString => None
  | String c s' =>
      if all_digits s && (negb (Ascii.eqb c "0"%char) || String.eqb s' EmptyString)
      then (if (decimal_value 0 s <? 4294967295)%N then Some (decimal_value 0 s) else None)
      else None
  end.

Definition is_index (s : string) : Prop := is_Some (array_index s).

Definition index_le (a b : string) : Prop :=
  (default 0 (array_index a) ≤ default 0 (array_index b))%N.

#[global] Instance index_le_dec : RelDecision index_le.
Proof. intros a b. unfold index_le. apply _. Defined.

(** The own keys of an object whose properties were created in the order
    [created]: array indices first, in ascending order, then the other keys
    in creation order. *)
Definition ownKeys (created : list string) : list string :=
  merge_sort index_le (filter is_index created) ++ filter (λ k, ¬ is_index k) created.

(** ** An object as a map: properties in creation order *)

Section properties.
Context {V : Type}.

Fixpoint get_prop (name : string) (o : list (string * V)) : option V :=
  match o with
  | [] => None
  | (k, v) :: o' => if String.eqb k name then Some v else get_prop name o'
  end.

(** [o[name] = v]: an existing property keeps its place, a new one is
    created last. *)
Fixpoint set_prop (name : string) (v : V) (o : list (string * V)) : list (string * V) :=
  match o with
  | [] => [(name, v)]
  | (k, w) :: o' =>
      if String.eqb k name then (k, v) :: o' else (k, w) :: set_prop name v o'
  end.
End properties.

(** ** Class [PluginBase] *)

Module PluginBase.

(** The fields of an instance. [objectsDb] and [statesDb] are [false]
    while the field is [null] and [true] once [setDatabase] stored the
    client of the environment in it; [log] is the prefix of the
    instance's [NamespaceLogger]; [class] is the class the instance was
    constructed from. *)
Record t := mk {
  pluginScope : Scope;
  parentNamespace : string;
  pluginNamespace : string;
  log : string;
  iobrokerConfig : Config;
  parentPackage : Config;
  settings : PluginSettings;
  objectsDb : bool;
  statesDb : bool;
  isActive : bool;
  parentIoPackage : option (option IoPackageFile);
  class : PluginClass;
}.

(** [constructor(settings)] of the base class. *)
Definition constructor (cls : PluginClass) (s : PluginSettings) : t :=
  {| pluginScope := ps_pluginScope s;
     parentNamespace := ps_parentNamespace s;
     pluginNamespace := ps_pluginNamespace s;
     log := ps_pluginLogNamespace s;
     iobrokerConfig := ps_iobrokerConfig s;
     parentPackage := default ∅ (ps_parentPackage s);
     settings := s;
     objectsDb := false;
     statesDb := false;
     isActive := false;
     parentIoPackage := None;
     class := cls |}.

Definition set_isActive (b : bool) (p : t) : t :=
  mk (pluginScope p) (parentNamespace p) (pluginNamespace p) (log p) (iobrokerConfig p)
     (parentPackage p) (settings p) (objectsDb p) (statesDb p) b (parentIoPackage p) (class p).

Definition set_parentIoPackage (c : option IoPackageFile) (p : t) : t :=
  mk (pluginScope p) (parentNamespace p) (pluginNamespace p) (log p) (iobrokerConfig p)
     (parentPackage p) (settings p) (objectsDb p) (statesDb p) (isActive p) (Some c) (class p).

(** [setDatabase(objectsDb, statesDb)] *)
Definition setDatabase (p : t) : t :=
  mk (pluginScope p) (parentNamespace p) (pluginNamespace p) (log p) (iobrokerConfig p)
     (parentPackage p) (settings p) true true (isActive p) (parentIoPackage p) (class p).

(** A method call: the instance, the configuration object the caller
    passed by reference (absent when it is falsy), and the environment. *)
Record Frame := mkFrame {
  this : t;
  pluginConfig : option Config;
  env : Env;
}.

Definition on_this (g : t → t) (f : Frame) : Frame :=
  mkFrame (g (this f)) (pluginConfig f) (env f).
Definition on_env (g : Env → Env) (f : Frame) : Frame :=
  mkFrame (this f) (pluginConfig f) (g (env f)).

(** [this.log.<level>(msg)], through the [NamespaceLogger]. *)
Definition log_line (lvl : Level) (msg : string) : M Frame unit :=
  modify (λ f, on_env (add_log (lvl, log (this f) +:+ " " +:+ msg)) f).

(** [init(pluginConfig)] of the implementer. *)
Definition init (cfg : Config) : M Frame unit :=
  λ f, let f' := on_env (add_call (CallInit (pluginNamespace (this f)) cfg)) f in
       match impl_init (class (this f)) cfg (calls (env f)) with
       | None => (Ok tt, f')
       | Some e => (Throw e, f')
       end.

(** [destroy()] of the implementer. *)
Definition destroy : M Frame bool :=
  λ f, let f' := on_env (add_call (CallDestroy (pluginNamespace (this f)))) f in
       match impl_destroy (class (this f)) (calls (env f)) with
       | DestroyResolves b => (Ok b, f')
       | DestroyRejects e => (Throw e, f')
       end.

Definition getState (id : string) : M Frame (option State) :=
  λ f, if statesDb (this f) then
         let '(r, db) := getStateAsync id (statesClient (env f)) in
         (r, on_env (with_states db) f)
       else (Throw (new_Error "States Database not initialized."), f).

Definition setState (id : string) (st : State) : M Frame string :=
  λ f, if statesDb (this f) then
         let '(r, db) := setStateAsync id st (statesClient (env f)) in
         (r, on_env (with_states db) f)
       else (Throw (new_Error "States Database not initialized."), f).

Definition extendObject (id : string) (ty : ObjectType) : M Frame unit :=
  λ f, if objectsDb (this f) then
         let '(r, db) := extendObjectAsync id ty (objectsClient (env f)) in
         (r, on_env (with_objects db) f)
       else (Throw (new_Error "Objects Database not initialized."), f).

Definition setActive (active : bool) : M Frame unit :=
  modify (on_this (set_isActive active)) ;;;
  ns <-- (λ f, (Ok (pluginNamespace (this f)), f)) ;;
  _ <-- setState (ns +:+ ".enabled") {| val := JBool active; ack := true; from := ns |} ;;
  ret tt.

(** [pluginConfig.enabled = activate]; on a missing object the
    assignment throws. *)
Definition assign_enabled (activate : bool) : M Frame unit :=
  λ f, match pluginConfig f with
       | Some cfg =>
           (Ok tt, mkFrame (this f) (Some (<["enabled" := JBool activate]> cfg)) (env f))
       | None =>
           (Throw (new_Error "Cannot set properties of undefined (setting 'enabled')"), f)
       end.

(** [#initialize(pluginConfig, activate)] *)
Definition initialize (activate : bool) : M Frame unit :=
  if activate then
    log_line debug ("Initialize Plugin (enabled=" +:+ string_of_bool activate +:+ ")") ;;;
    assign_enabled activate ;;;
    try_catch
      (f <-- get ;;
       init (default ∅ (pluginConfig f)) ;;;
       setActive true)
      (λ err,
         log_line error ("Failed to initialize plugin: " +:+ message err) ;;;
         setActive false)
  else
    log_line debug ("Do not initialize Plugin (enabled=" +:+ string_of_bool activate +:+ ")") ;;;
    setActive false.

(** The flag a state gives: [s && typeof s.val !== 'object' &&
    s.val !== undefined], and then [!!s.val]. *)
Definition flag (s : option State) : option bool :=
  match s with
  | Some st => if concrete (val st) then Some (truthy (val st)) else None
  | None => None
  end.

(** [pluginConfig.enabled === undefined ? true : !!pluginConfig.enabled] *)
Definition configured (cfg : Config) : bool :=
  match prop cfg "enabled" with
  | JUndefined => true
  | v => truthy v
  end.

(** [initPlugin(pluginConfig, parentConfig)] *)
Definition initPlugin (parentConfig : option IoPackageFile) : M Frame unit :=
  f <-- get ;;
  match pluginConfig f with
  | None => throw (new_Error "No configuration for plugin")
  | Some cfg =>
      let ns := pluginNamespace (this f) in
      let last := initialize (configured cfg) in
      modify (on_this (set_parentIoPackage parentConfig)) ;;;
      pluginEnabledState <--
        try_catch
          (extendObject ns TFolder ;;;
           extendObject (ns +:+ ".enabled") TState ;;;
           getState (ns +:+ ".enabled"))
          (λ _, ret None) ;;
      match flag pluginEnabledState with
      | Some b => initialize b
      | None =>
          match pluginScope (this f), parent_host parentConfig with
          | adapter, Some (c, host) =>
              let hostNamespace := hostNamespaceOf ns (common_name c) host in
              hostState <--
                try_catch (getState (hostNamespace +:+ ".enabled")) (λ _, ret None) ;;
              match flag hostState with
              | Some b => initialize b
              | None => last
              end
          | _, _ => last
          end
      end
  end.

End PluginBase.

(** ** Class [PluginHandler] *)

(** [instance?: PluginBase | null]: the property is missing on a fresh entry
    and after [delete], [null] after a constructor threw. *)
Inductive PluginInstance :=
| missing
| null
| instance_of (p : PluginBase.t).

Record PluginEntry := mkEntry {
  config : option Config;
  instance : PluginInstance;
}.

Record PluginHandlerSettings := mkSettings {
  scope : Scope;
  namespace : string;
  logNamespace : string;
  iobrokerConfig : Config;
  parentPackage : option Config;
  controllerVersion : string;
}.

(** [resolveDirsOrDir: string | string[]] *)
Inductive ResolveDirs :=
| OneDir (dir : string)
| Dirs (dirs : list string).

(** [typeof resolveDirsOrDir === 'string' ? [resolveDirsOrDir] : resolveDirsOrDir] *)
Definition dirs_of (resolveDirsOrDir : ResolveDirs) : list string :=
  match resolveDirsOrDir with
  | OneDir d => [d]
  | Dirs l => l
  end.

Module PluginHandler.

(** The handler with its private fields, and the environment it runs in. *)
Record t := mk {
  settings : PluginHandlerSettings;
  plugins : list (string * PluginEntry);
  world : Env;
}.

(** [new PluginHandler(settings)] *)
Definition constructor (s : PluginHandlerSettings) (e : Env) : t :=
  {| settings := s; plugins := []; world := e |}.

Definition on_plugins (g : list (string * PluginEntry) → list (string * PluginEntry))
    (h : t) : t :=
  mk (settings h) (g (plugins h)) (world h).
Definition on_world (g : Env → Env) (h : t) : t :=
  mk (settings h) (plugins h) (g (world h)).

(** [this.#log.<level>(msg)] *)
Definition log_line (lvl : Level) (msg : string) : M t unit :=
  modify (λ h, on_world (add_log (lvl, logNamespace (settings h) +:+ " " +:+ msg)) h).

(** [this.#plugins[name]?.instance], when it is truthy. *)
Definition live (name : string) (h : t) : option PluginBase.t :=
  match get_prop name (plugins h) with
  | Some {| instance := instance_of p |} => Some p
  | _ => None
  end.

(** A method of the instance of [name] runs on the instance and on the
    configuration object of the entry, both shared with the entry. *)
Definition call {A} (name : string) (p : PluginBase.t) (m : M PluginBase.Frame A) : M t A :=
  λ h, let cfg := match get_prop name (plugins h) with
                  | Some e => config e
                  | None => None
                  end in
       let '(r, f) := m (PluginBase.mkFrame p cfg (world h)) in
       (r, mk (settings h)
              (set_prop name (mkEntry (PluginBase.pluginConfig f)
                                      (instance_of (PluginBase.this f))) (plugins h))
              (PluginBase.env f)).

(** [delete this.#plugins[name].instance] *)
Definition delete_instance (name : string) : M t unit :=
  modify (on_plugins (λ o, match get_prop name o with
                           | Some e => set_prop name (mkEntry (config e) missing) o
                           | None => o
                           end)).

(** A call that leaves the package is noted in the environment. *)
Definition record_call (c : Call) : M t unit := modify (on_world (add_call c)).

(** [err.stack] is logged when there is one. *)
Definition log_stack (lvl : Level) (err : Error) : M t unit :=
  when (negb (String.eqb (stack err) EmptyString)) (log_line lvl (stack err)).

(** The settings object [instantiatePlugin] builds for the constructor. *)
Definition plugin_settings (s : PluginHandlerSettings) (name : string)
    (resolveDirs : list string) : PluginSettings :=
  {| ps_pluginScope := scope s;
     ps_parentNamespace := namespace s;
     ps_pluginNamespace := namespace s +:+ ".plugins." +:+ name;
     ps_pluginLogNamespace := logNamespace s +:+ " Plugin " +:+ name;
     ps_iobrokerConfig := iobrokerConfig s;
     ps_parentPackage := parentPackage s;
     ps_controllerVersion := controllerVersion s;
     ps_adapterDir := if decide (1 < length resolveDirs) then resolveDirs !! 0 else None;
     ps_jsControllerDir :=
       if decide (1 < length resolveDirs) then resolveDirs !! 1 else resolveDirs !! 0 |}.

(** [instantiatePlugin(name, config, resolveDirsOrDir)]; [cfg] is absent
    when the configuration given is falsy. *)
Definition instantiatePlugin (name : string) (cfg : option Config)
    (resolveDirsOrDir : ResolveDirs) : M t unit :=
  h <-- get ;;
  match live name h with
  | Some _ => log_line info ("Ignore duplicate plugin " +:+ name)
  | None =>
      let resolveDirs := dirs_of resolveDirsOrDir in
      let unresolved := log_line error ("Plugin " +:+ name +:+ " could not be resolved") in
      record_call (CallResolve ("@iobroker/plugin-" +:+ name) resolveDirs) ;;;
      match require_resolve (node (world h)) ("@iobroker/plugin-" +:+ name) resolveDirs with
      | ResolveThrows => unresolved
      | Resolved pluginPath =>
          if String.eqb pluginPath EmptyString then unresolved
          else
            record_call (CallRequire pluginPath) ;;;
            match require (node (world h)) pluginPath with
            | RequireThrows e =>
                log_line error
                  ("Plugin " +:+ name +:+ " could not be required: " +:+ message e)
            | Required x =>
                let ResolvedPlugin := default (exported x) (exported_default x) in
                let pluginSettings := plugin_settings (settings h) name resolveDirs in
                modify (on_plugins (set_prop name (mkEntry cfg missing))) ;;;
                record_call (CallNew (ps_pluginNamespace pluginSettings)) ;;;
                match impl_constructor ResolvedPlugin pluginSettings with
                | None =>
                    modify (on_plugins (set_prop name
                      (mkEntry cfg
                         (instance_of (PluginBase.constructor ResolvedPlugin pluginSettings)))))
                | Some e =>
                    log_line error
                      ("Plugin " +:+ name +:+ " could not be initialized: " +:+ message e) ;;;
                    modify (on_plugins (set_prop name (mkEntry cfg null)))
                end
            end
      end
  end.

(** A loop over an array, one turn after the other. *)
Fixpoint for_each {S A} (l : list A) (body : A → M S unit) : M S unit :=
  match l with
  | [] => ret tt
  | x :: l' => body x ;;; for_each l' body
  end.

(** [addPlugins(configs, resolveDirs)]; [configs] is absent when falsy,
    and else an object in property creation order. *)
Definition addPlugins (configs : option (list (string * option Config)))
    (resolveDirs : ResolveDirs) : M t unit :=
  match configs with
  | None => ret tt
  | Some cs =>
      for_each (ownKeys cs.*1)
        (λ plugin, instantiatePlugin plugin (default None (get_prop plugin cs)) resolveDirs)
  end.

(** [setDatabaseForPlugin(name, objectsDb, statesDb)], with the clients of
    the environment. *)
Definition setDatabaseForPlugin (name : string) : M t unit :=
  h <-- get ;;
  match live name h with
  | Some p => call name p (modify (PluginBase.on_this PluginBase.setDatabase))
  | None => ret tt
  end.

(** [setDatabaseForPlugins(objectsDb, statesDb)] *)
Definition setDatabaseForPlugins : M t unit :=
  h <-- get ;;
  for_each (ownKeys (plugins h).*1) setDatabaseForPlugin.

(** [initPlugin(name, parentConfig)] *)
Definition initPlugin (name : string) (parentConfig : option IoPackageFile) : M t unit :=
  h <-- get ;;
  match live name h with
  | None => throw (new_Error "Please instantiate plugin first!")
  | Some p =>
      try_catch
        (call name p (PluginBase.initPlugin parentConfig))
        (λ err,
           log_line warn ("Plugin " +:+ name +:+
                          " destroyed because not initialized correctly: " +:+ message err) ;;;
           log_stack debug err ;;;
           h' <-- get ;;
           try_catch
             (_ <-- call name (default p (live name h')) PluginBase.destroy ;; ret tt)
             (λ err,
                log_line warn ("Cannot destroy plugin " +:+ name +:+ ": " +:+ message err) ;;;
                log_stack warn err) ;;;
           delete_instance name)
  end.

(** [initPlugins(parentConfig)]: the entries are those of
    [Object.entries(this.#plugins)] when the loop starts; the instance of
    an entry is looked at when its turn comes. *)
Definition initPlugins (parentConfig : option IoPackageFile) : M t unit :=
  h <-- get ;;
  for_each (ownKeys (plugins h).*1)
    (λ pluginName,
       h' <-- get ;;
       match live pluginName h' with
       | None => ret tt
       | Some _ => initPlugin pluginName parentConfig
       end).

(** [destroy(name, force)]; a [force] left out is [false]. *)
Definition destroy (name : string) (force : bool) : M t bool :=
  h <-- get ;;
  match live name h with
  | Some p =>
      destroyed <--
        try_catch
          (call name p PluginBase.destroy)
          (λ err,
             log_line warn ("Plugin " +:+ name +:+ " could not be destroyed: " +:+ message err) ;;;
             log_stack warn err ;;;
             ret false) ;;
      if destroyed || force then
        log_line debug ("Plugin " +:+ name +:+ " destroyed") ;;;
        when (negb force)
          (h' <-- get ;; call name (default p (live name h')) (PluginBase.setActive false)) ;;;
        delete_instance name ;;;
        ret true
      else
        log_line warn ("Plugin " +:+ name +:+ " could not be destroyed") ;;;
        ret false
  | None => ret true
  end.

(** [destroyAll()] *)
Definition destroyAll : M t unit :=
  h <-- get ;;
  for_each (ownKeys (plugins h).*1)
    (λ pluginName,
       try_catch
         (_ <-- destroy pluginName true ;; ret tt)
         (λ err,
            log_line warn ("Plugin " +:+ quote +:+ pluginName +:+ quote +:+
                           " could not be destroyed: " +:+ message err))).

(** *** Queries *)

Definition getPluginInstance (name : string) (h : t) : option PluginBase.t :=
  live name h.

Definition getPluginConfig (name : string) (h : t) : option Config :=
  match get_prop name (plugins h) with
  | Some e => config e
  | None => None
  end.

Definition pluginExists (name : string) (h : t) : bool :=
  bool_decide (is_Some (get_prop name (plugins h))).

Definition isPluginInstantiated (name : string) (h : t) : bool :=
  bool_decide (is_Some (live name h)).

Definition isPluginActive (name : string) (h : t) : bool :=
  match live name h with
  | Some p => PluginBase.isActive p
  | None => false
  end.

End PluginHandler.

(** ** The enable-resolution cascade, as the specification words it *)

Module Cascade.
Import PluginBase.

(** The id of the state that holds the flag of a plugin namespace. *)
Definition enabledId (ns : string) : string := ns +:+ ".enabled".

(** The flag the plugin reads at [id]: what [this.getState(id)] resolves
    to, when it resolves to a state with a concrete value. *)
Definition reads (id : string) (f : Frame) : option bool :=
  match (getState id f).1 with
  | Ok s => flag s
  | Throw _ => None
  end.

(** Step 3: the folder object and the state object of the namespace are
    both ensured. *)
Definition prepared (f : Frame) : bool :=
  let ns := pluginNamespace (this f) in
  match (extendObject ns TFolder ;;; extendObject (enabledId ns) TState) f with
  | (Ok _, _) => true
  | (Throw _, _) => false
  end.

(** Steps 2 and 3: the parent configuration is recorded and the objects
    are ensured as far as the store lets them. *)
Definition prepare (parentConfig : option IoPackageFile) : M Frame unit :=
  f <-- get ;;
  let ns := pluginNamespace (this f) in
  modify (on_this (set_parentIoPackage parentConfig)) ;;;
  try_catch (extendObject ns TFolder ;;; extendObject (enabledId ns) TState)
            (λ _, ret tt).

(** Rule 5a: the flag persisted in the namespace of the plugin. *)
Definition own_flag (f : Frame) : option bool :=
  if prepared f then reads (enabledId (pluginNamespace (this f))) f else None.

(** Rule 5b: in adapter scope, with a host named by the parent, the flag
    persisted in the namespace of the host. *)
Definition host_flag (parentConfig : option IoPackageFile) (f : Frame) : option bool :=
  match pluginScope (this f), parent_host parentConfig with
  | adapter, Some (c, host) =>
      reads (enabledId (hostNamespaceOf (pluginNamespace (this f)) (common_name c) host)) f
  | _, _ => None
  end.

(** The states database is set and takes a write of the flag of the
    plugin. *)
Definition accepts_flag (p : t) (e : Env) : bool :=
  statesDb p &&
  bool_decide (states_unwritable (statesClient e) !! enabledId (pluginNamespace p) = None).

(** Rules 5a to 5c, the first that applies. *)
Definition decision (parentConfig : option IoPackageFile) (f : Frame) (cfg : Config) : bool :=
  match own_flag f with
  | Some b => b
  | None =>
      match host_flag parentConfig f with
      | Some b => b
      | None => configured cfg
      end
  end.
End Cascade.

(** ** Loading a plugin class *)

Inductive LoadOutcome :=
| Unresolved
| Unloadable (e : Error)
| Loaded (cls : PluginClass).

(** What resolving and requiring [@iobroker/plugin-<name>] gives. *)
Definition load (n : ModuleSystem) (name : string) (resolveDirs : list string) : LoadOutcome :=
  match require_resolve n ("@iobroker/plugin-" +:+ name) resolveDirs with
  | ResolveThrows => Unresolved
  | Resolved pluginPath =>
      if String.eqb pluginPath EmptyString then Unresolved
      else match require n pluginPath with
           | RequireThrows e => Unloadable e
           | Required x => Loaded (default (exported x) (exported_default x))
           end
  end.

(** ** The operations of the handler, one after the other *)

Inductive Operation :=
| AddPlugins (configs : option (list (string * option Config))) (resolveDirs : ResolveDirs)
| InstantiatePlugin (name : string) (cfg : option Config) (resolveDirs : ResolveDirs)
| SetDatabaseForPlugin (name : string)
| SetDatabaseForPlugins
| InitPlugin (name : string) (parentConfig : option IoPackageFile)
| InitPlugins (parentConfig : option IoPackageFile)
| Destroy (name : string) (force : bool)
| DestroyAll.

(** The state an operation leaves, whether it resolves or rejects. *)
Definition perform (op : Operation) (h : PluginHandler.t) : PluginHandler.t :=
  match op with
  | AddPlugins configs dirs => after (PluginHandler.addPlugins configs dirs) h
  | InstantiatePlugin name cfg dirs => after (PluginHandler.instantiatePlugin name cfg dirs) h
  | SetDatabaseForPlugin name => after (PluginHandler.setDatabaseForPlugin name) h
  | SetDatabaseForPlugins => after PluginHandler.setDatabaseForPlugins h
  | InitPlugin name parentConfig => after (PluginHandler.initPlugin name parentConfig) h
  | InitPlugins parentConfig => after (PluginHandler.initPlugins parentConfig) h
  | Destroy name force => after (PluginHandler.destroy name force) h
  | DestroyAll => after PluginHandler.destroyAll h
  end.

(** The state reached from a new handler by a sequence of operations. *)
Definition reached (s : PluginHandlerSettings) (e : Env) (ops : list Operation)
    : PluginHandler.t :=
  foldl (λ h op, perform op h) (PluginHandler.constructor s e) ops.

(** What the handler takes the implementer's [destroy] to answer: a
    rejection counts as [false]. *)
Definition answer (d : DestroyOutcome) : bool :=
  match d with
  | DestroyResolves b => b
  | DestroyRejects _ => false
  end.


(** No entry is lost between [h] and [h'], and the keys stay distinct. *)
Definition grows (h h' : PluginHandler.t) : Prop :=
  (∀ name, is_Some (get_prop name (PluginHandler.plugins h)) →
           is_Some (get_prop name (PluginHandler.plugins h'))) ∧
  (NoDup (PluginHandler.plugins h).*1 → NoDup (PluginHandler.plugins h').*1).

Definition monotone {A} (m : M PluginHandler.t A) : Prop := ∀ h, grows h (after m h).

(** ** Scenarios

    A controller on host [h1] and an instance of the adapter [hm-rpc], with
    plugin classes that behave well or badly in one way each. *)

Module Scenario.

Definition boom : Error := new_Error "boom".

(** [init] resolves and [destroy] resolves to [true]. *)
Definition works : PluginClass :=
  {| impl_constructor := λ _, None;
     impl_init := λ _ _, None;
     impl_destroy := λ _, DestroyResolves true |}.

(** [init] rejects. *)
Definition fails_init : PluginClass :=
  {| impl_constructor := λ _, None;
     impl_init := λ _ _, Some boom;
     impl_destroy := λ _, DestroyResolves true |}.

(** [destroy] resolves to [false]. *)
Definition stubborn : PluginClass :=
  {| impl_constructor := λ _, None;
     impl_init := λ _ _, None;
     impl_destroy := λ _, DestroyResolves false |}.

(** [destroy] rejects. *)
Definition fails_destroy : PluginClass :=
  {| impl_constructor := λ _, None;
     impl_init := λ _ _, None;
     impl_destroy := λ _, DestroyRejects boom |}.

(** The constructor throws. *)
Definition fails_constructor : PluginClass :=
  {| impl_constructor := λ _, Some boom;
     impl_init := λ _ _, None;
     impl_destroy := λ _, DestroyResolves true |}.

(** The packages that are installed; every other request fails to
    resolve. *)
Definition installed : list (string * PluginClass) :=
  [("sentry", works); ("broken", fails_init); ("stubborn", stubborn);
   ("crashing", fails_destroy); ("unbuildable", fails_constructor);
   ("plain", PluginBase_class)].

Definition modules : ModuleSystem :=
  {| require_resolve := λ request _,
       match strip_prefix "@iobroker/plugin-" request with
       | Some name =>
           if bool_decide (is_Some (get_prop name installed))
           then Resolved ("/opt/iobroker/node_modules/" +:+ request)
           else ResolveThrows
       | None => ResolveThrows
       end;
     require := λ path,
       match strip_prefix "/opt/iobroker/node_modules/@iobroker/plugin-" path with
       | Some name =>
           match get_prop name installed with
           | Some cls => Required (mkExports cls None)
           | None => RequireThrows (new_Error "Cannot find module")
           end
       | None => RequireThrows (new_Error "Cannot find module")
       end |}.

Definition empty_store : Env :=
  {| objectsClient := mkObjects ∅ ∅;
     statesClient := mkStates ∅ ∅ ∅;
     node := modules;
     logged := [];
     calls := [] |}.

Definition controller_settings : PluginHandlerSettings :=
  {| scope := controller;
     namespace := "system.host.h1";
     logNamespace := "system.host.h1";
     iobrokerConfig := ∅;
     parentPackage := None;
     controllerVersion := "7.0.0" |}.


Definition dir : ResolveDirs := OneDir "/opt/iobroker".

(** A plugin instance as [instantiatePlugin] makes it, here with the
    databases set. *)
Definition plugin (s : PluginHandlerSettings) (name : string) (cls : PluginClass)
    : PluginBase.t :=
  PluginBase.setDatabase
    (PluginBase.constructor cls (PluginHandler.plugin_settings s name ["/opt/iobroker"])).

Definition disabled (ns : string) : State := mkState (JBool false) true ns.

(** A store in which the flag of the sentry plugin of the controller is
    set to [false]. *)
Definition sentry_off (faulty : gmap string Error) : Env :=
  {| objectsClient := mkObjects ∅ faulty;
     statesClient :=
       mkStates {[ "system.host.h1.plugins.sentry.enabled" :=
                     disabled "system.host.h1.plugins.sentry" ]} ∅ ∅;
     node := modules;
     logged := [];
     calls := [] |}.



(** A controller that has added the plugins [names], each with an empty
    configuration, and has set the databases for them. *)
Definition controller_with (names : list string) (e : Env) : PluginHandler.t :=
  after PluginHandler.setDatabaseForPlugins
    (after (PluginHandler.addPlugins (Some ((λ n, (n, Some ∅)) <$> names)) dir)
       (PluginHandler.constructor controller_settings e)).


(** The sentry plugin of the controller, about to be initialised with an
    empty configuration, its flag persisted as [false]. *)
Definition sentry_frame (faulty : gmap string Error) : PluginBase.Frame :=
  PluginBase.mkFrame (plugin controller_settings "sentry" works) (Some ∅) (sentry_off faulty).


(** The sentry plugin as [instantiatePlugin] leaves it: no database set. *)
Definition fresh_frame : PluginBase.Frame :=
  PluginBase.mkFrame
    (PluginBase.constructor works
       (PluginBase.settings (plugin controller_settings "sentry" works)))
    (Some ∅) empty_store.

(** The same with the databases set. *)
Definition ready_frame : PluginBase.Frame :=
  PluginBase.mkFrame (plugin controller_settings "sentry" works) (Some ∅) empty_store.

(** The same with the databases set, and a states store that rejects the
    write of the flag. *)
Definition readonly_frame : PluginBase.Frame :=
  PluginBase.mkFrame (plugin controller_settings "sentry" works) (Some ∅)
    {| objectsClient := mkObjects ∅ ∅;
       statesClient := mkStates ∅ ∅ {[ "system.host.h1.plugins.sentry.enabled" := boom ]};
       node := modules;
       logged := [];
       calls := [] |}.

(** A store that rejects the write of the flag of the plugin [broken]. *)
Definition readonly_store : Env :=
  {| objectsClient := mkObjects ∅ ∅;
     statesClient := mkStates ∅ ∅ {[ "system.host.h1.plugins.broken.enabled" := boom ]};
     node := modules;
     logged := [];
     calls := [] |}.

End Scenario.

(** ** What [initPlugin] comes to *)

Module Outcome.

(** The error a write of the flag of the plugin fails with, if it fails:
    the database is not set, or the store rejects the write. *)
Definition write_error (p : PluginBase.t) (e : Env) : option Error :=
  if PluginBase.statesDb p then
    states_unwritable (statesClient e) !! Cascade.enabledId (PluginBase.pluginNamespace p)
  else Some (new_Error "States Database not initialized.").

(** The implementer's [init] resolves on the configuration marked
    enabled. *)
Definition init_resolves (p : PluginBase.t) (cfg : Config) (e : Env) : bool :=
  match impl_init (PluginBase.class p) (<["enabled" := JBool true]> cfg) (calls e) with
  | None => true
  | Some _ => false
  end.

(** The plugin ends active: the cascade decides so, [init] resolves and
    the flag can be written. *)
Definition activated (parentConfig : option IoPackageFile) (f : PluginBase.Frame)
    (cfg : Config) : bool :=
  Cascade.decision parentConfig f cfg &&
  init_resolves (PluginBase.this f) cfg (PluginBase.env f) &&
  Cascade.accepts_flag (PluginBase.this f) (PluginBase.env f).

(** The configuration after [initPlugin]: marked enabled when the cascade
    decides to activate, and else as it was. *)
Definition configuration (parentConfig : option IoPackageFile) (f : PluginBase.Frame)
    (cfg : Config) : Config :=
  if Cascade.decision parentConfig f cfg then <["enabled" := JBool true]> cfg else cfg.

(** The call of [init], made when the cascade decides to activate. *)
Definition init_call (parentConfig : option IoPackageFile) (f : PluginBase.Frame)
    (cfg : Config) : list Call :=
  if Cascade.decision parentConfig f cfg
  then [CallInit (PluginBase.pluginNamespace (PluginBase.this f))
                 (<["enabled" := JBool true]> cfg)]
  else [].

End Outcome.

(** ** What holds of every registry *)

(** An instance as the handler with the settings [s] makes it for [name]:
    the fields the constructor sets from the settings, which no method
    assigns to afterwards, and the two database fields, which
    [setDatabase] sets together. *)
Definition made_for (s : PluginHandlerSettings) (name : string) (p : PluginBase.t) : Prop :=
  PluginBase.pluginScope p = scope s ∧
  PluginBase.parentNamespace p = namespace s ∧
  PluginBase.pluginNamespace p = namespace s +:+ ".plugins." +:+ name ∧
  PluginBase.log p = logNamespace s +:+ " Plugin " +:+ name ∧
  PluginBase.objectsDb p = PluginBase.statesDb p.

(** The flag in memory is mirrored by the store: an active instance has
    its flag persisted as an acknowledged [true] of its own. *)
Definition mirrored (e : Env) (p : PluginBase.t) : Prop :=
  PluginBase.isActive p = true →
  states (statesClient e) !! Cascade.enabledId (PluginBase.pluginNamespace p)
  = Some (mkState (JBool true) true (PluginBase.pluginNamespace p)).

Definition consistent (h : PluginHandler.t) : Prop :=
  NoDup (PluginHandler.plugins h).*1 ∧
  ∀ name p, PluginHandler.live name h = Some p →
            made_for (PluginHandler.settings h) name p ∧ mirrored (PluginHandler.world h) p.

(** A property of the handler that a piece of code keeps, whether it
    resolves or rejects. *)
Definition keeps (I : PluginHandler.t → Prop) {A} (m : M PluginHandler.t A) : Prop :=
  ∀ h, I h → I (after m h).

(** A piece of code that leaves the settings of the handler alone. *)
Definition steady {A} (m : M PluginHandler.t A) : Prop :=
  ∀ h, PluginHandler.settings (after m h) = PluginHandler.settings h.

(** One turn of the loop of [initPlugins]: an entry without an instance is
    skipped. *)
Definition initPlugins_turn (parentConfig : option IoPackageFile) (h : PluginHandler.t)
    (pluginName : string) : PluginHandler.t :=
  match PluginHandler.live pluginName h with
  | Some _ => after (PluginHandler.initPlugin pluginName parentConfig) h
  | None => h
  end.


(** ** Further scenarios *)

Module Cases.

(** A store that holds a flag at [id], and nothing else. *)
Definition flagged (id : string) (v : JsValue) (ns : string) : Env :=
  {| objectsClient := mkObjects ∅ ∅;
     statesClient := mkStates {[ id := mkState v true ns ]} ∅ ∅;
     node := Scenario.modules;
     logged := [];
     calls := [] |}.

(** The sentry plugin of the controller, its flag persisted as the text
    [false]. *)
Definition texted_frame : PluginBase.Frame :=
  PluginBase.mkFrame
    (Scenario.plugin Scenario.controller_settings "sentry" Scenario.works) (Some ∅)
    (flagged "system.host.h1.plugins.sentry.enabled" (JString "false")
       "system.host.h1.plugins.sentry").


(** The sentry plugin of the controller, configured as disabled, on an
    empty store. *)
Definition opted_out_frame : PluginBase.Frame :=
  PluginBase.mkFrame
    (Scenario.plugin Scenario.controller_settings "sentry" Scenario.works)
    (Some {[ "enabled" := JBool false ]}) Scenario.empty_store.

(** The plugin [broken] of the controller, whose [init] rejects, on an
    empty store. *)
Definition broken_frame : PluginBase.Frame :=
  PluginBase.mkFrame
    (Scenario.plugin Scenario.controller_settings "broken" Scenario.fails_init) (Some ∅)
    Scenario.empty_store.

(** The plugin [plain] of the controller, of the base class itself. *)
Definition plain_frame : PluginBase.Frame :=
  PluginBase.mkFrame
    (Scenario.plugin Scenario.controller_settings "plain" PluginBase_class) (Some ∅)
    Scenario.empty_store.

(** A controller that has added the sentry plugin and not set the
    databases. *)
Definition early : PluginHandler.t :=
  after (PluginHandler.addPlugins (Some [("sentry", Some ∅)]) Scenario.dir)
    (PluginHandler.constructor Scenario.controller_settings Scenario.empty_store).

(** A controller that has added the sentry plugin without a
    configuration. *)
Definition unconfigured : PluginHandler.t :=
  after PluginHandler.setDatabaseForPlugins
    (after (PluginHandler.addPlugins (Some [("sentry", None)]) Scenario.dir)
       (PluginHandler.constructor Scenario.controller_settings Scenario.empty_store)).

(** A controller whose sentry plugin is instantiated and has the
    databases. *)
Definition ready : PluginHandler.t := Scenario.controller_with ["sentry"] Scenario.empty_store.

(** The same on a store that rejects the write of the flag. *)
Definition readonly : PluginHandler.t :=
  Scenario.controller_with ["sentry"] (PluginBase.env Scenario.readonly_frame).

(** The operations of a controller that starts the plugins [sentry] and
    [broken]. *)
Definition startup : list Operation :=
  [AddPlugins (Some [("sentry", Some ∅); ("broken", Some ∅)]) Scenario.dir;
   SetDatabaseForPlugins;
   InitPlugins None].

End Cases.

(** ** What is logged *)

(** A line handed to the logger that begins with the log namespace [ns]
    and a space, as every line of a [NamespaceLogger] made for a
    namespace that begins so. *)
Definition line_of (ns : string) (line : Level * string) : Prop :=
  ∃ msg, line.2 = ns +:+ " " +:+ msg.

(** The prefix of a logger that begins with the log namespace [ns]. *)
Definition prefix_of (ns : string) (prefix : string) : Prop :=
  prefix = ns ∨ ∃ rest, prefix = ns +:+ " " +:+ rest.

(** The instance of a method call logs under [ns], and so did every line
    so far. *)
Definition plugin_speaks (ns : string) (f : PluginBase.Frame) : Prop :=
  prefix_of ns (PluginBase.log (PluginBase.this f)) ∧
  Forall (line_of ns) (logged (PluginBase.env f)).

(** The handler with the settings [s] and its instances log under the
    log namespace of [s], and so did every line so far. *)
Definition speaks_as (s : PluginHandlerSettings) (h : PluginHandler.t) : Prop :=
  PluginHandler.settings h = s ∧
  Forall (line_of (logNamespace s)) (logged (PluginHandler.world h)) ∧
  ∀ name p, PluginHandler.live name h = Some p →
            prefix_of (logNamespace s) (PluginBase.log p).

(** A property of the state that a piece of code keeps, whether it
    resolves or rejects. *)
Definition preserves {S} (I : S → Prop) {A} (m : M S A) : Prop :=
  ∀ s, I s → I (after m s).

(** ** The order of the calls *)

(** Every call of [init] and of [destroy] comes after the construction of
    the instance it is made on. *)
Definition orderly (cs : list Call) : Prop :=
  ∀ pre c post,
    cs = (pre ++ c :: post)%list →
    match c with
    | CallInit ns _ | CallDestroy ns => CallNew ns ∈ pre
    | _ => True
    end.

(** The calls so far are in order, and the instance of a method call was
    constructed, as were the instances of the namespaces [others]. *)
Definition plugin_constructed (others : string → Prop) (f : PluginBase.Frame) : Prop :=
  orderly (calls (PluginBase.env f)) ∧
  CallNew (PluginBase.pluginNamespace (PluginBase.this f)) ∈ calls (PluginBase.env f) ∧
  ∀ ns, others ns → CallNew ns ∈ calls (PluginBase.env f).

(** The calls so far are in order, and every instance of the registry was
    constructed, as were the instances of the namespaces [others]. *)
Definition constructed (others : string → Prop) (h : PluginHandler.t) : Prop :=
  orderly (calls (PluginHandler.world h)) ∧
  (∀ name p, PluginHandler.live name h = Some p →
             CallNew (PluginBase.pluginNamespace p) ∈ calls (PluginHandler.world h)) ∧
  ∀ ns, others ns → CallNew ns ∈ calls (PluginHandler.world h).

(** * Properties *)

(** ** The model at work *)

(** [Object.keys]: array indices come first, in ascending order. *)
Example ownKeys_order :
  ownKeys ["sentry"; "10"; "docker"; "9"; "007"; "4294967295"; "0"]
  = ["0"; "9"; "10"; "sentry"; "docker"; "007"; "4294967295"].
Proof. reflexivity. Qed.

Example hostNamespace_of_adapter :
  hostNamespaceOf "system.adapter.hm-rpc.12.plugins.sentry" "hm-rpc" "h1"
  = "system.host.h1.plugins.sentry".
Proof. reflexivity. Qed.

(** Without a match the namespace is left as it is. *)
Example hostNamespace_of_controller :
  hostNamespaceOf "system.host.h1.plugins.sentry" "hm-rpc" "h1"
  = "system.host.h1.plugins.sentry".
Proof. reflexivity. Qed.

(** Two plugins, the second configured as disabled, nothing persisted, in
    controller scope: after [addPlugins], [setDatabaseForPlugins] and
    [initPlugins] the first is active, the second is instantiated and
    inactive, and [init] was called for the first only. *)
Example two_plugins :
  let h := reached Scenario.controller_settings Scenario.empty_store
             [AddPlugins (Some [("sentry", Some ∅);
                                ("stubborn", Some {[ "enabled" := JBool false ]})])
                         Scenario.dir;
              SetDatabaseForPlugins;
              InitPlugins None] in
  PluginHandler.isPluginActive "sentry" h = true ∧
  PluginHandler.isPluginActive "stubborn" h = false ∧
  PluginHandler.isPluginInstantiated "sentry" h = true ∧
  PluginHandler.isPluginInstantiated "stubborn" h = true ∧
  calls (PluginHandler.world h)
  = [CallResolve "@iobroker/plugin-sentry" ["/opt/iobroker"];
     CallRequire "/opt/iobroker/node_modules/@iobroker/plugin-sentry";
     CallNew "system.host.h1.plugins.sentry";
     CallResolve "@iobroker/plugin-stubborn" ["/opt/iobroker"];
     CallRequire "/opt/iobroker/node_modules/@iobroker/plugin-stubborn";
     CallNew "system.host.h1.plugins.stubborn";
     CallInit "system.host.h1.plugins.sentry" {[ "enabled" := JBool true ]}].
Proof. vm_compute. done. Qed.

(** A plugin that does not override [init]: the base [init] rejects, the
    plugin is left instantiated and inactive, and [false] is persisted. *)
Example plain_plugin :
  let h := reached Scenario.controller_settings Scenario.empty_store
             [AddPlugins (Some [("plain", Some ∅)]) Scenario.dir;
              SetDatabaseForPlugins;
              InitPlugins None] in
  PluginHandler.isPluginInstantiated "plain" h = true ∧
  PluginHandler.isPluginActive "plain" h = false ∧
  last (logged (PluginHandler.world h))
  = Some (error, "system.host.h1 Plugin plain Failed to initialize plugin: Not implemented") ∧
  states (statesClient (PluginHandler.world h)) !! "system.host.h1.plugins.plain.enabled"
  = Some (mkState (JBool false) true "system.host.h1.plugins.plain").
Proof. vm_compute. done. Qed.

(** ** Running the code *)

Ltac unfold_M :=
  unfold bind, try_catch, ret, throw, get, modify, when in *.

Section running.
Context {S A B : Type}.

Lemma bind_get (k : S → M S B) s : bind get k s = k s s.
Proof. reflexivity. Qed.

Lemma bind_modify (g : S → S) (k : unit → M S B) s : bind (modify g) k s = k tt (g s).
Proof. reflexivity. Qed.

Lemma bind_ret (a : A) (k : A → M S B) s : bind (ret a) k s = k a s.
Proof. reflexivity. Qed.

Lemma bind_ok (m : M S A) (k : A → M S B) s a s' :
  m s = (Ok a, s') → bind m k s = k a s'.
Proof. unfold bind. by intros ->. Qed.

Lemma bind_throw (m : M S A) (k : A → M S B) s e s' :
  m s = (Throw e, s') → bind m k s = (Throw e, s').
Proof. unfold bind. by intros ->. Qed.

Lemma try_ok (m : M S A) (handler : Error → M S A) s a s' :
  m s = (Ok a, s') → try_catch m handler s = (Ok a, s').
Proof. unfold try_catch. by intros ->. Qed.

Lemma try_throw (m : M S A) (handler : Error → M S A) s e s' :
  m s = (Throw e, s') → try_catch m handler s = handler e s'.
Proof. unfold try_catch. by intros ->. Qed.

End running.

Section plugin_base.
Import PluginBase.

Lemma with_states_id e : with_states (statesClient e) e = e.
Proof. by destruct e. Qed.

Lemma with_objects_id e : with_objects (objectsClient e) e = e.
Proof. by destruct e. Qed.

Lemma on_env_id g f : g (env f) = env f → on_env g f = f.
Proof. destruct f; unfold on_env; simpl. by intros ->. Qed.

Lemma setState_run id st f :
  setState id st f =
    if statesDb (this f) then
      match states_unwritable (statesClient (env f)) !! id with
      | Some e => (Throw e, f)
      | None =>
          (Ok id, on_env (with_states
             (mkStates (<[id := st]> (states (statesClient (env f))))
                       (states_unreadable (statesClient (env f)))
                       (states_unwritable (statesClient (env f))))) f)
      end
    else (Throw (new_Error "States Database not initialized."), f).
Proof.
  unfold setState, setStateAsync.
  destruct (statesDb (this f)); [|done].
  destruct (states_unwritable (statesClient (env f)) !! id); [|done].
  by rewrite on_env_id by apply with_states_id.
Qed.

Lemma getState_run id f :
  getState id f =
    if statesDb (this f) then
      match states_unreadable (statesClient (env f)) !! id with
      | Some e => (Throw e, f)
      | None => (Ok (states (statesClient (env f)) !! id), f)
      end
    else (Throw (new_Error "States Database not initialized."), f).
Proof.
  unfold getState, getStateAsync.
  destruct (statesDb (this f)); [|done].
  destruct (states_unreadable (statesClient (env f)) !! id);
    by rewrite on_env_id by apply with_states_id.
Qed.

(** Reading leaves the frame as it is. *)
Lemma getState_frame id f : (getState id f).2 = f.
Proof.
  rewrite getState_run. destruct (statesDb (this f)); [|done].
  by destruct (states_unreadable (statesClient (env f)) !! id).
Qed.

Lemma extendObject_run id ty f :
  extendObject id ty f =
    if objectsDb (this f) then
      match objects_faulty (objectsClient (env f)) !! id with
      | Some e => (Throw e, f)
      | None =>
          (Ok tt, on_env (with_objects
             (mkObjects (<[id := ty]> (objects (objectsClient (env f))))
                        (objects_faulty (objectsClient (env f))))) f)
      end
    else (Throw (new_Error "Objects Database not initialized."), f).
Proof.
  unfold extendObject, extendObjectAsync.
  destruct (objectsDb (this f)); [|done].
  destruct (objects_faulty (objectsClient (env f)) !! id); [|done].
  by rewrite on_env_id by apply with_objects_id.
Qed.

Lemma setActive_run b f :
  setActive b f =
    let ns := pluginNamespace (this f) in
    let f1 := on_this (set_isActive b) f in
    if statesDb (this f) then
      match states_unwritable (statesClient (env f)) !! (ns +:+ ".enabled") with
      | Some e => (Throw e, f1)
      | None =>
          (Ok tt, on_env (with_states
             (mkStates (<[ns +:+ ".enabled" := mkState (JBool b) true ns]>
                          (states (statesClient (env f))))
                       (states_unreadable (statesClient (env f)))
                       (states_unwritable (statesClient (env f))))) f1)
      end
    else (Throw (new_Error "States Database not initialized."), f1).
Proof.
  unfold setActive. unfold_M. rewrite setState_run. simpl.
  destruct (statesDb (this f)); [|done].
  by destruct (states_unwritable (statesClient (env f)) !! _).
Qed.

(** Whatever the store does, [setActive] leaves the in-memory flag set,
    makes no call and leaves the configuration alone. *)
Lemma setActive_frame b f :
  isActive (this (setActive b f).2) = b ∧
  calls (env (setActive b f).2) = calls (env f) ∧
  pluginConfig (setActive b f).2 = pluginConfig f.
Proof.
  rewrite setActive_run. simpl.
  destruct (statesDb (this f)); [|done].
  by destruct (states_unwritable (statesClient (env f)) !! _).
Qed.

(** [setActive] and then a read of the flag: when the store takes the
    write and gives the read, the state read holds the flag,
    acknowledged, from the plugin's namespace. *)
Lemma setActive_getState b f :
  Cascade.accepts_flag (this f) (env f) = true →
  states_unreadable (statesClient (env f)) !! (pluginNamespace (this f) +:+ ".enabled") = None →
  (_ <-- setActive b ;; getState (pluginNamespace (this f) +:+ ".enabled")) f
  = (Ok (Some (mkState (JBool b) true (pluginNamespace (this f)))), after (setActive b) f).
Proof.
  intros [Hdb Hw%bool_decide_eq_true]%andb_prop Hr. unfold after, Cascade.enabledId in *.
  unfold bind. rewrite setActive_run. simpl. rewrite Hdb, Hw.
  rewrite getState_run. simpl. rewrite Hdb, Hr. by rewrite lookup_insert_eq.
Qed.

(** A decision not to activate: [init] is not called and the plugin is
    inactive, whether or not the flag could be written. *)
Lemma initialize_false f :
  isActive (this (initialize false f).2) = false ∧
  calls (env (initialize false f).2) = calls (env f) ∧
  pluginConfig (initialize false f).2 = pluginConfig f.
Proof.
  unfold initialize, log_line. unfold_M.
  set (f1 := on_env _ f).
  destruct (setActive_frame false f1) as (Ha & Hc & Hp).
  destruct (setActive false f1) as [[[]|e] f2] eqn:E; simpl in *; done.
Qed.

(** The two [extendObject] calls of [initPlugin], one after the other. *)
Lemma ensure_run ns id f :
  (extendObject ns TFolder ;;; extendObject id TState) f =
    let db := objectsClient (env f) in
    let db1 := mkObjects (<[ns := TFolder]> (objects db)) (objects_faulty db) in
    let db2 := mkObjects (<[id := TState]> (objects db1)) (objects_faulty db) in
    if objectsDb (this f) then
      match objects_faulty db !! ns with
      | Some e => (Throw e, f)
      | None =>
          match objects_faulty db !! id with
          | Some e => (Throw e, on_env (with_objects db1) f)
          | None => (Ok tt, on_env (with_objects db2) f)
          end
      end
    else (Throw (new_Error "Objects Database not initialized."), f).
Proof.
  unfold_M. rewrite extendObject_run. simpl.
  destruct (objectsDb (this f)) eqn:Hdb; [|done].
  destruct (objects_faulty (objectsClient (env f)) !! ns) eqn:E1; [done|].
  rewrite extendObject_run. simpl. rewrite Hdb.
  destruct (objects_faulty (objectsClient (env f)) !! id) eqn:E2; [done|].
  by destruct f as [p c []].
Qed.

Lemma prepare_unfold parentConfig f :
  Cascade.prepare parentConfig f =
    try_catch
      (extendObject (pluginNamespace (this f)) TFolder ;;;
       extendObject (pluginNamespace (this f) +:+ ".enabled") TState)
      (λ _, ret tt)
      (on_this (set_parentIoPackage parentConfig) f).
Proof. reflexivity. Qed.

Lemma prepare_frame parentConfig f :
  ∃ db, Cascade.prepare parentConfig f =
        (Ok tt, mkFrame (set_parentIoPackage parentConfig (this f)) (pluginConfig f)
                        (with_objects db (env f))).
Proof.
  unfold Cascade.prepare, Cascade.enabledId.
  unfold bind at 1 2. unfold get, modify, try_catch. rewrite ensure_run. simpl.
  destruct (objectsDb (this f)).
  - destruct (objects_faulty (objectsClient (env f)) !! pluginNamespace (this f)).
    { exists (objectsClient (env f)). by rewrite with_objects_id. }
    destruct (objects_faulty (objectsClient (env f)) !! _); by eexists.
  - exists (objectsClient (env f)). by rewrite with_objects_id.
Qed.

Lemma bind_assoc {S A B C} (m : M S A) (k : A → M S B) (k' : B → M S C) s :
  bind (bind m k) k' s = bind m (λ x, bind (k x) k') s.
Proof. unfold bind. by destruct (m s) as [[] ?]. Qed.

(** A guarded read: the state read, or nothing when the read rejects. *)
Lemma read_run id f :
  ∃ s, try_catch (getState id) (λ _, ret None) f = (Ok s, f) ∧
       flag s = Cascade.reads id f.
Proof.
  unfold Cascade.reads, try_catch, ret. rewrite getState_run.
  destruct (statesDb (this f)); [|by exists None].
  destruct (states_unreadable (statesClient (env f)) !! id); [by exists None|].
  by eexists.
Qed.

(** What a read gives depends on the [statesDb] field and on the states
    client only. *)
Lemma reads_congr id f1 f2 :
  statesDb (this f1) = statesDb (this f2) →
  statesClient (env f1) = statesClient (env f2) →
  Cascade.reads id f1 = Cascade.reads id f2.
Proof.
  intros H1 H2. unfold Cascade.reads. rewrite !getState_run, H1, H2.
  destruct (statesDb (this f2)); [|done].
  by destruct (states_unreadable (statesClient (env f2)) !! id).
Qed.

(** Lines 177 to 200: the guarded block that ensures the objects and
    reads the own flag. *)
Lemma read_own_run parentConfig f :
  let ns := pluginNamespace (this f) in
  ∃ s, try_catch
         (extendObject ns TFolder ;;;
          extendObject (ns +:+ ".enabled") TState ;;;
          getState (ns +:+ ".enabled"))
         (λ _, ret None)
         (on_this (set_parentIoPackage parentConfig) f)
       = (Ok s, (Cascade.prepare parentConfig f).2) ∧
       flag s = Cascade.own_flag f.
Proof.
  intros ns. set (f0 := on_this (set_parentIoPackage parentConfig) f).
  rewrite prepare_unfold. fold ns f0.
  unfold Cascade.own_flag, Cascade.prepared, Cascade.enabledId. fold ns.
  unfold try_catch. rewrite <- bind_assoc.
  unfold bind at 1. rewrite !ensure_run. simpl. fold ns.
  destruct (objectsDb (this f)); [|by exists None].
  destruct (objects_faulty (objectsClient (env f)) !! ns); [by exists None|].
  destruct (objects_faulty (objectsClient (env f)) !! (ns +:+ ".enabled")); [by exists None|].
  simpl. set (f1 := on_env _ f0).
  rewrite (surjective_pairing (getState _ f1)), getState_frame.
  assert (Cascade.reads (ns +:+ ".enabled") f1 = Cascade.reads (ns +:+ ".enabled") f) as <-
    by (by apply reads_congr).
  unfold Cascade.reads.
  destruct (getState _ f1).1 as [s|e]; simpl; [by exists s|by exists None].
Qed.

(** The code of [initPlugin] is the cascade: once a configuration is
    there, it prepares the store and goes on with the decision of rules
    5a to 5c. *)
Lemma initPlugin_cascade parentConfig f cfg :
  pluginConfig f = Some cfg →
  initPlugin parentConfig f =
    initialize (Cascade.decision parentConfig f cfg) (Cascade.prepare parentConfig f).2.
Proof.
  intros Hcfg.
  destruct (read_own_run parentConfig f) as (s & Hs & Hflag).
  unfold initPlugin.
  unfold bind at 1. unfold get at 1. rewrite Hcfg.
  unfold bind at 1. unfold modify at 1.
  unfold bind at 1. rewrite Hs.
  unfold Cascade.decision. rewrite <- Hflag.
  destruct (flag s) as [b|]; [done|].
  unfold Cascade.host_flag.
  destruct (pluginScope (this f)); [|done].
  destruct (parent_host parentConfig) as [[c host]|]; [|done].
  set (f1 := (Cascade.prepare parentConfig f).2).
  destruct (read_run
    (hostNamespaceOf (pluginNamespace (this f)) (common_name c) host +:+ ".enabled") f1)
    as (hs & Hhs & Hhflag).
  unfold bind at 1. rewrite Hhs.
  assert (Cascade.reads
    (hostNamespaceOf (pluginNamespace (this f)) (common_name c) host +:+ ".enabled") f1 =
    Cascade.reads
    (hostNamespaceOf (pluginNamespace (this f)) (common_name c) host +:+ ".enabled") f) as Hc.
  { destruct (prepare_frame parentConfig f) as [db Hp].
    subst f1. rewrite Hp. by apply reads_congr. }
  unfold Cascade.enabledId. rewrite <- Hc, <- Hhflag.
  by destruct (flag hs).
Qed.

(** [initialize(pluginConfig, true)]: the configuration is marked enabled
    and [init] is called; a failure of [init], or of the write of the flag
    that follows it, is logged and answered by [setActive(false)]. *)
Lemma initialize_true_run f cfg :
  pluginConfig f = Some cfg →
  let cfg' := <["enabled" := JBool true]> cfg in
  let f1 := mkFrame (this f) (Some cfg')
              (add_call (CallInit (pluginNamespace (this f)) cfg')
                 (add_log (debug, log (this f) +:+ " " +:+ "Initialize Plugin (enabled=true)")
                    (env f))) in
  let failed (e : Error) (f2 : Frame) :=
    setActive false
      (on_env (add_log (error, log (this f2) +:+ " " +:+
                               "Failed to initialize plugin: " +:+ message e)) f2) in
  initialize true f =
    match impl_init (class (this f)) cfg' (calls (env f)) with
    | None =>
        match setActive true f1 with
        | (Ok _, f2) => (Ok tt, f2)
        | (Throw e, f2) => failed e f2
        end
    | Some e => failed e f1
    end.
Proof.
  intros Hcfg. unfold initialize, log_line, assign_enabled, init.
  unfold bind, try_catch, get, modify, on_env. simpl. rewrite Hcfg. simpl.
  destruct (impl_init _ _ _) as [e|]; [done|].
  by destruct (setActive true _) as [[[]|e] f2].
Qed.

(** Once [init] was called no other call follows, however the flag ends. *)
Lemma initialize_true_calls f cfg :
  pluginConfig f = Some cfg →
  calls (env (initialize true f).2) =
    (calls (env f) ++
       [CallInit (pluginNamespace (this f)) (<["enabled" := JBool true]> cfg)])%list.
Proof.
  intros Hcfg. rewrite (initialize_true_run f cfg Hcfg).
  destruct (impl_init _ _ _) as [e|].
  - by rewrite (proj1 (proj2 (setActive_frame false _))).
  - destruct (setActive true _) as [[[]|e] f2] eqn:E.
    + pose proof (setActive_frame true
        (mkFrame (this f) (Some (<["enabled" := JBool true]> cfg))
           (add_call (CallInit (pluginNamespace (this f)) (<["enabled" := JBool true]> cfg))
              (add_log (debug, log (this f) +:+ " " +:+ "Initialize Plugin (enabled=true)")
                 (env f))))) as (_ & Hc & _).
      rewrite E in Hc. done.
    + rewrite (proj1 (proj2 (setActive_frame false _))). simpl.
      pose proof (setActive_frame true
        (mkFrame (this f) (Some (<["enabled" := JBool true]> cfg))
           (add_call (CallInit (pluginNamespace (this f)) (<["enabled" := JBool true]> cfg))
              (add_log (debug, log (this f) +:+ " " +:+ "Initialize Plugin (enabled=true)")
                 (env f))))) as (_ & Hc & _).
      rewrite E in Hc. done.
Qed.

(** A failing [init]: the failure is logged and the plugin is set inactive.
    When the flag can be written, [false] is persisted and [initPlugin]
    resolves; when it cannot, [initPlugin] rejects. *)
Lemma initPlugin_init_fails parentConfig f cfg err :
  pluginConfig f = Some cfg →
  Cascade.decision parentConfig f cfg = true →
  impl_init (class (this f)) (<["enabled" := JBool true]> cfg) (calls (env f)) = Some err →
  ∃ r f', initPlugin parentConfig f = (r, f') ∧
          isActive (this f') = false ∧
          pluginNamespace (this f') = pluginNamespace (this f) ∧
          pluginConfig f' = Some (<["enabled" := JBool true]> cfg) ∧
          calls (env f') =
            (calls (env f) ++
               [CallInit (pluginNamespace (this f)) (<["enabled" := JBool true]> cfg)])%list ∧
          last (logged (env f'))
            = Some (error, log (this f) +:+ " " +:+
                           "Failed to initialize plugin: " +:+ message err) ∧
          if Cascade.accepts_flag (this f) (env f) then
            r = Ok tt ∧
            states (statesClient (env f')) !! Cascade.enabledId (pluginNamespace (this f))
              = Some (mkState (JBool false) true (pluginNamespace (this f)))
          else
            (∃ e, r = Throw e) ∧ statesClient (env f') = statesClient (env f).
Proof.
  intros Hcfg Hd Hinit.
  rewrite (initPlugin_cascade _ _ _ Hcfg), Hd.
  destruct (prepare_frame parentConfig f) as [db ->]. cbn [snd].
  set (f1 := mkFrame _ _ _).
  rewrite (initialize_true_run f1 cfg) by done. cbn zeta.
  subst f1. cbn [this env class set_parentIoPackage with_objects calls].
  rewrite Hinit, setActive_run. simpl.
  unfold Cascade.accepts_flag, Cascade.enabledId.
  destruct (statesDb (this f)); simpl.
  - destruct (states_unwritable (statesClient (env f)) !! _) as [e|] eqn:Hw.
    + rewrite bool_decide_eq_false_2 by done.
      do 2 eexists. split; [done|]. simpl. rewrite last_snoc.
      repeat split; try done. by eexists.
    + rewrite bool_decide_eq_true_2 by done.
      do 2 eexists. split; [done|]. simpl. rewrite last_snoc, lookup_insert_eq.
      by repeat split.
  - do 2 eexists. split; [done|]. simpl. rewrite last_snoc.
    repeat split; try done. by eexists.
Qed.

(** *** The host namespace *)

Lemma append_cons a s t : String a s +:+ t = String a (s +:+ t).
Proof. reflexivity. Qed.

Lemma append_assoc s t u : (s +:+ t) +:+ u = s +:+ t +:+ u.
Proof. induction s as [|a s IH]; [done|]. by rewrite !append_cons, IH. Qed.







End plugin_base.

(** ** Objects as maps *)

Section properties.
Context {V : Type}.
Implicit Types (o : list (string * V)) (v w : V) (n m : string).

Lemma get_set_eq n v o : get_prop n (set_prop n v o) = Some v.
Proof.
  induction o as [|[k x] o IH]; simpl.
  - by rewrite String.eqb_refl.
  - destruct (String.eqb k n) eqn:E; simpl; by rewrite E.
Qed.

Lemma get_set_ne n m v o : n ≠ m → get_prop m (set_prop n v o) = get_prop m o.
Proof.
  intros Hne. induction o as [|[k x] o IH]; simpl.
  - by apply String.eqb_neq in Hne as ->.
  - destruct (String.eqb k n) eqn:E; simpl; [|by rewrite IH].
    apply String.eqb_eq in E as ->. by apply String.eqb_neq in Hne as ->.
Qed.

Lemma set_set n v w o : set_prop n v (set_prop n w o) = set_prop n v o.
Proof.
  induction o as [|[k x] o IH]; simpl.
  - by rewrite String.eqb_refl.
  - destruct (String.eqb k n) eqn:E; simpl; rewrite E; [done|by rewrite IH].
Qed.

Lemma set_get n v o : get_prop n o = Some v → set_prop n v o = o.
Proof.
  induction o as [|[k x] o IH]; simpl; [done|].
  destruct (String.eqb k n) eqn:E; [by intros [= ->]|].
  intros H. by rewrite IH.
Qed.

Lemma get_is_key n o : is_Some (get_prop n o) ↔ n ∈ o.*1.
Proof.
  induction o as [|[k x] o IH]; simpl.
  - split; [by intros [? ?]|by intros ?%elem_of_nil].
  - destruct (String.eqb k n) eqn:E.
    + apply String.eqb_eq in E as ->. split; [intros _; left|by eauto].
    + apply String.eqb_neq in E. rewrite IH. split; [by right|].
      intros [?|?]%elem_of_cons; [congruence|done].
Qed.

Lemma keys_set_old n v o : is_Some (get_prop n o) → (set_prop n v o).*1 = o.*1.
Proof.
  induction o as [|[k x] o IH]; simpl; [by intros [? ?]|].
  destruct (String.eqb k n) eqn:E; [done|]. intros H. rewrite !fmap_cons. by rewrite IH.
Qed.

Lemma keys_set_new n v o :
  get_prop n o = None → (set_prop n v o).*1 = (o.*1 ++ [n])%list.
Proof.
  induction o as [|[k x] o IH]; simpl; [done|].
  destruct (String.eqb k n) eqn:E; [done|]. intros H. rewrite !fmap_cons. by rewrite IH.
Qed.

(** Assigning to a property loses no property and keeps the keys apart. *)
Lemma set_keeps n m v o : is_Some (get_prop m o) → is_Some (get_prop m (set_prop n v o)).
Proof.
  intros H. destruct (decide (n = m)) as [->|Hne].
  - rewrite get_set_eq. by eexists.
  - by rewrite get_set_ne.
Qed.

Lemma set_NoDup n v o : NoDup o.*1 → NoDup (set_prop n v o).*1.
Proof.
  intros H. destruct (get_prop n o) as [x|] eqn:E.
  - by rewrite keys_set_old by (by eexists).
  - rewrite keys_set_new by done. apply NoDup_app. split; [done|]. split.
    + intros k Hk ->%list_elem_of_singleton.
      apply get_is_key in Hk as [? ?]. congruence.
    + apply NoDup_singleton.
Qed.

End properties.

(** ** Running the handler *)

Section plugin_handler.
Import PluginHandler.

Lemma live_entry name h p :
  live name h = Some p ↔
  ∃ cfg, get_prop name (plugins h) = Some (mkEntry cfg (instance_of p)).
Proof.
  unfold live. destruct (get_prop name (plugins h)) as [[cfg [| |q]]|]; split;
    try done; try (by intros [? ?]).
  - intros [= ->]. by exists cfg.
  - by intros [? [= -> ->]].
Qed.

Lemma live_config name h p :
  live name h = Some p →
  get_prop name (plugins h) = Some (mkEntry (getPluginConfig name h) (instance_of p)).
Proof.
  intros [cfg H]%live_entry. unfold getPluginConfig. by rewrite H.
Qed.

Lemma call_run {A} name p (m : M PluginBase.Frame A) h :
  call name p m h =
    ((m (PluginBase.mkFrame p (getPluginConfig name h) (world h))).1,
     mk (settings h)
        (set_prop name
           (mkEntry
              (PluginBase.pluginConfig
                 (m (PluginBase.mkFrame p (getPluginConfig name h) (world h))).2)
              (instance_of
                 (PluginBase.this
                    (m (PluginBase.mkFrame p (getPluginConfig name h) (world h))).2)))
           (plugins h))
        (PluginBase.env (m (PluginBase.mkFrame p (getPluginConfig name h) (world h))).2)).
Proof.
  unfold call, getPluginConfig.
  by destruct (m _) as [r f].
Qed.

(** The implementer's [destroy] touches neither the instance nor the
    configuration. *)
Lemma base_destroy_run f :
  PluginBase.destroy f =
    (match impl_destroy (PluginBase.class (PluginBase.this f)) (calls (PluginBase.env f)) with
     | DestroyResolves b => Ok b
     | DestroyRejects e => Throw e
     end,
     PluginBase.mkFrame (PluginBase.this f) (PluginBase.pluginConfig f)
       (add_call (CallDestroy (PluginBase.pluginNamespace (PluginBase.this f)))
          (PluginBase.env f))).
Proof. unfold PluginBase.destroy. by destruct (impl_destroy _ _). Qed.

(** [initPlugin] of the handler on a live instance: the plugin's
    [initPlugin] runs on the instance and on the configuration of the
    entry; when it resolves, the entry holds what it left; when it rejects,
    the failure is logged, [destroy] is called once, and the entry loses
    its instance. Either way the handler's promise resolves. *)
Lemma handler_initPlugin_live name parentConfig h p :
  live name h = Some p →
  let f := PluginBase.mkFrame p (getPluginConfig name h) (world h) in
  let f' := after (PluginBase.initPlugin parentConfig) f in
  match result (PluginBase.initPlugin parentConfig) f with
  | Ok _ =>
      initPlugin name parentConfig h =
        (Ok tt, mk (settings h)
                   (set_prop name
                      (mkEntry (PluginBase.pluginConfig f') (instance_of (PluginBase.this f')))
                      (plugins h))
                   (PluginBase.env f'))
  | Throw err =>
      ∃ w, initPlugin name parentConfig h =
             (Ok tt, mk (settings h)
                        (set_prop name (mkEntry (PluginBase.pluginConfig f') missing) (plugins h))
                        w) ∧
           calls w = (calls (PluginBase.env f') ++
                      [CallDestroy (PluginBase.pluginNamespace (PluginBase.this f'))])%list ∧
           statesClient w = statesClient (PluginBase.env f')
  end.
Proof.
  intros Hlive f f'. unfold result, after in *.
  unfold initPlugin. rewrite bind_get, Hlive.
  pose proof (call_run name p (PluginBase.initPlugin parentConfig) h) as Hcall.
  fold f in Hcall.
  destruct (PluginBase.initPlugin parentConfig f) as [[[]|err] f1] eqn:E; subst f';
    cbn [fst snd] in *.
  { by rewrite (try_ok _ _ _ _ _ Hcall). }
  rewrite (try_throw _ _ _ _ _ Hcall). clear Hcall.
  set (e1 := mkEntry (PluginBase.pluginConfig f1) (instance_of (PluginBase.this f1))).
  unfold log_line at 1. rewrite bind_modify.
  set (h1 := on_world _ _).
  assert (∃ w1, (log_stack debug err h1 = (Ok tt, mk (settings h) (set_prop name e1 (plugins h)) w1))
                ∧ calls w1 = calls (PluginBase.env f1)
                ∧ statesClient w1 = statesClient (PluginBase.env f1)) as (w1 & Hlog1 & Hc1 & Hs1).
  { unfold log_stack, when, log_line, modify, ret.
    destruct (negb _); by eexists. }
  rewrite (bind_ok _ _ _ _ _ Hlog1), bind_get.
  set (h2 := mk _ _ w1).
  assert (Hl2 : live name h2 = Some (PluginBase.this f1)).
  { apply live_entry. exists (PluginBase.pluginConfig f1). simpl. by rewrite get_set_eq. }
  rewrite Hl2. cbn [default].
  assert (Hcfg2 : getPluginConfig name h2 = PluginBase.pluginConfig f1).
  { unfold getPluginConfig. simpl. by rewrite get_set_eq. }
  pose proof (call_run name (PluginBase.this f1) PluginBase.destroy h2) as Hd.
  rewrite base_destroy_run, Hcfg2 in Hd.
  cbn [fst snd PluginBase.this PluginBase.pluginConfig PluginBase.env] in Hd.
  subst h2. cbn [plugins settings world] in Hd. rewrite set_set in Hd. fold e1 in Hd.
  set (w2 := add_call _ w1) in Hd.
  set (h2 := mk (settings h) (set_prop name e1 (plugins h)) w1) in *.
  set (h3 := mk (settings h) (set_prop name e1 (plugins h)) w2) in *.
  assert (Hdel : ∀ w, delete_instance name (mk (settings h) (set_prop name e1 (plugins h)) w)
    = (Ok tt, mk (settings h)
                 (set_prop name (mkEntry (PluginBase.pluginConfig f1) missing) (plugins h)) w)).
  { intros w. unfold delete_instance, modify, on_plugins. cbn [plugins settings world].
    by rewrite get_set_eq, set_set. }
  destruct (impl_destroy _ _) as [b|err2].
  - assert (Htry : try_catch
        (_ <-- call name (PluginBase.this f1) PluginBase.destroy ;; ret tt)
        (λ err0, log_line warn ("Cannot destroy plugin " +:+ name +:+ ": " +:+ message err0) ;;;
                 log_stack warn err0) h2 = (Ok tt, h3)).
    { apply try_ok. by rewrite (bind_ok _ _ _ _ _ Hd). }
    rewrite (bind_ok _ _ _ _ _ Htry). subst h3. rewrite Hdel.
    exists w2. subst w2. simpl. by rewrite Hc1, Hs1.
  - assert (∃ w3, try_catch
        (_ <-- call name (PluginBase.this f1) PluginBase.destroy ;; ret tt)
        (λ err0, log_line warn ("Cannot destroy plugin " +:+ name +:+ ": " +:+ message err0) ;;;
                 log_stack warn err0) h2
        = (Ok tt, mk (settings h) (set_prop name e1 (plugins h)) w3)
        ∧ calls w3 = calls w2 ∧ statesClient w3 = statesClient w2)
      as (w3 & Htry & Hc3 & Hs3).
    { rewrite (try_throw _ _ h2 err2 h3) by by rewrite (bind_throw _ _ _ _ _ Hd).
      unfold log_line at 1. rewrite bind_modify.
      unfold log_stack, when, log_line, modify, ret.
      destruct (negb _); by eexists. }
    rewrite (bind_ok _ _ _ _ _ Htry), Hdel.
    exists w3. subst w2. rewrite Hc3, Hs3. simpl. by rewrite Hc1, Hs1.
Qed.

(** *** [instantiatePlugin] *)

(** Without a live instance for the name, [instantiatePlugin] resolves;
    the registry changes only once the class is loaded, and then the entry
    of the name holds the configuration given, with the instance
    constructed or [null]. *)
Lemma instantiatePlugin_run name cfg dirs h :
  live name h = None →
  ∃ w, instantiatePlugin name cfg dirs h =
         (Ok tt,
          mk (settings h)
             match load (node (world h)) name (dirs_of dirs) with
             | Unresolved | Unloadable _ => plugins h
             | Loaded cls =>
                 set_prop name
                   (mkEntry cfg
                      match impl_constructor cls
                              (plugin_settings (settings h) name (dirs_of dirs)) with
                      | None =>
                          instance_of (PluginBase.constructor cls
                            (plugin_settings (settings h) name (dirs_of dirs)))
                      | Some _ => null
                      end)
                   (plugins h)
             end
             w) ∧
       statesClient w = statesClient (world h) ∧
       match load (node (world h)) name (dirs_of dirs) with
       | Unresolved =>
           last (logged w) = Some (error, logNamespace (settings h) +:+ " " +:+
                                          "Plugin " +:+ name +:+ " could not be resolved")
       | Unloadable e =>
           last (logged w) = Some (error, logNamespace (settings h) +:+ " " +:+
                                          "Plugin " +:+ name +:+
                                          " could not be required: " +:+ message e)
       | Loaded cls =>
           match impl_constructor cls (plugin_settings (settings h) name (dirs_of dirs)) with
           | Some e =>
               last (logged w) = Some (error, logNamespace (settings h) +:+ " " +:+
                                              "Plugin " +:+ name +:+
                                              " could not be initialized: " +:+ message e)
           | None => logged w = logged (world h)
           end
       end.
Proof.
  intros Hlive. unfold instantiatePlugin, load.
  rewrite bind_get, Hlive.
  unfold record_call at 1. rewrite bind_modify.
  destruct (require_resolve _ _ _) as [|pluginPath].
  { eexists. split; [done|]. simpl. by rewrite last_snoc. }
  destruct (String.eqb pluginPath EmptyString).
  { eexists. split; [done|]. simpl. by rewrite last_snoc. }
  unfold record_call at 1. rewrite bind_modify.
  destruct (require _ _) as [e|x].
  { eexists. split; [done|]. simpl. by rewrite last_snoc. }
  rewrite bind_modify. unfold record_call at 1. rewrite bind_modify.
  destruct (impl_constructor _ _) as [e|].
  - unfold log_line at 1. rewrite bind_modify.
    eexists. split.
    + unfold modify, on_plugins, on_world. cbn [plugins settings world].
      by rewrite set_set.
    + simpl. by rewrite last_snoc.
  - eexists. split.
    + unfold modify, on_plugins, on_world. cbn [plugins settings world].
      by rewrite set_set.
    + done.
Qed.

(** *** [destroy] *)

(** The guarded call of the implementer's [destroy]: one call is made, the
    registry and the states are as before, and a rejection counts as
    [false]. *)
Lemma destroy_attempt name h p :
  live name h = Some p →
  ∃ w, try_catch
         (call name p PluginBase.destroy)
         (λ err,
            log_line warn ("Plugin " +:+ name +:+ " could not be destroyed: " +:+ message err) ;;;
            log_stack warn err ;;;
            ret false) h
       = (Ok match impl_destroy (PluginBase.class p) (calls (world h)) with
             | DestroyResolves b => b
             | DestroyRejects _ => false
             end,
          mk (settings h) (plugins h) w) ∧
       calls w = (calls (world h) ++ [CallDestroy (PluginBase.pluginNamespace p)])%list ∧
       statesClient w = statesClient (world h).
Proof.
  intros Hlive.
  pose proof (call_run name p PluginBase.destroy h) as Hd.
  rewrite base_destroy_run in Hd.
  cbn [fst snd PluginBase.this PluginBase.pluginConfig PluginBase.env] in Hd.
  rewrite (set_get _ _ _ (live_config _ _ _ Hlive)) in Hd.
  destruct (impl_destroy _ _) as [b|err].
  - rewrite (try_ok _ _ _ _ _ Hd). by eexists.
  - rewrite (try_throw _ _ _ _ _ Hd).
    unfold log_line at 1. rewrite bind_modify.
    unfold log_stack, when, log_line, modify, ret, bind.
    destruct (negb _); by eexists.
Qed.

Lemma handler_destroy_none name force h :
  live name h = None → destroy name force h = (Ok true, h).
Proof. intros Hlive. unfold destroy. by rewrite bind_get, Hlive. Qed.

(** A forced [destroy] of a live instance: the implementer's [destroy]
    is called once, whatever it answers the instance is removed from its
    entry, and the call resolves to [true]. *)
Lemma handler_destroy_forced name h p :
  live name h = Some p →
  ∃ w, destroy name true h =
         (Ok true,
          mk (settings h)
             (set_prop name (mkEntry (getPluginConfig name h) missing) (plugins h)) w) ∧
       calls w = (calls (world h) ++ [CallDestroy (PluginBase.pluginNamespace p)])%list ∧
       statesClient w = statesClient (world h).
Proof.
  intros Hlive. unfold destroy. rewrite bind_get, Hlive.
  destruct (destroy_attempt name h p Hlive) as (w & Hd & Hc & Hs).
  rewrite (bind_ok _ _ _ _ _ Hd), orb_true_r.
  unfold log_line at 1. rewrite bind_modify. cbn [negb when].
  rewrite bind_ret. unfold delete_instance. rewrite bind_modify.
  unfold ret, on_plugins, on_world. cbn [plugins settings world].
  rewrite (live_config _ _ _ Hlive). cbn [config].
  eexists. split; [done|]. by simpl.
Qed.

(** A [destroy] that is not forced, of a live instance whose [destroy]
    resolves to [false] or rejects: the registry is as before and the call
    resolves to [false]. *)
Lemma handler_destroy_refused name h p :
  live name h = Some p →
  match impl_destroy (PluginBase.class p) (calls (world h)) with
  | DestroyResolves b => b
  | DestroyRejects _ => false
  end = false →
  ∃ w, destroy name false h = (Ok false, mk (settings h) (plugins h) w) ∧
       calls w = (calls (world h) ++ [CallDestroy (PluginBase.pluginNamespace p)])%list ∧
       statesClient w = statesClient (world h).
Proof.
  intros Hlive Hno. unfold destroy. rewrite bind_get, Hlive.
  destruct (destroy_attempt name h p Hlive) as (w & Hd & Hc & Hs).
  rewrite (bind_ok _ _ _ _ _ Hd), Hno. cbn [orb].
  unfold log_line at 1. rewrite bind_modify.
  unfold ret, on_world. cbn [plugins settings world].
  eexists. split; [done|]. by simpl.
Qed.

End plugin_handler.

(** ** The own keys *)

Lemma ownKeys_Permutation created : ownKeys created ≡ₚ created.
Proof.
  unfold ownKeys. rewrite merge_sort_Permutation. apply filter_app_complement.
Qed.

Lemma ownKeys_elem name created : name ∈ ownKeys created ↔ name ∈ created.
Proof. by rewrite ownKeys_Permutation. Qed.

Lemma ownKeys_NoDup created : NoDup created → NoDup (ownKeys created).
Proof. by rewrite ownKeys_Permutation. Qed.

(** ** Loops over the registry *)

Section loops.
Import PluginHandler.

Lemma for_each_nil {S A} (body : A → M S unit) s : for_each [] body s = (Ok tt, s).
Proof. reflexivity. Qed.

Lemma for_each_cons {S A} (body : A → M S unit) x l s :
  for_each (x :: l) body s = bind (body x) (λ _, for_each l body) s.
Proof. reflexivity. Qed.


Lemma live_set_ne name k e h w :
  name ≠ k → live k (mk (settings h) (set_prop name e (plugins h)) w) = live k h.
Proof. intros Hne. unfold live. cbn [plugins]. by rewrite get_set_ne. Qed.



End loops.

(** ** What every operation keeps *)

Section keeping.
Import PluginHandler.

Lemma grows_refl h : grows h h.
Proof. by split. Qed.

Lemma grows_trans h1 h2 h3 : grows h1 h2 → grows h2 h3 → grows h1 h3.
Proof. intros [H1 H1'] [H2 H2']. split; eauto. Qed.

Lemma grows_world g h : grows h (on_world g h).
Proof. by split. Qed.

Lemma grows_set name e h w : grows h (mk (settings h) (set_prop name e (plugins h)) w).
Proof.
  split; cbn [plugins].
  - intros k. apply set_keeps.
  - apply set_NoDup.
Qed.

Lemma mono_ret {A} (a : A) : monotone (ret a).
Proof. intros h. apply grows_refl. Qed.

Lemma mono_throw {A} e : monotone (throw (A:=A) e).
Proof. intros h. apply grows_refl. Qed.

Lemma mono_get : monotone get.
Proof. intros h. apply grows_refl. Qed.

Lemma mono_bind {A B} (m : M t A) (k : A → M t B) :
  monotone m → (∀ a, monotone (k a)) → monotone (bind m k).
Proof.
  intros Hm Hk h. specialize (Hm h). unfold after, bind in *.
  destruct (m h) as [[a|e] h1]; [|done].
  eapply grows_trans; [done|]. apply Hk.
Qed.

Lemma mono_try {A} (m : M t A) (handler : Error → M t A) :
  monotone m → (∀ e, monotone (handler e)) → monotone (try_catch m handler).
Proof.
  intros Hm Hk h. specialize (Hm h). unfold after, try_catch in *.
  destruct (m h) as [[a|e] h1]; [done|].
  eapply grows_trans; [done|]. apply Hk.
Qed.

Lemma mono_when b (m : M t unit) : monotone m → monotone (when b m).
Proof. intros Hm. destruct b; [done|apply mono_ret]. Qed.

Lemma mono_for_each {A} (l : list A) (body : A → M t unit) :
  (∀ x, monotone (body x)) → monotone (for_each l body).
Proof.
  intros Hb. induction l as [|x l IH]; [apply mono_ret|].
  apply mono_bind; [apply Hb|done].
Qed.

Lemma mono_log_line lvl msg : monotone (log_line lvl msg).
Proof. intros h. apply grows_world. Qed.

Lemma mono_log_stack lvl err : monotone (log_stack lvl err).
Proof. apply mono_when, mono_log_line. Qed.

Lemma mono_record_call c : monotone (record_call c).
Proof. intros h. apply grows_world. Qed.

Lemma mono_set name e : monotone (modify (on_plugins (set_prop name e))).
Proof. intros h. apply grows_set. Qed.

Lemma mono_call {A} name p (m : M PluginBase.Frame A) : monotone (call name p m).
Proof. intros h. unfold after. rewrite call_run. apply grows_set. Qed.

Lemma mono_delete_instance name : monotone (delete_instance name).
Proof.
  intros h. unfold after, delete_instance, modify, on_plugins. cbn [snd].
  destruct (get_prop name (plugins h)); [apply grows_set|by split].
Qed.

Ltac mono :=
  repeat first
    [ apply mono_ret | apply mono_throw | apply mono_get | apply mono_log_line
    | apply mono_log_stack | apply mono_record_call | apply mono_set | apply mono_call
    | apply mono_delete_instance
    | apply mono_bind; [|intros ?]
    | apply mono_try; [|intros ?]
    | apply mono_when
    | apply mono_for_each; intros ?
    | match goal with
      | |- monotone (match ?x with _ => _ end) => destruct x
      end ].

Lemma mono_instantiatePlugin name cfg dirs : monotone (instantiatePlugin name cfg dirs).
Proof. unfold instantiatePlugin. mono. Qed.

Lemma mono_addPlugins configs dirs : monotone (addPlugins configs dirs).
Proof. unfold addPlugins. mono. Qed.

Lemma mono_setDatabaseForPlugin name : monotone (setDatabaseForPlugin name).
Proof. unfold setDatabaseForPlugin. mono. Qed.

Lemma mono_setDatabaseForPlugins : monotone setDatabaseForPlugins.
Proof. unfold setDatabaseForPlugins. mono. Qed.

Lemma mono_initPlugin name parentConfig : monotone (initPlugin name parentConfig).
Proof. unfold initPlugin. mono. Qed.

Lemma mono_initPlugins parentConfig : monotone (initPlugins parentConfig).
Proof. unfold initPlugins. mono. Qed.

Lemma mono_destroy name force : monotone (destroy name force).
Proof. unfold destroy. mono. Qed.

Lemma mono_destroyAll : monotone destroyAll.
Proof. unfold destroyAll. mono. Qed.

(** No operation removes an entry, and every operation keeps the keys of
    the registry distinct. *)
Lemma perform_grows op h : grows h (perform op h).
Proof.
  destruct op; simpl.
  - apply mono_addPlugins.
  - apply mono_instantiatePlugin.
  - apply mono_setDatabaseForPlugin.
  - apply mono_setDatabaseForPlugins.
  - apply mono_initPlugin.
  - apply mono_initPlugins.
  - apply mono_destroy.
  - apply mono_destroyAll.
Qed.

Lemma perform_all_grows ops h : grows h (foldl (λ h op, perform op h) h ops).
Proof.
  revert h. induction ops as [|op ops IH]; intros h; [apply grows_refl|].
  simpl. eapply grows_trans; [apply perform_grows|apply IH].
Qed.

(** The keys of a registry that was reached from a new handler are
    distinct. *)
Lemma reached_NoDup s e ops : NoDup (plugins (reached s e ops)).*1.
Proof.
  unfold reached. apply (perform_all_grows ops (constructor s e)). constructor.
Qed.

End keeping.

(** ** The whole of [initPlugin] *)

Section outcome.
Import PluginBase.

Lemma accepts_flag_write_error p e :
  Cascade.accepts_flag p e = true ↔ Outcome.write_error p e = None.
Proof.
  unfold Cascade.accepts_flag, Outcome.write_error.
  destruct (statesDb p); simpl; [|done].
  by rewrite bool_decide_eq_true.
Qed.

(** [setActive], with the error of the write made explicit. *)
Lemma setActive_outcome b f :
  setActive b f =
    match Outcome.write_error (this f) (env f) with
    | Some e => (Throw e, on_this (set_isActive b) f)
    | None =>
        (Ok tt,
         on_env (with_states
           (mkStates (<[Cascade.enabledId (pluginNamespace (this f))
                        := mkState (JBool b) true (pluginNamespace (this f))]>
                        (states (statesClient (env f))))
                     (states_unreadable (statesClient (env f)))
                     (states_unwritable (statesClient (env f)))))
           (on_this (set_isActive b) f))
    end.
Proof.
  rewrite setActive_run. unfold Outcome.write_error, Cascade.enabledId. cbn zeta.
  destruct (statesDb (this f)); [|done].
  by destruct (states_unwritable (statesClient (env f)) !! _).
Qed.

(** [#initialize], whatever the decision, the implementer and the store
    do. *)
Lemma initialize_outcome b f cfg :
  pluginConfig f = Some cfg →
  let ok := b && Outcome.init_resolves (this f) cfg (env f)
              && Cascade.accepts_flag (this f) (env f) in
  let f' := after (initialize b) f in
  result (initialize b) f
    = match Outcome.write_error (this f) (env f) with
      | Some e => Throw e
      | None => Ok tt
      end ∧
  this f' = set_isActive ok (this f) ∧
  pluginConfig f' = Some (if b then <["enabled" := JBool true]> cfg else cfg) ∧
  calls (env f')
    = (calls (env f) ++
       if b then [CallInit (pluginNamespace (this f)) (<["enabled" := JBool true]> cfg)]
       else [])%list ∧
  objectsClient (env f') = objectsClient (env f) ∧
  node (env f') = node (env f) ∧
  statesClient (env f')
    = if Cascade.accepts_flag (this f) (env f) then
        mkStates (<[Cascade.enabledId (pluginNamespace (this f))
                    := mkState (JBool ok) true (pluginNamespace (this f))]>
                    (states (statesClient (env f))))
                 (states_unreadable (statesClient (env f)))
                 (states_unwritable (statesClient (env f)))
      else statesClient (env f).
Proof.
  intros Hcfg. cbn zeta. unfold result, after.
  pose proof (accepts_flag_write_error (this f) (env f)) as Hacc.
  assert (Hset : ∀ c f1, statesDb (this f1) = statesDb (this f) →
    pluginNamespace (this f1) = pluginNamespace (this f) →
    statesClient (env f1) = statesClient (env f) →
    setActive c f1 =
      match Outcome.write_error (this f) (env f) with
      | Some e => (Throw e, on_this (set_isActive c) f1)
      | None =>
          (Ok tt,
           on_env (with_states
             (mkStates (<[Cascade.enabledId (pluginNamespace (this f))
                          := mkState (JBool c) true (pluginNamespace (this f))]>
                          (states (statesClient (env f))))
                       (states_unreadable (statesClient (env f)))
                       (states_unwritable (statesClient (env f)))))
             (on_this (set_isActive c) f1))
      end).
  { intros c f1 Hd Hn He. rewrite setActive_outcome. unfold Outcome.write_error.
    by rewrite Hd, Hn, He. }
  destruct (Outcome.write_error (this f) (env f)) as [e|] eqn:Hw.
  - assert (Hno : Cascade.accepts_flag (this f) (env f) = false).
    { destruct (Cascade.accepts_flag (this f) (env f)); [|done].
      by destruct Hacc as [H _]; specialize (H eq_refl). }
    rewrite Hno, !andb_false_r.
    destruct b.
    + rewrite (initialize_true_run f cfg Hcfg). cbn zeta.
      destruct (impl_init _ _ _) as [err|].
      * rewrite Hset by done. cbn. by destruct (this f).
      * rewrite Hset by done. rewrite Hset by done. cbn. by destruct (this f).
    + unfold initialize, log_line. rewrite bind_modify, Hset by done.
      cbn. rewrite app_nil_r. by destruct (this f).
  - rewrite (proj2 Hacc eq_refl), !andb_true_r.
    destruct b.
    + rewrite (initialize_true_run f cfg Hcfg). cbn zeta.
      unfold Outcome.init_resolves.
      destruct (impl_init _ _ _) as [err|].
      * rewrite Hset by done. cbn. by destruct (this f).
      * rewrite Hset by done. cbn. by destruct (this f).
    + unfold initialize, log_line. rewrite bind_modify, Hset by done.
      cbn. rewrite app_nil_r. by destruct (this f).
Qed.

(** What the guarded block leaves in the objects store when both objects
    could be ensured. *)
Lemma prepare_objects parentConfig f :
  Cascade.prepared f = true →
  objectsClient (env (after (Cascade.prepare parentConfig) f))
    = mkObjects
        (<[Cascade.enabledId (pluginNamespace (this f)) := TState]>
           (<[pluginNamespace (this f) := TFolder]> (objects (objectsClient (env f)))))
        (objects_faulty (objectsClient (env f))).
Proof.
  unfold Cascade.prepared, after. rewrite prepare_unfold. unfold try_catch.
  unfold Cascade.enabledId. rewrite !ensure_run. cbn zeta.
  cbn [this on_this env set_parentIoPackage objectsDb].
  destruct (objectsDb (this f)); [|done].
  destruct (objects_faulty (objectsClient (env f)) !! pluginNamespace (this f)); [done|].
  destruct (objects_faulty (objectsClient (env f)) !! _); [done|].
  done.
Qed.

(** The guarded block never adds to the ids the objects store rejects. *)
Lemma prepare_faulty parentConfig f :
  objects_faulty (objectsClient (env (after (Cascade.prepare parentConfig) f)))
    = objects_faulty (objectsClient (env f)).
Proof.
  unfold after. rewrite prepare_unfold. unfold try_catch.
  rewrite !ensure_run. cbn zeta.
  cbn [this on_this env set_parentIoPackage objectsDb].
  destruct (objectsDb (this f)); [|done].
  destruct (objects_faulty (objectsClient (env f)) !! pluginNamespace (this f)); [done|].
  by destruct (objects_faulty (objectsClient (env f)) !! _).
Qed.

(** [initPlugin] on a configuration, whatever the stores and the
    implementer do. *)
Lemma initPlugin_outcome parentConfig f cfg :
  pluginConfig f = Some cfg →
  result (initPlugin parentConfig) f
    = match Outcome.write_error (this f) (env f) with
      | Some e => Throw e
      | None => Ok tt
      end ∧
  this (after (initPlugin parentConfig) f)
    = set_isActive (Outcome.activated parentConfig f cfg)
        (set_parentIoPackage parentConfig (this f)) ∧
  pluginConfig (after (initPlugin parentConfig) f)
    = Some (Outcome.configuration parentConfig f cfg) ∧
  calls (env (after (initPlugin parentConfig) f))
    = (calls (env f) ++ Outcome.init_call parentConfig f cfg)%list ∧
  objectsClient (env (after (initPlugin parentConfig) f))
    = objectsClient (env (after (Cascade.prepare parentConfig) f)) ∧
  node (env (after (initPlugin parentConfig) f)) = node (env f) ∧
  statesClient (env (after (initPlugin parentConfig) f))
    = if Cascade.accepts_flag (this f) (env f) then
        mkStates (<[Cascade.enabledId (pluginNamespace (this f))
                    := mkState (JBool (Outcome.activated parentConfig f cfg)) true
                               (pluginNamespace (this f))]>
                    (states (statesClient (env f))))
                 (states_unreadable (statesClient (env f)))
                 (states_unwritable (statesClient (env f)))
      else statesClient (env f).
Proof.
  intros Hcfg. unfold result, after.
  rewrite (initPlugin_cascade _ _ _ Hcfg).
  destruct (prepare_frame parentConfig f) as [db Hp]. rewrite Hp. cbn [snd].
  set (f1 := mkFrame _ _ _).
  destruct (initialize_outcome (Cascade.decision parentConfig f cfg) f1 cfg Hcfg)
    as (Hr & Ht & Hc & Hcalls & Ho & Hn & Hs).
  unfold result, after in *.
  unfold Outcome.activated, Outcome.configuration, Outcome.init_call.
  by repeat split.
Qed.

End outcome.

(** ** The whole of the handler's [initPlugin] *)

Section handler_outcome.
Import PluginHandler.

(** On a live instance with a configuration: the entry afterwards holds
    the configuration as the plugin left it, and the instance as the plugin
    left it when the flag could be written, and no instance when it could
    not. *)
Lemma handler_initPlugin_outcome name parentConfig h p cfg :
  live name h = Some p →
  getPluginConfig name h = Some cfg →
  ∃ w, initPlugin name parentConfig h
       = (Ok tt,
          mk (settings h)
             (set_prop name
                (mkEntry
                   (Some (Outcome.configuration parentConfig
                            (PluginBase.mkFrame p (Some cfg) (world h)) cfg))
                   (if Cascade.accepts_flag p (world h) then
                      instance_of
                        (PluginBase.set_isActive
                           (Outcome.activated parentConfig
                              (PluginBase.mkFrame p (Some cfg) (world h)) cfg)
                           (PluginBase.set_parentIoPackage parentConfig p))
                    else missing))
                (plugins h))
             w) ∧
       calls w
         = (calls (world h) ++
            Outcome.init_call parentConfig (PluginBase.mkFrame p (Some cfg) (world h)) cfg ++
            if Cascade.accepts_flag p (world h) then []
            else [CallDestroy (PluginBase.pluginNamespace p)])%list ∧
       statesClient w
         = if Cascade.accepts_flag p (world h) then
             mkStates (<[Cascade.enabledId (PluginBase.pluginNamespace p)
                         := mkState
                              (JBool (Outcome.activated parentConfig
                                        (PluginBase.mkFrame p (Some cfg) (world h)) cfg))
                              true (PluginBase.pluginNamespace p)]>
                         (states (statesClient (world h))))
                      (states_unreadable (statesClient (world h)))
                      (states_unwritable (statesClient (world h)))
           else statesClient (world h).
Proof.
  intros Hlive Hcfg.
  pose proof (handler_initPlugin_live name parentConfig h p Hlive) as Hrun.
  cbv zeta in Hrun. rewrite Hcfg in Hrun.
  destruct (initPlugin_outcome parentConfig (PluginBase.mkFrame p (Some cfg) (world h)) cfg)
    as (Hr & Ht & Hc & Hcalls & _ & _ & Hs); [done|].
  cbn [PluginBase.this PluginBase.env] in *.
  pose proof (accepts_flag_write_error p (world h)) as Hacc.
  rewrite Hr in Hrun.
  destruct (Outcome.write_error p (world h)) as [e|].
  - assert (Hno : Cascade.accepts_flag p (world h) = false).
    { destruct (Cascade.accepts_flag p (world h)); [|done].
      by destruct Hacc as [H _]; specialize (H eq_refl). }
    rewrite Hno in *. destruct Hrun as (w & -> & Hcw & Hsw).
    exists w. rewrite Hc, Hcw, Hsw, Hcalls, Ht, Hs.
    split; [done|]. split; [|done]. by rewrite <- app_assoc.
  - rewrite (proj2 Hacc eq_refl) in *. rewrite Hrun.
    eexists. rewrite Hc, Ht. split; [done|]. rewrite Hcalls, Hs, app_nil_r. done.
Qed.

(** On a live instance without a configuration: the plugin rejects at
    once, and the handler calls [destroy] and removes the instance. *)
Lemma handler_initPlugin_unconfigured name parentConfig h p :
  live name h = Some p →
  getPluginConfig name h = None →
  ∃ w, initPlugin name parentConfig h
       = (Ok tt, mk (settings h) (set_prop name (mkEntry None missing) (plugins h)) w) ∧
       calls w = (calls (world h) ++ [CallDestroy (PluginBase.pluginNamespace p)])%list ∧
       statesClient w = statesClient (world h).
Proof.
  intros Hlive Hcfg.
  pose proof (handler_initPlugin_live name parentConfig h p Hlive) as Hrun.
  cbv zeta in Hrun. rewrite Hcfg in Hrun.
  assert (Hp : PluginBase.initPlugin parentConfig (PluginBase.mkFrame p None (world h))
               = (Throw (new_Error "No configuration for plugin"),
                  PluginBase.mkFrame p None (world h))) by done.
  unfold result, after in Hrun. rewrite Hp in Hrun. cbn [fst snd] in Hrun.
  destruct Hrun as (w & -> & Hcw & Hsw).
  exists w. cbn [PluginBase.pluginConfig PluginBase.this PluginBase.env] in *.
  by repeat split.
Qed.

Lemma write_error_world p e e' :
  statesClient e' = statesClient e → Outcome.write_error p e' = Outcome.write_error p e.
Proof. intros H. unfold Outcome.write_error. by rewrite H. Qed.

(** A [destroy] that is not forced, of a live instance whose [destroy]
    resolves to [true]: the plugin is set inactive; when the flag could be
    written the instance is removed and the call resolves to [true], when
    it could not the call rejects and the instance stays. *)
Lemma handler_destroy_accepted name h p :
  live name h = Some p →
  answer (impl_destroy (PluginBase.class p) (calls (world h))) = true →
  ∃ w, destroy name false h
       = match Outcome.write_error p (world h) with
         | None =>
             (Ok true,
              mk (settings h)
                 (set_prop name (mkEntry (getPluginConfig name h) missing) (plugins h)) w)
         | Some e =>
             (Throw e,
              mk (settings h)
                 (set_prop name
                    (mkEntry (getPluginConfig name h)
                             (instance_of (PluginBase.set_isActive false p)))
                    (plugins h)) w)
         end ∧
       calls w = (calls (world h) ++ [CallDestroy (PluginBase.pluginNamespace p)])%list ∧
       statesClient w
         = match Outcome.write_error p (world h) with
           | None =>
               mkStates (<[Cascade.enabledId (PluginBase.pluginNamespace p)
                           := mkState (JBool false) true (PluginBase.pluginNamespace p)]>
                           (states (statesClient (world h))))
                        (states_unreadable (statesClient (world h)))
                        (states_unwritable (statesClient (world h)))
           | Some _ => statesClient (world h)
           end.
Proof.
  intros Hlive Hyes. unfold destroy. rewrite bind_get, Hlive.
  destruct (destroy_attempt name h p Hlive) as (w1 & Hd & Hc & Hs).
  unfold answer in Hyes. rewrite (bind_ok _ _ _ _ _ Hd), Hyes. cbn [orb negb when].
  unfold log_line at 1. rewrite bind_modify.
  set (h2 := on_world _ _).
  assert (Hl2 : live name h2 = Some p) by done.
  assert (Hc2 : getPluginConfig name h2 = getPluginConfig name h) by done.
  pose proof (call_run name p (PluginBase.setActive false) h2) as Hcall.
  rewrite setActive_outcome, Hc2 in Hcall.
  cbn [PluginBase.this PluginBase.env] in Hcall.
  rewrite (write_error_world p (world h) (world h2)) in Hcall by (by simpl).
  destruct (Outcome.write_error p (world h)) as [e|].
  - cbn [fst snd PluginBase.on_this PluginBase.this PluginBase.pluginConfig PluginBase.env]
      in Hcall.
    eexists. split.
    + erewrite bind_throw; [done|].
      rewrite bind_get, Hl2. cbn [default]. exact Hcall.
    + simpl. by rewrite Hc, Hs.
  - cbn [fst snd PluginBase.on_this PluginBase.on_env PluginBase.this
         PluginBase.pluginConfig PluginBase.env] in Hcall.
    eexists. split.
    + erewrite bind_ok; cycle 1.
      { rewrite bind_get, Hl2. cbn [default]. exact Hcall. }
      unfold delete_instance. rewrite bind_modify. unfold ret, on_plugins.
      cbn [plugins settings world]. rewrite get_set_eq, set_set. cbn [config]. done.
    + simpl. by rewrite Hc, Hs.
Qed.

End handler_outcome.

(** ** Namespaces apart *)

Lemma list_of_append s t :
  list_ascii_of_string (s +:+ t) = (list_ascii_of_string s ++ list_ascii_of_string t)%list.
Proof.
  induction s as [|a s IH]; [done|]. rewrite append_cons. simpl. by rewrite IH.
Qed.

Lemma append_inj_r s t u : s +:+ u = t +:+ u → s = t.
Proof.
  intros H. apply (f_equal list_ascii_of_string) in H.
  rewrite !list_of_append in H. apply app_inv_tail in H.
  apply (f_equal string_of_list_ascii) in H.
  by rewrite !string_of_list_ascii_of_string in H.
Qed.

(** Two plugins of one handler have the same flag only if they have the
    same name. *)
Lemma enabledId_inj ns name name' :
  Cascade.enabledId (ns +:+ ".plugins." +:+ name)
  = Cascade.enabledId (ns +:+ ".plugins." +:+ name') → name = name'.
Proof.
  unfold Cascade.enabledId. intros H%append_inj_r.
  by apply String.app_inj, String.app_inj in H.
Qed.

(** ** What every operation keeps, continued *)

Section consistency.
Import PluginHandler.

Lemma keeps_ret I {A} (a : A) : keeps I (ret a).
Proof. by intros h. Qed.

Lemma keeps_bind I {A B} (m : M t A) (k : A → M t B) :
  keeps I m → (∀ a, keeps I (k a)) → keeps I (bind m k).
Proof.
  intros Hm Hk h Hh. specialize (Hm h Hh). unfold after, bind in *.
  destruct (m h) as [[a|e] h1]; [|done]. by apply Hk.
Qed.

Lemma keeps_get I {B} (k : t → M t B) :
  (∀ h, I h → I (after (k h) h)) → keeps I (bind get k).
Proof. intros Hk h Hh. unfold after. rewrite bind_get. by apply Hk. Qed.

Lemma keeps_try I {A} (m : M t A) (handler : Error → M t A) :
  keeps I m → (∀ e, keeps I (handler e)) → keeps I (try_catch m handler).
Proof.
  intros Hm Hk h Hh. specialize (Hm h Hh). unfold after, try_catch in *.
  destruct (m h) as [[a|e] h1]; [done|]. by apply Hk.
Qed.

Lemma keeps_for_each I {A} (l : list A) (body : A → M t unit) :
  (∀ x, keeps I (body x)) → keeps I (for_each l body).
Proof.
  intros Hb. induction l as [|x l IH]; [apply keeps_ret|].
  apply keeps_bind; [apply Hb|done].
Qed.

Lemma mirrored_world e e' p :
  statesClient e' = statesClient e → mirrored e p → mirrored e' p.
Proof. unfold mirrored. by intros ->. Qed.

(** The store changes, the registry stays. *)
Lemma consistent_world h w :
  consistent h →
  (∀ name p, live name h = Some p → mirrored (world h) p → mirrored w p) →
  consistent (mk (settings h) (plugins h) w).
Proof.
  intros [Hnd Hall] Hw. split; [done|].
  intros name p Hp. destruct (Hall name p Hp) as [Hm Hmir].
  split; [done|]. by apply (Hw name).
Qed.

(** One entry changes, and the store with it. *)
Lemma consistent_set h name e w :
  consistent h →
  (∀ p, instance e = instance_of p → made_for (settings h) name p ∧ mirrored w p) →
  (∀ name' q, name' ≠ name → live name' h = Some q → mirrored (world h) q → mirrored w q) →
  consistent (mk (settings h) (set_prop name e (plugins h)) w).
Proof.
  intros [Hnd Hall] Hnew Hold. split.
  { cbn [plugins]. by apply set_NoDup. }
  intros name' q Hq. destruct (decide (name = name')) as [<-|Hne].
  - apply Hnew. unfold live in Hq. cbn [plugins] in Hq. rewrite get_set_eq in Hq.
    destruct e as [c [| |p]]; by simplify_eq.
  - rewrite live_set_ne in Hq by done. destruct (Hall name' q Hq) as [Hm Hmir].
    split; [done|]. apply (Hold name'); done.
Qed.

Lemma keeps_log_line lvl msg : keeps consistent (log_line lvl msg).
Proof.
  intros h Hh. unfold after, log_line, modify, on_world. cbn [snd].
  apply consistent_world; [done|]. intros name p _. by apply mirrored_world.
Qed.

(** A write of the flag of one plugin leaves the flags of the others. *)
Lemma mirrored_insert h name p name' q b sts :
  consistent h → live name h = Some p → live name' h = Some q → name' ≠ name →
  mirrored (world h) q →
  ∀ w, statesClient w
       = mkStates (<[Cascade.enabledId (PluginBase.pluginNamespace p)
                     := mkState (JBool b) true (PluginBase.pluginNamespace p)]>
                     (states (statesClient (world h)))) sts.1 sts.2 →
       mirrored w q.
Proof.
  intros [_ Hall] Hp Hq Hne Hmir w Hw Hact. unfold mirrored in *. rewrite Hw. cbn [states].
  destruct (Hall name p Hp) as [(_ & _ & Hnp & _) _].
  destruct (Hall name' q Hq) as [(_ & _ & Hnq & _) _].
  rewrite lookup_insert_ne; [by apply Hmir|].
  rewrite Hnp, Hnq. intros Heq%enabledId_inj. done.
Qed.

Lemma keeps_instantiatePlugin name cfg dirs :
  keeps consistent (instantiatePlugin name cfg dirs).
Proof.
  intros h Hh. destruct (live name h) as [p|] eqn:Hlive.
  - unfold after, instantiatePlugin. rewrite bind_get, Hlive.
    by apply keeps_log_line.
  - destruct (instantiatePlugin_run name cfg dirs h Hlive) as (w & Hrun & Hs & _).
    unfold after. rewrite Hrun. cbn [snd].
    destruct (load _ _ _) as [|e|cls].
    + apply consistent_world; [done|]. intros ? ? _. by apply mirrored_world.
    + apply consistent_world; [done|]. intros ? ? _. by apply mirrored_world.
    + apply consistent_set; [done| |].
      * intros p Hp. cbn [instance] in Hp.
        destruct (impl_constructor _ _); [done|]. simplify_eq. split; [|done].
        by repeat split.
      * intros ? ? _ _. by apply mirrored_world.
Qed.

Lemma keeps_setDatabaseForPlugin name : keeps consistent (setDatabaseForPlugin name).
Proof.
  intros h Hh. unfold after, setDatabaseForPlugin. rewrite bind_get.
  destruct (live name h) as [p|] eqn:Hlive; [|done].
  rewrite call_run. cbn [snd]. unfold modify. cbn [snd PluginBase.on_this PluginBase.this
    PluginBase.pluginConfig PluginBase.env].
  destruct Hh as [Hnd Hall]. destruct (Hall name p Hlive) as [(H1 & H2 & H3 & H4 & H5) Hmir].
  apply consistent_set; [done| |by intros].
  intros p' [= <-]. by repeat split.
Qed.

Lemma keeps_initPlugin name parentConfig : keeps consistent (initPlugin name parentConfig).
Proof.
  intros h Hh. destruct (live name h) as [p|] eqn:Hlive.
  - destruct (Hh) as [Hnd Hall]. destruct (Hall name p Hlive) as [(H1 & H2 & H3 & H4 & H5) Hmir].
    destruct (getPluginConfig name h) as [cfg|] eqn:Hcfg.
    + destruct (handler_initPlugin_outcome name parentConfig h p cfg Hlive Hcfg)
        as (w & Hrun & _ & Hs).
      unfold after. rewrite Hrun. cbn [snd].
      apply consistent_set; [done| |].
      * intros p' Hp'. cbn [instance] in Hp'.
        destruct (Cascade.accepts_flag p (world h)); [|done]. simplify_eq.
        split; [by repeat split|].
        intros Hact. cbn in Hact. rewrite Hs, Hact. cbn. by rewrite lookup_insert_eq.
      * intros name' q Hne Hq Hmq.
        destruct (Cascade.accepts_flag p (world h)).
        -- by eapply (mirrored_insert h name p name' q _ (_, _)).
        -- by apply (mirrored_world (world h)).
    + destruct (handler_initPlugin_unconfigured name parentConfig h p Hlive Hcfg)
        as (w & Hrun & _ & Hs).
      unfold after. rewrite Hrun. cbn [snd].
      apply consistent_set; [done|done|].
      intros ? ? _ _. by apply mirrored_world.
  - unfold after, initPlugin. by rewrite bind_get, Hlive.
Qed.

Lemma keeps_destroy name force : keeps consistent (destroy name force).
Proof.
  intros h Hh. destruct (live name h) as [p|] eqn:Hlive.
  - destruct (Hh) as [Hnd Hall]. destruct (Hall name p Hlive) as [(H1 & H2 & H3 & H4 & H5) Hmir].
    destruct force.
    + destruct (handler_destroy_forced name h p Hlive) as (w & Hrun & _ & Hs).
      unfold after. rewrite Hrun. cbn [snd].
      apply consistent_set; [done|done|]. intros ? ? _ _. by apply mirrored_world.
    + destruct (answer (impl_destroy (PluginBase.class p) (calls (world h)))) eqn:Hans.
      * destruct (handler_destroy_accepted name h p Hlive Hans) as (w & Hrun & _ & Hs).
        unfold after. rewrite Hrun.
        destruct (Outcome.write_error p (world h)) as [e|]; cbn [snd].
        -- apply consistent_set; [done| |].
           ++ intros p' [= <-]. split; [by repeat split|]. by intros ?.
           ++ intros ? ? _ _. by apply mirrored_world.
        -- apply consistent_set; [done|done|].
           intros name' q Hne Hq Hmq.
           by eapply (mirrored_insert h name p name' q _ (_, _)).
      * destruct (handler_destroy_refused name h p Hlive Hans) as (w & Hrun & _ & Hs).
        unfold after. rewrite Hrun. cbn [snd].
        apply consistent_world; [done|]. intros ? ? _. by apply mirrored_world.
  - unfold after. by rewrite handler_destroy_none.
Qed.

Lemma keeps_addPlugins configs dirs : keeps consistent (addPlugins configs dirs).
Proof.
  unfold addPlugins. destruct configs as [cs|]; [|apply keeps_ret].
  apply keeps_for_each. intros name. apply keeps_instantiatePlugin.
Qed.

Lemma keeps_setDatabaseForPlugins : keeps consistent setDatabaseForPlugins.
Proof.
  unfold setDatabaseForPlugins. apply keeps_get. intros h.
  apply keeps_for_each. intros name. apply keeps_setDatabaseForPlugin.
Qed.

Lemma keeps_initPlugins parentConfig : keeps consistent (initPlugins parentConfig).
Proof.
  unfold initPlugins. apply keeps_get. intros h.
  apply keeps_for_each. intros name. apply keeps_get. intros h' Hh'.
  destruct (live name h'); [by apply keeps_initPlugin|done].
Qed.

Lemma keeps_destroyAll : keeps consistent destroyAll.
Proof.
  unfold destroyAll. apply keeps_get. intros h.
  apply keeps_for_each. intros name. apply keeps_try.
  - apply keeps_bind; [apply keeps_destroy|intros; apply keeps_ret].
  - intros e. apply keeps_log_line.
Qed.

Lemma perform_consistent op h : consistent h → consistent (perform op h).
Proof.
  destruct op; simpl.
  - apply keeps_addPlugins.
  - apply keeps_instantiatePlugin.
  - apply keeps_setDatabaseForPlugin.
  - apply keeps_setDatabaseForPlugins.
  - apply keeps_initPlugin.
  - apply keeps_initPlugins.
  - apply keeps_destroy.
  - apply keeps_destroyAll.
Qed.

Lemma reached_consistent s e ops : consistent (reached s e ops).
Proof.
  unfold reached.
  assert (Hnew : consistent (constructor s e)).
  { split; [constructor|]. intros name p Hp. done. }
  revert Hnew. generalize (constructor s e).
  induction ops as [|op ops IH]; intros h Hh; [done|].
  simpl. apply IH. by apply perform_consistent.
Qed.

(** The settings of a handler are never assigned to. *)
Lemma steady_ret {A} (a : A) : steady (ret a).
Proof. by intros h. Qed.

Lemma steady_throw {A} e : steady (throw (A:=A) e).
Proof. by intros h. Qed.

Lemma steady_get : steady get.
Proof. by intros h. Qed.

Lemma steady_modify g : (∀ h, settings (g h) = settings h) → steady (modify g).
Proof. intros Hg h. apply Hg. Qed.

Lemma steady_bind {A B} (m : M t A) (k : A → M t B) :
  steady m → (∀ a, steady (k a)) → steady (bind m k).
Proof.
  intros Hm Hk h. specialize (Hm h). unfold after, bind in *.
  destruct (m h) as [[a|e] h1]; [|done]. cbn [snd] in Hm. rewrite <- Hm. apply Hk.
Qed.

Lemma steady_try {A} (m : M t A) (handler : Error → M t A) :
  steady m → (∀ e, steady (handler e)) → steady (try_catch m handler).
Proof.
  intros Hm Hk h. specialize (Hm h). unfold after, try_catch in *.
  destruct (m h) as [[a|e] h1]; [done|]. cbn [snd] in Hm. rewrite <- Hm. apply Hk.
Qed.

Lemma steady_when b (m : M t unit) : steady m → steady (when b m).
Proof. intros Hm. destruct b; [done|apply steady_ret]. Qed.

Lemma steady_for_each {A} (l : list A) (body : A → M t unit) :
  (∀ x, steady (body x)) → steady (for_each l body).
Proof.
  intros Hb. induction l as [|x l IH]; [apply steady_ret|].
  apply steady_bind; [apply Hb|done].
Qed.

Lemma steady_call {A} name p (m : M PluginBase.Frame A) : steady (call name p m).
Proof. intros h. unfold after. by rewrite call_run. Qed.

Ltac steady :=
  repeat first
    [ apply steady_ret | apply steady_throw | apply steady_get | apply steady_call
    | apply steady_modify; by intros ?
    | apply steady_bind; [|intros ?]
    | apply steady_try; [|intros ?]
    | apply steady_when
    | apply steady_for_each; intros ?
    | match goal with
      | |- steady (match ?x with _ => _ end) => destruct x
      end ].

Lemma steady_instantiatePlugin name cfg dirs : steady (instantiatePlugin name cfg dirs).
Proof. unfold instantiatePlugin, log_line, record_call. steady. Qed.

Lemma steady_initPlugin name parentConfig : steady (initPlugin name parentConfig).
Proof. unfold initPlugin, log_line, log_stack, delete_instance. steady. Qed.

Lemma steady_destroy name force : steady (destroy name force).
Proof. unfold destroy, log_line, log_stack, delete_instance. steady. Qed.

Lemma perform_settings op h : settings (perform op h) = settings h.
Proof.
  destruct op; simpl.
  - revert h. change (steady (addPlugins configs resolveDirs)).
    unfold addPlugins. steady; apply steady_instantiatePlugin.
  - apply steady_instantiatePlugin.
  - revert h. change (steady (setDatabaseForPlugin name)).
    unfold setDatabaseForPlugin. steady.
  - revert h. change (steady setDatabaseForPlugins).
    unfold setDatabaseForPlugins, setDatabaseForPlugin. steady.
  - apply steady_initPlugin.
  - revert h. change (steady (initPlugins parentConfig)).
    unfold initPlugins. steady; apply steady_initPlugin.
  - apply steady_destroy.
  - revert h. change (steady destroyAll).
    unfold destroyAll, log_line. steady; apply steady_destroy.
Qed.

Lemma reached_settings s e ops : settings (reached s e ops) = s.
Proof.
  unfold reached.
  assert (Hnew : settings (constructor s e) = s) by done.
  revert Hnew. generalize (constructor s e).
  induction ops as [|op ops IH]; intros h Hh; [done|].
  simpl. apply IH. by rewrite perform_settings.
Qed.

End consistency.

(** ** Loops over the registry, continued *)

Section more_loops.
Import PluginHandler.

(** One turn of [setDatabaseForPlugins]. *)
Lemma setDatabaseForPlugin_run name h :
  setDatabaseForPlugin name h
  = (Ok tt,
     match live name h with
     | Some p =>
         mk (settings h)
            (set_prop name
               (mkEntry (getPluginConfig name h) (instance_of (PluginBase.setDatabase p)))
               (plugins h))
            (world h)
     | None => h
     end).
Proof.
  unfold setDatabaseForPlugin. rewrite bind_get.
  destruct (live name h) as [p|]; [|done]. by rewrite call_run.
Qed.

Lemma setDatabase_twice p : PluginBase.setDatabase (PluginBase.setDatabase p) = PluginBase.setDatabase p.
Proof. done. Qed.

Lemma live_set_eq name e h w :
  live name (mk (settings h) (set_prop name e (plugins h)) w)
  = match instance e with
    | instance_of p => Some p
    | _ => None
    end.
Proof.
  unfold live. cbn [plugins]. rewrite get_set_eq. by destruct e as [c [| |p]].
Qed.

Lemma config_set_ne name k e h w :
  name ≠ k →
  getPluginConfig k (mk (settings h) (set_prop name e (plugins h)) w) = getPluginConfig k h.
Proof. intros Hne. unfold getPluginConfig. cbn [plugins]. by rewrite get_set_ne. Qed.

Lemma config_set_eq name e h w :
  getPluginConfig name (mk (settings h) (set_prop name e (plugins h)) w) = config e.
Proof. unfold getPluginConfig. cbn [plugins]. by rewrite get_set_eq. Qed.

(** The loop of [setDatabaseForPlugins]: the instances of the names get
    the databases, and nothing else changes. *)
Lemma setDatabaseForPlugins_loop names h :
  ∃ h', for_each names setDatabaseForPlugin h = (Ok tt, h') ∧
        world h' = world h ∧
        settings h' = settings h ∧
        (plugins h').*1 = (plugins h).*1 ∧
        (∀ k, getPluginConfig k h' = getPluginConfig k h) ∧
        (∀ k, live k h' = if decide (k ∈ names) then PluginBase.setDatabase <$> live k h
                          else live k h).
Proof.
  revert h. induction names as [|name names IH]; intros h.
  { exists h. rewrite for_each_nil. by repeat split. }
  rewrite for_each_cons, (bind_ok _ _ _ _ _ (setDatabaseForPlugin_run name h)).
  destruct (live name h) as [p|] eqn:Hlive.
  - set (h1 := mk _ _ _).
    destruct (IH h1) as (h' & Hloop & Hw & Hs & Hk & Hc & Hl).
    exists h'. split; [done|]. repeat split; try done.
    + rewrite Hk. unfold h1. cbn [plugins]. apply keys_set_old.
      apply live_entry in Hlive as [c ->]. by eexists.
    + intros k. rewrite Hc. destruct (decide (name = k)) as [<-|Hne].
      * unfold h1. by rewrite config_set_eq.
      * unfold h1. by rewrite config_set_ne.
    + intros k. rewrite Hl. destruct (decide (name = k)) as [<-|Hne].
      * unfold h1 at 1 2. rewrite live_set_eq. cbn [instance]. rewrite Hlive.
        rewrite (decide_True (P := name ∈ name :: names)) by left.
        by destruct (decide (name ∈ names)).
      * unfold h1. rewrite live_set_ne by done.
        destruct (decide (k ∈ names)) as [Hin|Hout].
        -- by rewrite decide_True by (by right).
        -- rewrite decide_False; [done|]. by intros [->|?]%elem_of_cons.
  - destruct (IH h) as (h' & Hloop & Hw & Hs & Hk & Hc & Hl).
    exists h'. split; [done|]. repeat split; try done.
    intros k. rewrite Hl. destruct (decide (name = k)) as [<-|Hne].
    + rewrite Hlive. by repeat case_decide.
    + destruct (decide (k ∈ names)) as [Hin|Hout].
      * by rewrite decide_True by (by right).
      * rewrite decide_False; [done|]. by intros [->|?]%elem_of_cons.
Qed.

(** The handler's [initPlugin] resolves on a live instance, and changes
    the entry of the name only. *)
Lemma handler_initPlugin_resolves name parentConfig h p :
  live name h = Some p → result (initPlugin name parentConfig) h = Ok tt.
Proof.
  intros Hlive.
  pose proof (handler_initPlugin_live name parentConfig h p Hlive) as Hrun.
  cbv zeta in Hrun. unfold result in *.
  destruct (PluginBase.initPlugin _ _).1.
  - by rewrite Hrun.
  - by destruct Hrun as (w & -> & _).
Qed.

Lemma handler_initPlugin_other name k parentConfig h :
  name ≠ k →
  get_prop k (plugins (after (initPlugin name parentConfig) h)) = get_prop k (plugins h).
Proof.
  intros Hne. destruct (live name h) as [p|] eqn:Hlive.
  - pose proof (handler_initPlugin_live name parentConfig h p Hlive) as Hrun.
    cbv zeta in Hrun. unfold result, after in *.
    destruct (PluginBase.initPlugin _ _).1.
    + rewrite Hrun. cbn [snd plugins]. by rewrite get_set_ne.
    + destruct Hrun as (w & -> & _). cbn [snd plugins]. by rewrite get_set_ne.
  - unfold after, initPlugin. by rewrite bind_get, Hlive.
Qed.

(** What the handler's [initPlugin] leaves of an instance has recorded the
    parent configuration. *)
Lemma handler_initPlugin_records name parentConfig h p' :
  is_Some (live name h) →
  live name (after (initPlugin name parentConfig) h) = Some p' →
  PluginBase.parentIoPackage p' = Some parentConfig.
Proof.
  intros [p Hlive]. destruct (getPluginConfig name h) as [cfg|] eqn:Hcfg.
  - destruct (handler_initPlugin_outcome name parentConfig h p cfg Hlive Hcfg)
      as (w & Hrun & _).
    unfold after. rewrite Hrun. cbn [snd]. rewrite live_set_eq. cbn [instance].
    destruct (Cascade.accepts_flag p (world h)); [|done]. by intros [= <-].
  - destruct (handler_initPlugin_unconfigured name parentConfig h p Hlive Hcfg)
      as (w & Hrun & _).
    unfold after. rewrite Hrun. cbn [snd]. by rewrite live_set_eq.
Qed.

(** One turn of [initPlugins]. *)
Lemma initPlugins_turn_run parentConfig name h :
  (h' <-- get ;;
   match live name h' with
   | None => ret tt
   | Some _ => initPlugin name parentConfig
   end) h
  = (Ok tt, initPlugins_turn parentConfig h name).
Proof.
  rewrite bind_get. unfold initPlugins_turn.
  destruct (live name h) as [p|] eqn:Hlive; [|done].
  pose proof (handler_initPlugin_resolves name parentConfig h p Hlive) as Hr.
  unfold result, after in *. destruct (initPlugin name parentConfig h) as [r h1].
  by simplify_eq/=.
Qed.

Lemma initPlugins_loop parentConfig names h :
  for_each names
    (λ pluginName,
       h' <-- get ;;
       match live pluginName h' with
       | None => ret tt
       | Some _ => initPlugin pluginName parentConfig
       end) h
  = (Ok tt, foldl (initPlugins_turn parentConfig) h names).
Proof.
  revert h. induction names as [|name names IH]; intros h; [done|].
  rewrite for_each_cons, (bind_ok _ _ _ _ _ (initPlugins_turn_run parentConfig name h)).
  by rewrite IH.
Qed.

Lemma initPlugins_turn_other parentConfig name k h :
  name ≠ k → get_prop k (plugins (initPlugins_turn parentConfig h name)) = get_prop k (plugins h).
Proof.
  intros Hne. unfold initPlugins_turn.
  destruct (live name h); [by apply handler_initPlugin_other|done].
Qed.

Lemma initPlugins_turns_other parentConfig names k h :
  k ∉ names →
  get_prop k (plugins (foldl (initPlugins_turn parentConfig) h names)) = get_prop k (plugins h).
Proof.
  revert h. induction names as [|name names IH]; intros h Hk; [done|].
  simpl. rewrite IH by (intros ?; apply Hk; by right).
  apply initPlugins_turn_other. intros ->. apply Hk. by left.
Qed.

Lemma live_get k h h' : get_prop k (plugins h') = get_prop k (plugins h) → live k h' = live k h.
Proof. unfold live. by intros ->. Qed.

Lemma initPlugins_turns_record parentConfig names k h p' :
  NoDup names → k ∈ names →
  live k (foldl (initPlugins_turn parentConfig) h names) = Some p' →
  PluginBase.parentIoPackage p' = Some parentConfig.
Proof.
  intros Hnd. revert h. induction Hnd as [|name names Hnotin Hnd IH]; intros h Hk Hp.
  { by apply elem_of_nil in Hk. }
  simpl in Hp. apply elem_of_cons in Hk as [->|Hk]; [|by eapply IH].
  rewrite (live_get name (initPlugins_turn parentConfig h name)) in Hp
    by (by apply initPlugins_turns_other).
  unfold initPlugins_turn in Hp. destruct (live name h) as [p|] eqn:Hlive.
  - eapply handler_initPlugin_records; [|done]. by eexists.
  - congruence.
Qed.

End more_loops.

(** ** [instantiatePlugin] and [addPlugins], entry by entry *)

Section adding.
Import PluginHandler.










End adding.

(** ** [destroyAll] and the states *)

Section stores.
Import PluginHandler.

Lemma destroy_forced_states name h :
  statesClient (world (after (destroy name true) h)) = statesClient (world h).
Proof.
  unfold after. destruct (live name h) as [p|] eqn:Hl.
  - by destruct (handler_destroy_forced name h p Hl) as (w & -> & _ & Hs).
  - by rewrite handler_destroy_none.
Qed.

Lemma destroyAll_states h :
  statesClient (world (after destroyAll h)) = statesClient (world h).
Proof.
  set (I := λ h' : t, statesClient (world h') = statesClient (world h)).
  assert (keeps I destroyAll) as Hk; [|by apply Hk].
  unfold destroyAll. apply keeps_get. intros h0 Hh0. revert Hh0.
  apply (keeps_for_each I). intros name.
  apply keeps_try; [apply keeps_bind; [|intros; apply keeps_ret]|].
  - intros h1 Hh1. unfold I in *. by rewrite destroy_forced_states.
  - intros e h1 Hh1. done.
Qed.

End stores.

(** ** The cascade without a states database *)

Section no_database.
Import PluginBase.

Lemma reads_no_db id f : statesDb (this f) = false → Cascade.reads id f = None.
Proof. intros H. unfold Cascade.reads. by rewrite getState_run, H. Qed.

Lemma decision_no_db parentConfig f cfg :
  statesDb (this f) = false → Cascade.decision parentConfig f cfg = configured cfg.
Proof.
  intros H. unfold Cascade.decision, Cascade.own_flag, Cascade.host_flag.
  rewrite !reads_no_db by done.
  destruct (Cascade.prepared f), (pluginScope (this f)), (parent_host parentConfig) as [[c host]|];
    try done; by rewrite reads_no_db.
Qed.

End no_database.

(** ** A namespace the pattern does not match *)


Lemma append_length s t : String.length (s +:+ t) = String.length s + String.length t.
Proof. induction s as [|a s IH]; [done|]. rewrite append_cons. simpl. by rewrite IH. Qed.

Lemma append_ne_self s t : t ≠ EmptyString → s +:+ t ≠ s.
Proof.
  intros Ht H. apply (f_equal String.length) in H.
  rewrite append_length in H. destruct t; [done|]. simpl in H. lia.
Qed.

(** ** The objects of a plugin *)

Section objects.
Import PluginBase.

Lemma prepared_iff f :
  Cascade.prepared f = true ↔
  objectsDb (this f) = true ∧
  objects_faulty (objectsClient (env f)) !! pluginNamespace (this f) = None ∧
  objects_faulty (objectsClient (env f)) !! (pluginNamespace (this f) +:+ ".enabled") = None.
Proof.
  unfold Cascade.prepared, Cascade.enabledId. rewrite ensure_run. cbv zeta.
  destruct (objectsDb (this f)); [|by split; [|intros [? _]]].
  destruct (objects_faulty (objectsClient (env f)) !! pluginNamespace (this f));
    [by split; [|intros (_ & ? & _)]|].
  destruct (objects_faulty (objectsClient (env f)) !! (pluginNamespace (this f) +:+ ".enabled"));
    [by split; [|intros (_ & _ & ?)]|done].
Qed.

End objects.

(** ** What is logged *)

Section preserving.
Context {S : Type} (I : S → Prop).

Lemma preserves_ret {A} (a : A) : preserves I (ret a).
Proof. by intros s. Qed.

Lemma preserves_throw {A} e : preserves I (throw (A:=A) e).
Proof. by intros s. Qed.

Lemma preserves_modify g : (∀ s, I s → I (g s)) → preserves I (modify g).
Proof. intros Hg s Hs. by apply Hg. Qed.

Lemma preserves_bind {A B} (m : M S A) (k : A → M S B) :
  preserves I m → (∀ a, preserves I (k a)) → preserves I (bind m k).
Proof.
  intros Hm Hk s Hs. specialize (Hm s Hs). unfold after, bind in *.
  destruct (m s) as [[a|e] s1]; [|done]. by apply Hk.
Qed.

Lemma preserves_get {B} (k : S → M S B) :
  (∀ s, I s → preserves I (k s)) → preserves I (bind get k).
Proof. intros Hk s Hs. unfold after. rewrite bind_get. by apply Hk. Qed.

Lemma preserves_try {A} (m : M S A) (handler : Error → M S A) :
  preserves I m → (∀ e, preserves I (handler e)) → preserves I (try_catch m handler).
Proof.
  intros Hm Hk s Hs. specialize (Hm s Hs). unfold after, try_catch in *.
  destruct (m s) as [[a|e] s1]; [done|]. by apply Hk.
Qed.

Lemma preserves_when b (m : M S unit) : preserves I m → preserves I (when b m).
Proof. intros Hm. destruct b; [done|apply preserves_ret]. Qed.

Lemma preserves_for_each {A} (l : list A) (body : A → M S unit) :
  (∀ x, preserves I (body x)) → preserves I (PluginHandler.for_each l body).
Proof.
  intros Hb. induction l as [|x l IH]; [apply preserves_ret|].
  apply preserves_bind; [apply Hb|done].
Qed.

End preserving.

Lemma line_of_prefix ns prefix lvl msg :
  prefix_of ns prefix → line_of ns (lvl, prefix +:+ " " +:+ msg).
Proof.
  intros [->|[rest ->]]; [by exists msg|].
  exists (rest +:+ " " +:+ msg). cbn [snd]. by rewrite !append_assoc.
Qed.

Section plugin_speaking.
Import PluginBase.
Context (ns : string).

Lemma speaks_log_line lvl msg : preserves (plugin_speaks ns) (log_line lvl msg).
Proof.
  intros f [Hp Hl]. split; [done|]. cbn.
  apply Forall_app. split; [done|]. apply Forall_singleton. by apply line_of_prefix.
Qed.

Lemma speaks_getState id : preserves (plugin_speaks ns) (getState id).
Proof. intros f Hf. unfold after. by rewrite getState_frame. Qed.

Lemma speaks_setState id st : preserves (plugin_speaks ns) (setState id st).
Proof.
  intros f Hf. unfold after. rewrite setState_run.
  destruct (statesDb (this f)); [|done].
  by destruct (states_unwritable (statesClient (env f)) !! id).
Qed.

Lemma speaks_extendObject id ty : preserves (plugin_speaks ns) (extendObject id ty).
Proof.
  intros f Hf. unfold after. rewrite extendObject_run.
  destruct (objectsDb (this f)); [|done].
  by destruct (objects_faulty (objectsClient (env f)) !! id).
Qed.

Lemma speaks_init cfg : preserves (plugin_speaks ns) (init cfg).
Proof. intros f Hf. unfold after, init. by destruct (impl_init _ _ _). Qed.

Lemma speaks_destroy : preserves (plugin_speaks ns) destroy.
Proof. intros f Hf. unfold after. by rewrite base_destroy_run. Qed.

Lemma speaks_setActive b : preserves (plugin_speaks ns) (setActive b).
Proof.
  intros f Hf. unfold after. rewrite setActive_run. cbv zeta.
  destruct (statesDb (this f)); [|done].
  by destruct (states_unwritable (statesClient (env f)) !! _).
Qed.

Lemma speaks_assign_enabled b : preserves (plugin_speaks ns) (assign_enabled b).
Proof. intros f Hf. unfold after, assign_enabled. by destruct (pluginConfig f). Qed.

Lemma speaks_initialize b : preserves (plugin_speaks ns) (initialize b).
Proof.
  unfold initialize. destruct b.
  - apply preserves_bind; [apply speaks_log_line|intros _].
    apply preserves_bind; [apply speaks_assign_enabled|intros _].
    apply preserves_try.
    + apply preserves_get. intros f _.
      apply preserves_bind; [apply speaks_init|intros _]. apply speaks_setActive.
    + intros e. apply preserves_bind; [apply speaks_log_line|intros _]. apply speaks_setActive.
  - apply preserves_bind; [apply speaks_log_line|intros _]. apply speaks_setActive.
Qed.

Lemma speaks_initPlugin parentConfig : preserves (plugin_speaks ns) (initPlugin parentConfig).
Proof.
  unfold initPlugin. apply preserves_get. intros f _.
  destruct (pluginConfig f) as [cfg|]; [|apply preserves_throw].
  apply preserves_bind; [by apply preserves_modify|intros _].
  apply preserves_bind.
  { apply preserves_try; [|intros; apply preserves_ret].
    apply preserves_bind; [apply speaks_extendObject|intros _].
    apply preserves_bind; [apply speaks_extendObject|intros _].
    apply speaks_getState. }
  intros st. destruct (flag st); [apply speaks_initialize|].
  destruct (pluginScope (this f)), (parent_host parentConfig) as [[c host]|];
    try apply speaks_initialize.
  apply preserves_bind.
  { apply preserves_try; [apply speaks_getState|intros; apply preserves_ret]. }
  intros st'. destruct (flag st'); apply speaks_initialize.
Qed.

End plugin_speaking.

Section handler_speaking.
Import PluginHandler.
Context (s : PluginHandlerSettings).

Lemma speaks_world (g : Env → Env) :
  (∀ e, Forall (line_of (logNamespace s)) (logged e) →
        Forall (line_of (logNamespace s)) (logged (g e))) →
  preserves (speaks_as s) (modify (on_world g)).
Proof. intros Hg h (Hs & Hl & Ha). split; [done|]. split; [by apply Hg|done]. Qed.

Lemma speaks_handler_log lvl msg : preserves (speaks_as s) (log_line lvl msg).
Proof.
  intros h (Hs & Hl & Ha). split; [done|]. split; [|done]. cbn.
  apply Forall_app. split; [done|]. apply Forall_singleton.
  rewrite Hs. apply line_of_prefix. by left.
Qed.

Lemma speaks_log_stack lvl err : preserves (speaks_as s) (log_stack lvl err).
Proof. apply preserves_when, speaks_handler_log. Qed.

Lemma speaks_record_call c : preserves (speaks_as s) (record_call c).
Proof. by apply speaks_world. Qed.

Lemma speaks_as_set h name e w :
  speaks_as s h →
  Forall (line_of (logNamespace s)) (logged w) →
  (∀ p, instance e = instance_of p → prefix_of (logNamespace s) (PluginBase.log p)) →
  speaks_as s (mk (settings h) (set_prop name e (plugins h)) w).
Proof.
  intros (Hs & Hl & Ha) Hw He. split; [done|]. split; [done|].
  intros name' q Hq. destruct (decide (name = name')) as [<-|Hne].
  - rewrite live_set_eq in Hq. apply He. by destruct (instance e); simplify_eq.
  - rewrite live_set_ne in Hq by done. by apply (Ha name').
Qed.

Lemma speaks_set_entry name e :
  (∀ p, instance e = instance_of p → prefix_of (logNamespace s) (PluginBase.log p)) →
  preserves (speaks_as s) (modify (on_plugins (set_prop name e))).
Proof. intros He h Hh. apply speaks_as_set; [done|apply Hh|done]. Qed.

Lemma speaks_delete_instance name : preserves (speaks_as s) (delete_instance name).
Proof.
  intros h Hh. unfold after, delete_instance, modify, on_plugins. cbn [snd].
  destruct (get_prop name (plugins h)); [|by destruct h].
  apply speaks_as_set; [done|apply Hh|done].
Qed.

Lemma speaks_call {A} name p (m : M PluginBase.Frame A) :
  prefix_of (logNamespace s) (PluginBase.log p) →
  preserves (plugin_speaks (logNamespace s)) m →
  preserves (speaks_as s) (call name p m).
Proof.
  intros Hp Hm h Hh. unfold after. rewrite call_run. cbn [snd].
  destruct (Hm (PluginBase.mkFrame p (getPluginConfig name h) (world h))) as [Hp' Hl'].
  { split; [done|apply Hh]. }
  apply speaks_as_set; [done|done|]. by intros ? [= <-].
Qed.

Lemma speaks_instantiatePlugin name cfg dirs :
  preserves (speaks_as s) (instantiatePlugin name cfg dirs).
Proof.
  unfold instantiatePlugin. apply preserves_get. intros h Hh.
  destruct (live name h); [apply speaks_handler_log|].
  apply preserves_bind; [apply speaks_record_call|intros _].
  destruct (require_resolve _ _ _) as [|pluginPath]; [apply speaks_handler_log|].
  destruct (String.eqb pluginPath EmptyString); [apply speaks_handler_log|].
  apply preserves_bind; [apply speaks_record_call|intros _].
  destruct (require _ _) as [e|x]; [apply speaks_handler_log|].
  apply preserves_bind; [by apply speaks_set_entry|intros _].
  apply preserves_bind; [apply speaks_record_call|intros _].
  destruct (impl_constructor _ _) as [e|].
  - apply preserves_bind; [apply speaks_handler_log|intros _]. by apply speaks_set_entry.
  - apply speaks_set_entry. intros p [= <-]. right. exists ("Plugin " +:+ name).
    destruct Hh as [-> _]. done.
Qed.

Lemma speaks_setDatabaseForPlugin name : preserves (speaks_as s) (setDatabaseForPlugin name).
Proof.
  unfold setDatabaseForPlugin. apply preserves_get. intros h Hh.
  destruct (live name h) as [p|] eqn:Hl; [|apply preserves_ret].
  apply speaks_call; [by apply Hh in Hl|]. by apply preserves_modify.
Qed.

Lemma speaks_handler_initPlugin name parentConfig :
  preserves (speaks_as s) (initPlugin name parentConfig).
Proof.
  unfold initPlugin. apply preserves_get. intros h Hh.
  destruct (live name h) as [p|] eqn:Hl; [|apply preserves_throw].
  assert (Hp : prefix_of (logNamespace s) (PluginBase.log p)) by by apply Hh in Hl.
  apply preserves_try; [apply speaks_call; [done|apply speaks_initPlugin]|].
  intros err.
  apply preserves_bind; [apply speaks_handler_log|intros _].
  apply preserves_bind; [apply speaks_log_stack|intros _].
  apply preserves_get. intros h' Hh'.
  apply preserves_bind; [|intros _; apply speaks_delete_instance].
  apply preserves_try.
  - apply preserves_bind; [|intros; apply preserves_ret].
    apply speaks_call; [|apply speaks_destroy].
    destruct (live name h') as [q|] eqn:Hq; [by apply Hh' in Hq|done].
  - intros err'. apply preserves_bind; [apply speaks_handler_log|intros _].
    apply speaks_log_stack.
Qed.

Lemma speaks_handler_destroy name force : preserves (speaks_as s) (destroy name force).
Proof.
  unfold destroy. apply preserves_get. intros h Hh.
  destruct (live name h) as [p|] eqn:Hl; [|apply preserves_ret].
  assert (Hp : prefix_of (logNamespace s) (PluginBase.log p)) by by apply Hh in Hl.
  apply preserves_bind.
  { apply preserves_try; [apply speaks_call; [done|apply speaks_destroy]|].
    intros err. apply preserves_bind; [apply speaks_handler_log|intros _].
    apply preserves_bind; [apply speaks_log_stack|intros _]. apply preserves_ret. }
  intros destroyed. destruct (destroyed || force).
  - apply preserves_bind; [apply speaks_handler_log|intros _].
    apply preserves_bind.
    { apply preserves_when, preserves_get. intros h' Hh'.
      apply speaks_call; [|apply speaks_setActive].
      destruct (live name h') as [q|] eqn:Hq; [by apply Hh' in Hq|done]. }
    intros _. apply preserves_bind; [apply speaks_delete_instance|intros _].
    apply preserves_ret.
  - apply preserves_bind; [apply speaks_handler_log|intros _]. apply preserves_ret.
Qed.

Lemma speaks_perform op : preserves (speaks_as s) (λ h, (Ok tt, perform op h)).
Proof.
  intros h Hh. unfold after. cbn [snd]. destruct op; cbn [perform].
  - revert h Hh. change (preserves (speaks_as s) (addPlugins configs resolveDirs)).
    unfold addPlugins. destruct configs; [|apply preserves_ret].
    apply preserves_for_each. intros name. apply speaks_instantiatePlugin.
  - by apply speaks_instantiatePlugin.
  - by apply speaks_setDatabaseForPlugin.
  - revert h Hh. change (preserves (speaks_as s) setDatabaseForPlugins).
    unfold setDatabaseForPlugins. apply preserves_get. intros h _.
    apply preserves_for_each. intros name. apply speaks_setDatabaseForPlugin.
  - by apply speaks_handler_initPlugin.
  - revert h Hh. change (preserves (speaks_as s) (initPlugins parentConfig)).
    unfold initPlugins. apply preserves_get. intros h _.
    apply preserves_for_each. intros name. apply preserves_get. intros h' _.
    destruct (live name h'); [apply speaks_handler_initPlugin|apply preserves_ret].
  - by apply speaks_handler_destroy.
  - revert h Hh. change (preserves (speaks_as s) destroyAll).
    unfold destroyAll. apply preserves_get. intros h _.
    apply preserves_for_each. intros name. apply preserves_try.
    + apply preserves_bind; [apply speaks_handler_destroy|intros; apply preserves_ret].
    + intros e. apply speaks_handler_log.
Qed.

Lemma reached_speaks e ops :
  Forall (line_of (logNamespace s)) (logged e) → speaks_as s (reached s e ops).
Proof.
  intros He. unfold reached.
  assert (H0 : speaks_as s (constructor s e)) by by repeat split.
  revert H0. generalize (constructor s e).
  induction ops as [|op ops IH]; intros h Hh; [done|].
  simpl. apply IH. by apply (speaks_perform op).
Qed.

End handler_speaking.

(** ** The order of the calls *)

Lemma orderly_snoc cs c :
  orderly cs →
  match c with
  | CallInit ns _ | CallDestroy ns => CallNew ns ∈ cs
  | _ => True
  end →
  orderly (cs ++ [c]).
Proof.
  intros Hord Hc pre c' post Heq.
  destruct post as [|x post _] using rev_ind.
  - apply app_inj_tail in Heq as [<- <-]. done.
  - rewrite app_comm_cons, app_assoc in Heq. apply app_inj_tail in Heq as [-> _].
    by apply (Hord pre c' post).
Qed.

Section plugin_constructing.
Import PluginBase.
Context (others : string → Prop).

Lemma constructed_log_line lvl msg : preserves (plugin_constructed others) (log_line lvl msg).
Proof. by intros f Hf. Qed.

Lemma constructed_getState id : preserves (plugin_constructed others) (getState id).
Proof. intros f Hf. unfold after. by rewrite getState_frame. Qed.

Lemma constructed_extendObject id ty :
  preserves (plugin_constructed others) (extendObject id ty).
Proof.
  intros f Hf. unfold after. rewrite extendObject_run.
  destruct (objectsDb (this f)); [|done].
  by destruct (objects_faulty (objectsClient (env f)) !! id).
Qed.

Lemma constructed_add_call c f :
  match c with
  | CallInit ns _ | CallDestroy ns => ns = pluginNamespace (this f)
  | _ => True
  end →
  plugin_constructed others f → plugin_constructed others (on_env (add_call c) f).
Proof.
  intros Hc (Hord & Hnew & Hall). split; [|split]; cbn.
  - apply orderly_snoc; [done|]. by destruct c; subst.
  - apply elem_of_app. by left.
  - intros ns Hns. apply elem_of_app. left. by apply Hall.
Qed.

Lemma constructed_init cfg : preserves (plugin_constructed others) (init cfg).
Proof.
  intros f Hf.
  pose proof (constructed_add_call (CallInit (pluginNamespace (this f)) cfg) f eq_refl Hf).
  unfold after, init. by destruct (impl_init _ _ _).
Qed.

Lemma constructed_destroy : preserves (plugin_constructed others) destroy.
Proof.
  intros f Hf. unfold after. rewrite base_destroy_run. cbn [snd].
  by apply (constructed_add_call (CallDestroy (pluginNamespace (this f))) f).
Qed.

Lemma constructed_setActive b : preserves (plugin_constructed others) (setActive b).
Proof.
  intros f Hf. unfold after. rewrite setActive_run. cbv zeta.
  destruct (statesDb (this f)); [|done].
  by destruct (states_unwritable (statesClient (env f)) !! _).
Qed.

Lemma constructed_assign_enabled b :
  preserves (plugin_constructed others) (assign_enabled b).
Proof. intros f Hf. unfold after, assign_enabled. by destruct (pluginConfig f). Qed.

Lemma constructed_initialize b : preserves (plugin_constructed others) (initialize b).
Proof.
  unfold initialize. destruct b.
  - apply preserves_bind; [apply constructed_log_line|intros _].
    apply preserves_bind; [apply constructed_assign_enabled|intros _].
    apply preserves_try.
    + apply preserves_get. intros f _.
      apply preserves_bind; [apply constructed_init|intros _]. apply constructed_setActive.
    + intros e. apply preserves_bind; [apply constructed_log_line|intros _].
      apply constructed_setActive.
  - apply preserves_bind; [apply constructed_log_line|intros _]. apply constructed_setActive.
Qed.

Lemma constructed_initPlugin parentConfig :
  preserves (plugin_constructed others) (initPlugin parentConfig).
Proof.
  unfold initPlugin. apply preserves_get. intros f _.
  destruct (pluginConfig f) as [cfg|]; [|apply preserves_throw].
  apply preserves_bind; [by apply preserves_modify|intros _].
  apply preserves_bind.
  { apply preserves_try; [|intros; apply preserves_ret].
    apply preserves_bind; [apply constructed_extendObject|intros _].
    apply preserves_bind; [apply constructed_extendObject|intros _].
    apply constructed_getState. }
  intros st. destruct (flag st); [apply constructed_initialize|].
  destruct (pluginScope (this f)), (parent_host parentConfig) as [[c host]|];
    try apply constructed_initialize.
  apply preserves_bind.
  { apply preserves_try; [apply constructed_getState|intros; apply preserves_ret]. }
  intros st'. destruct (flag st'); apply constructed_initialize.
Qed.

End plugin_constructing.

Section stepping.
Context {S : Type} (I : S → Prop).

Lemma preserves_get_at {B} (k : S → M S B) :
  (∀ s, I s → I (after (k s) s)) → preserves I (bind get k).
Proof. intros Hk s Hs. unfold after. rewrite bind_get. by apply Hk. Qed.

Lemma after_bind {A B} (m : M S A) (k : A → M S B) s :
  I (after m s) → (∀ a, preserves I (k a)) → I (after (bind m k) s).
Proof.
  intros Hm Hk. unfold after, bind in *.
  destruct (m s) as [[a|e] s1]; [|done]. by apply Hk.
Qed.

Lemma after_try {A} (m : M S A) (handler : Error → M S A) s :
  I (after m s) → (∀ e, preserves I (handler e)) → I (after (try_catch m handler) s).
Proof.
  intros Hm Hk. unfold after, try_catch in *.
  destruct (m s) as [[a|e] s1]; [done|]. by apply Hk.
Qed.

End stepping.

Section handler_constructing.
Import PluginHandler.

Lemma constructed_weaken others others' h :
  (∀ ns, others' ns → others ns) → constructed others h → constructed others' h.
Proof. intros Hsub (Hord & Hall & Hoth). split; [done|]. split; [done|]. eauto. Qed.

Lemma constructed_know others h name p :
  constructed others h → live name h = Some p →
  constructed (λ ns, others ns ∨ ns = PluginBase.pluginNamespace p) h.
Proof.
  intros (Hord & Hall & Hoth) Hp. split; [done|]. split; [done|].
  intros ns [Hns| ->]; [by apply Hoth|by apply (Hall name)].
Qed.

Context (others : string → Prop).

Lemma constructed_handler_log lvl msg : preserves (constructed others) (log_line lvl msg).
Proof. by intros h Hh. Qed.

Lemma constructed_log_stack lvl err : preserves (constructed others) (log_stack lvl err).
Proof. apply preserves_when, constructed_handler_log. Qed.

Lemma constructed_record_call c :
  match c with
  | CallInit _ _ | CallDestroy _ => False
  | _ => True
  end →
  preserves (constructed others) (record_call c).
Proof.
  intros Hc h (Hord & Hall & Hoth). split; [|split]; cbn.
  - apply orderly_snoc; [done|]. by destruct c.
  - intros name p Hp. apply elem_of_app. left. by apply (Hall name).
  - intros ns Hns. apply elem_of_app. left. by apply Hoth.
Qed.

Lemma constructed_set h name e w :
  orderly (calls w) →
  (∀ name' q, name' ≠ name → live name' h = Some q →
              CallNew (PluginBase.pluginNamespace q) ∈ calls w) →
  (∀ p, instance e = instance_of p → CallNew (PluginBase.pluginNamespace p) ∈ calls w) →
  (∀ ns, others ns → CallNew ns ∈ calls w) →
  constructed others (mk (settings h) (set_prop name e (plugins h)) w).
Proof.
  intros Hw Hold He Hoth. split; [done|]. split; [|done].
  intros name' q Hq. destruct (decide (name = name')) as [<-|Hne].
  - rewrite live_set_eq in Hq. apply He. by destruct (instance e); simplify_eq.
  - rewrite live_set_ne in Hq by done. by apply (Hold name').
Qed.

Lemma constructed_set_entry name e :
  (∀ p, instance e ≠ instance_of p) →
  preserves (constructed others) (modify (on_plugins (set_prop name e))).
Proof.
  intros He h (Hord & Hall & Hoth). apply constructed_set; [done| | |done].
  - intros name' q _ Hq. by apply (Hall name').
  - intros p Hp. by destruct (He p).
Qed.

Lemma constructed_delete_instance name :
  preserves (constructed others) (delete_instance name).
Proof.
  intros h Hh. unfold after, delete_instance, modify, on_plugins. cbn [snd].
  destruct (get_prop name (plugins h)); [|by destruct h].
  by apply constructed_set_entry.
Qed.

Lemma constructed_call_at {A} name p (m : M PluginBase.Frame A) h :
  (∀ others', preserves (plugin_constructed others') m) →
  constructed others h →
  CallNew (PluginBase.pluginNamespace p) ∈ calls (world h) →
  constructed others (after (call name p m) h).
Proof.
  intros Hm (Hord & Hall & Hoth) Hp. unfold after at 1. rewrite call_run. cbn [snd].
  destruct (Hm (λ ns, others ns ∨
                      ∃ name' q, live name' h = Some q ∧ PluginBase.pluginNamespace q = ns)
              (PluginBase.mkFrame p (getPluginConfig name h) (world h)))
    as (Hord' & Hnew' & Hall').
  { split; [done|]. split; [done|].
    intros ns [Hns|(name' & q & Hq & <-)]; [by apply Hoth|by apply (Hall name')]. }
  apply constructed_set; [done| | |].
  - intros name' q _ Hq. apply Hall'. right. by exists name', q.
  - by intros ? [= <-].
  - intros ns Hns. apply Hall'. by left.
Qed.

Lemma constructed_call {A} name p (m : M PluginBase.Frame A) :
  (∀ others', preserves (plugin_constructed others') m) →
  others (PluginBase.pluginNamespace p) →
  preserves (constructed others) (call name p m).
Proof.
  intros Hm Hp h Hh. apply constructed_call_at; [done|done|]. by apply Hh.
Qed.

Lemma constructed_call_default {A} name p (m : M PluginBase.Frame A) h :
  (∀ others', preserves (plugin_constructed others') m) →
  others (PluginBase.pluginNamespace p) →
  constructed others h →
  constructed others (after (call name (default p (live name h)) m) h).
Proof.
  intros Hm Hp Hh. apply constructed_call_at; [done|done|].
  destruct (live name h) as [q|] eqn:Hq; [by apply Hh in Hq|by apply Hh].
Qed.

Lemma constructed_instantiatePlugin name cfg dirs :
  preserves (constructed others) (instantiatePlugin name cfg dirs).
Proof.
  unfold instantiatePlugin. apply preserves_get. intros h Hh.
  destruct (live name h); [apply constructed_handler_log|].
  apply preserves_bind; [by apply constructed_record_call|intros _].
  destruct (require_resolve _ _ _) as [|pluginPath]; [apply constructed_handler_log|].
  destruct (String.eqb pluginPath EmptyString); [apply constructed_handler_log|].
  apply preserves_bind; [by apply constructed_record_call|intros _].
  destruct (require _ _) as [e|x]; [apply constructed_handler_log|].
  apply preserves_bind; [by apply constructed_set_entry|intros _].
  destruct (impl_constructor _ _) as [e|].
  - apply preserves_bind; [by apply constructed_record_call|intros _].
    apply preserves_bind; [apply constructed_handler_log|intros _].
    by apply constructed_set_entry.
  - intros h1 Hh1. unfold after. unfold record_call. rewrite bind_modify.
    unfold modify. cbn [snd].
    destruct (constructed_record_call
                (CallNew (ps_pluginNamespace (plugin_settings (settings h) name (dirs_of dirs))))
                Logic.I h1 Hh1) as (Hord & Hall & Hoth).
    apply (constructed_set (on_world _ h1)); [done| |  |done].
    + intros name' q _ Hq. by apply (Hall name').
    + intros p [= <-]. cbn. apply elem_of_app. right. by apply list_elem_of_singleton.
Qed.

Lemma constructed_setDatabaseForPlugin name :
  preserves (constructed others) (setDatabaseForPlugin name).
Proof.
  unfold setDatabaseForPlugin. apply preserves_get_at. intros h Hh.
  destruct (live name h) as [p|] eqn:Hl; [|done].
  apply constructed_call_at; [|done|by apply Hh in Hl].
  intros others'. by apply preserves_modify.
Qed.

End handler_constructing.

Section operations_constructing.
Import PluginHandler.

Lemma constructed_handler_initPlugin others name parentConfig :
  preserves (constructed others) (initPlugin name parentConfig).
Proof.
  unfold initPlugin. apply preserves_get_at. intros h Hh.
  destruct (live name h) as [p|] eqn:Hl; [|done].
  apply (constructed_weaken (λ ns, others ns ∨ ns = PluginBase.pluginNamespace p));
    [by left|].
  pose proof (constructed_know others h name p Hh Hl) as Hh'. revert Hh'.
  generalize h. clear h Hh Hl.
  change (preserves
    (constructed (λ ns, others ns ∨ ns = PluginBase.pluginNamespace p))
    (try_catch
       (call name p (PluginBase.initPlugin parentConfig))
       (λ err,
          log_line warn ("Plugin " +:+ name +:+
                         " destroyed because not initialized correctly: " +:+ message err) ;;;
          log_stack debug err ;;;
          h' <-- get ;;
          try_catch
            (_ <-- call name (default p (live name h')) PluginBase.destroy ;; ret tt)
            (λ err,
               log_line warn ("Cannot destroy plugin " +:+ name +:+ ": " +:+ message err) ;;;
               log_stack warn err) ;;;
          delete_instance name))).
  apply preserves_try.
  { apply constructed_call; [intros; apply constructed_initPlugin|by right]. }
  intros err.
  apply preserves_bind; [apply constructed_handler_log|intros _].
  apply preserves_bind; [apply constructed_log_stack|intros _].
  apply preserves_get_at. intros h' Hh'.
  apply after_bind; [|intros _; apply constructed_delete_instance].
  apply after_try.
  - apply after_bind; [|intros; apply preserves_ret].
    apply constructed_call_default; [intros; apply constructed_destroy|by right|done].
  - intros err'. apply preserves_bind; [apply constructed_handler_log|intros _].
    apply constructed_log_stack.
Qed.

Lemma constructed_handler_destroy others name force :
  preserves (constructed others) (destroy name force).
Proof.
  unfold destroy. apply preserves_get_at. intros h Hh.
  destruct (live name h) as [p|] eqn:Hl; [|done].
  apply (constructed_weaken (λ ns, others ns ∨ ns = PluginBase.pluginNamespace p));
    [by left|].
  pose proof (constructed_know others h name p Hh Hl) as Hh'. revert Hh'.
  generalize h. clear h Hh Hl.
  change (preserves
    (constructed (λ ns, others ns ∨ ns = PluginBase.pluginNamespace p))
    (destroyed <--
       try_catch
         (call name p PluginBase.destroy)
         (λ err,
            log_line warn ("Plugin " +:+ name +:+ " could not be destroyed: " +:+ message err) ;;;
            log_stack warn err ;;;
            ret false) ;;
     if destroyed || force then
       log_line debug ("Plugin " +:+ name +:+ " destroyed") ;;;
       when (negb force)
         (h' <-- get ;; call name (default p (live name h')) (PluginBase.setActive false)) ;;;
       delete_instance name ;;;
       ret true
     else
       log_line warn ("Plugin " +:+ name +:+ " could not be destroyed") ;;;
       ret false)).
  apply preserves_bind.
  { apply preserves_try.
    - apply constructed_call; [intros; apply constructed_destroy|by right].
    - intros err. apply preserves_bind; [apply constructed_handler_log|intros _].
      apply preserves_bind; [apply constructed_log_stack|intros _]. apply preserves_ret. }
  intros destroyed. destruct (destroyed || force).
  - apply preserves_bind; [apply constructed_handler_log|intros _].
    apply preserves_bind.
    { apply preserves_when, preserves_get_at. intros h' Hh'.
      apply constructed_call_default; [intros; apply constructed_setActive|by right|done]. }
    intros _. apply preserves_bind; [apply constructed_delete_instance|intros _].
    apply preserves_ret.
  - apply preserves_bind; [apply constructed_handler_log|intros _]. apply preserves_ret.
Qed.

Lemma constructed_perform others op h :
  constructed others h → constructed others (perform op h).
Proof.
  revert h. destruct op; cbn [perform].
  - change (preserves (constructed others) (addPlugins configs resolveDirs)).
    unfold addPlugins. destruct configs; [|apply preserves_ret].
    apply preserves_for_each. intros name. apply constructed_instantiatePlugin.
  - apply constructed_instantiatePlugin.
  - apply constructed_setDatabaseForPlugin.
  - change (preserves (constructed others) setDatabaseForPlugins).
    unfold setDatabaseForPlugins. apply preserves_get. intros h _.
    apply preserves_for_each. intros name. apply constructed_setDatabaseForPlugin.
  - apply constructed_handler_initPlugin.
  - change (preserves (constructed others) (initPlugins parentConfig)).
    unfold initPlugins. apply preserves_get. intros h _.
    apply preserves_for_each. intros name. apply preserves_get. intros h' _.
    destruct (live name h'); [apply constructed_handler_initPlugin|apply preserves_ret].
  - apply constructed_handler_destroy.
  - change (preserves (constructed others) destroyAll).
    unfold destroyAll. apply preserves_get. intros h _.
    apply preserves_for_each. intros name. apply preserves_try.
    + apply preserves_bind; [apply constructed_handler_destroy|intros; apply preserves_ret].
    + intros e. apply constructed_handler_log.
Qed.

Lemma reached_constructed s e ops :
  orderly (calls e) → constructed (λ _, False) (reached s e ops).
Proof.
  intros He. unfold reached.
  assert (H0 : constructed (λ _, False) (constructor s e)) by by repeat split.
  revert H0. generalize (constructor s e).
  induction ops as [|op ops IH]; intros h Hh; [done|].
  simpl. apply IH. by apply constructed_perform.
Qed.

End operations_constructing.

(** * The claims *)

(** C1, refuted as stated: the plugin [broken] is instantiated, its
    databases are set, nothing is persisted and its configuration is empty,
    so the cascade decides to enable it; its [init] rejects. The plugin
    catches the failure, persists [enabled = false] and resolves: the
    handler's [initPlugin] resolves without calling [destroy] ([init] is the
    last call made) and the instance stays in the registry. *)
Lemma C1_counterexample :
  PluginHandler.isPluginInstantiated "broken"
    (Scenario.controller_with ["broken"] Scenario.empty_store) = true ∧
  result (PluginHandler.initPlugin "broken" None)
    (Scenario.controller_with ["broken"] Scenario.empty_store) = Ok tt ∧
  last (calls (PluginHandler.world (after (PluginHandler.initPlugin "broken" None)
    (Scenario.controller_with ["broken"] Scenario.empty_store))))
    = Some (CallInit "system.host.h1.plugins.broken" {[ "enabled" := JBool true ]}) ∧
  last (logged (PluginHandler.world (after (PluginHandler.initPlugin "broken" None)
    (Scenario.controller_with ["broken"] Scenario.empty_store))))
    = Some (error, "system.host.h1 Plugin broken Failed to initialize plugin: boom") ∧
  states (statesClient (PluginHandler.world (after (PluginHandler.initPlugin "broken" None)
    (Scenario.controller_with ["broken"] Scenario.empty_store))))
    !! "system.host.h1.plugins.broken.enabled"
    = Some (mkState (JBool false) true "system.host.h1.plugins.broken") ∧
  PluginHandler.isPluginInstantiated "broken"
    (after (PluginHandler.initPlugin "broken" None)
       (Scenario.controller_with ["broken"] Scenario.empty_store)) = true.
Proof. vm_compute. done. Qed.

(** C1, as amended: for every instantiated plugin whose enable-resolution
    yields a truthy decision and whose implementer [init] fails, the
    lifecycle logs the failure and marks the plugin inactive, and the
    handler's [initPlugin] resolves with the entry's configuration still
    there, now marked enabled. When the flag can be written,
    [enabled = false] is persisted and the failure stays in the plugin:
    [destroy] is not called and [isPluginInstantiated name] is still true.
    Only when the flag cannot be written does the failure reach the
    handler's [initPlugin], whose containment calls [destroy] and removes
    the instance, so that [isPluginInstantiated name] is false. *)
Theorem C1_init_failure_is_contained name parentConfig h p cfg err :
  PluginHandler.getPluginInstance name h = Some p →
  PluginHandler.getPluginConfig name h = Some cfg →
  Cascade.decision parentConfig (PluginBase.mkFrame p (Some cfg) (PluginHandler.world h)) cfg
    = true →
  impl_init (PluginBase.class p) (<["enabled" := JBool true]> cfg)
            (calls (PluginHandler.world h)) = Some err →
  result (PluginHandler.initPlugin name parentConfig) h = Ok tt ∧
  PluginHandler.isPluginActive name
    (after (PluginHandler.initPlugin name parentConfig) h) = false ∧
  PluginHandler.pluginExists name
    (after (PluginHandler.initPlugin name parentConfig) h) = true ∧
  PluginHandler.getPluginConfig name (after (PluginHandler.initPlugin name parentConfig) h)
    = Some (<["enabled" := JBool true]> cfg) ∧
  if Cascade.accepts_flag p (PluginHandler.world h) then
    PluginHandler.isPluginInstantiated name
      (after (PluginHandler.initPlugin name parentConfig) h) = true ∧
    states (statesClient (PluginHandler.world
              (after (PluginHandler.initPlugin name parentConfig) h)))
      !! Cascade.enabledId (PluginBase.pluginNamespace p)
      = Some (mkState (JBool false) true (PluginBase.pluginNamespace p)) ∧
    calls (PluginHandler.world (after (PluginHandler.initPlugin name parentConfig) h))
      = (calls (PluginHandler.world h) ++
         [CallInit (PluginBase.pluginNamespace p) (<["enabled" := JBool true]> cfg)])%list ∧
    last (logged (PluginHandler.world (after (PluginHandler.initPlugin name parentConfig) h)))
      = Some (error, PluginBase.log p +:+ " " +:+
                     "Failed to initialize plugin: " +:+ message err)
  else
    PluginHandler.isPluginInstantiated name
      (after (PluginHandler.initPlugin name parentConfig) h) = false ∧
    states (statesClient (PluginHandler.world
              (after (PluginHandler.initPlugin name parentConfig) h)))
      = states (statesClient (PluginHandler.world h)) ∧
    calls (PluginHandler.world (after (PluginHandler.initPlugin name parentConfig) h))
      = (calls (PluginHandler.world h) ++
         [CallInit (PluginBase.pluginNamespace p) (<["enabled" := JBool true]> cfg);
          CallDestroy (PluginBase.pluginNamespace p)])%list.
Proof.
  unfold PluginHandler.getPluginInstance.
  intros Hlive Hcfg Hd Hinit.
  pose proof (handler_initPlugin_live name parentConfig h p Hlive) as Hrun.
  cbv zeta in Hrun. rewrite Hcfg in Hrun.
  destruct (initPlugin_init_fails parentConfig
              (PluginBase.mkFrame p (Some cfg) (PluginHandler.world h)) cfg err)
    as (r & f' & Hf & Hact & Hns & Hc & Hcalls & Hlog & Hw); try done.
  unfold result, after in *. rewrite Hf in Hrun. cbn [fst snd] in Hrun.
  cbn [PluginBase.this PluginBase.env] in Hw, Hns, Hcalls, Hlog.
  unfold PluginHandler.isPluginInstantiated, PluginHandler.isPluginActive,
    PluginHandler.pluginExists, PluginHandler.getPluginConfig, PluginHandler.live.
  destruct (Cascade.accepts_flag p (PluginHandler.world h)).
  - destruct Hw as [-> Hst]. rewrite Hrun.
    cbn [fst snd PluginHandler.plugins PluginHandler.world]. rewrite get_set_eq.
    cbn [instance config]. rewrite Hc, Hact. by repeat split.
  - destruct Hw as [[e ->] Hst]. destruct Hrun as (w & -> & Hcw & Hsw).
    cbn [fst snd PluginHandler.plugins PluginHandler.world]. rewrite get_set_eq.
    cbn [instance config]. rewrite Hc, Hsw, Hst, Hcw, Hcalls, Hns.
    repeat split; try done. by rewrite <- app_assoc.
Qed.

(** The theorem at the plugin [broken], once with a store that takes the
    flag and once with one that rejects it. *)
Lemma C1_witness :
  (PluginHandler.isPluginInstantiated "broken"
     (after (PluginHandler.initPlugin "broken" None)
        (Scenario.controller_with ["broken"] Scenario.empty_store)) = true ∧
   PluginHandler.isPluginActive "broken"
     (after (PluginHandler.initPlugin "broken" None)
        (Scenario.controller_with ["broken"] Scenario.empty_store)) = false) ∧
  (PluginHandler.isPluginInstantiated "broken"
     (after (PluginHandler.initPlugin "broken" None)
        (Scenario.controller_with ["broken"] Scenario.readonly_store)) = false ∧
   PluginHandler.getPluginConfig "broken"
     (after (PluginHandler.initPlugin "broken" None)
        (Scenario.controller_with ["broken"] Scenario.readonly_store))
     = Some (<["enabled" := JBool true]> ∅)).
Proof.
  split.
  - pose proof (C1_init_failure_is_contained "broken" None
      (Scenario.controller_with ["broken"] Scenario.empty_store)
      (Scenario.plugin Scenario.controller_settings "broken" Scenario.fails_init)
      ∅ Scenario.boom eq_refl eq_refl eq_refl eq_refl) as (_ & Hactive & _ & _ & Hinst & _).
    exact (conj Hinst Hactive).
  - pose proof (C1_init_failure_is_contained "broken" None
      (Scenario.controller_with ["broken"] Scenario.readonly_store)
      (Scenario.plugin Scenario.controller_settings "broken" Scenario.fails_init)
      ∅ Scenario.boom eq_refl eq_refl eq_refl eq_refl) as (_ & _ & _ & Hcfg & Hinst & _).
    exact (conj Hinst Hcfg).
Defined.




(** C3, refuted as stated: the flag of the sentry plugin is persisted as
    [false] and can be read, but the objects store rejects the folder
    object; the guarded block then skips the read, the cascade falls
    through to the configuration, [init] is called and the plugin ends
    active. *)
Lemma C3_counterexample :
  result (PluginBase.getState "system.host.h1.plugins.sentry.enabled")
         (Scenario.sentry_frame {[ "system.host.h1.plugins.sentry" := Scenario.boom ]})
    = Ok (Some (mkState (JBool false) true "system.host.h1.plugins.sentry")) ∧
  PluginBase.isActive (PluginBase.this (after (PluginBase.initPlugin None)
    (Scenario.sentry_frame {[ "system.host.h1.plugins.sentry" := Scenario.boom ]}))) = true ∧
  calls (PluginBase.env (after (PluginBase.initPlugin None)
    (Scenario.sentry_frame {[ "system.host.h1.plugins.sentry" := Scenario.boom ]})))
    = [CallInit "system.host.h1.plugins.sentry" {[ "enabled" := JBool true ]}].
Proof. vm_compute. done. Qed.

(** C3, as amended: for every instantiated plugin with a configuration, for
    which the two objects of the namespace could be ensured and the read of
    [<namespace>.enabled] resolves to a state whose value is a concrete
    [false], [initPlugin] decides by rule 5a alone: the decision is [false]
    whatever the configuration says, the plugin ends with
    [isActive = false] and [init] is not called. *)
Theorem C3_persisted_false_decides_alone parentConfig f cfg st :
  PluginBase.pluginConfig f = Some cfg →
  Cascade.prepared f = true →
  result (PluginBase.getState
            (Cascade.enabledId (PluginBase.pluginNamespace (PluginBase.this f)))) f
    = Ok (Some st) →
  val st = JBool false →
  Cascade.decision parentConfig f cfg = false ∧
  PluginBase.isActive (PluginBase.this (after (PluginBase.initPlugin parentConfig) f)) = false ∧
  calls (PluginBase.env (after (PluginBase.initPlugin parentConfig) f))
    = calls (PluginBase.env f).
Proof.
  intros Hcfg Hprep Hget Hval.
  assert (Hd : Cascade.decision parentConfig f cfg = false).
  { unfold Cascade.decision, Cascade.own_flag, Cascade.reads. rewrite Hprep.
    unfold result in Hget. rewrite Hget. simpl. by rewrite Hval. }
  split; [done|]. unfold after.
  rewrite (initPlugin_cascade _ _ _ Hcfg), Hd.
  destruct (initialize_false (Cascade.prepare parentConfig f).2) as (Ha & Hc & _).
  split; [done|]. rewrite Hc.
  destruct (prepare_frame parentConfig f) as [db ->]. done.
Qed.

(** The theorem at the sentry plugin of the controller, its flag persisted
    as [false] and the objects store in order. *)
Lemma C3_witness :
  Cascade.decision None (Scenario.sentry_frame ∅) ∅ = false ∧
  PluginBase.isActive (PluginBase.this
    (after (PluginBase.initPlugin None) (Scenario.sentry_frame ∅))) = false ∧
  calls (PluginBase.env (after (PluginBase.initPlugin None) (Scenario.sentry_frame ∅)))
    = calls (PluginBase.env (Scenario.sentry_frame ∅)).
Proof.
  apply (C3_persisted_false_decides_alone None (Scenario.sentry_frame ∅) ∅
           (mkState (JBool false) true "system.host.h1.plugins.sentry"));
    reflexivity.
Defined.



(** C5, refuted as stated, twice. First the sentry plugin right after
    [instantiatePlugin]: no database set, nothing persisted, an empty
    configuration and an [init] that succeeds. [init] is called, but the
    flag cannot be written: the failure is answered by [setActive(false)],
    which fails too, so [initPlugin] rejects and the plugin is inactive.
    Then the same plugin with the databases set and a states store that
    rejects the write of the flag: the plugin is inactive again, and
    nothing is persisted. *)
Lemma C5_counterexample :
  (impl_init (PluginBase.class (PluginBase.this Scenario.fresh_frame))
             {[ "enabled" := JBool true ]} [] = None ∧
   calls (PluginBase.env (after (PluginBase.initPlugin None) Scenario.fresh_frame))
     = [CallInit "system.host.h1.plugins.sentry" {[ "enabled" := JBool true ]}] ∧
   result (PluginBase.initPlugin None) Scenario.fresh_frame
     = Throw (new_Error "States Database not initialized.") ∧
   PluginBase.isActive (PluginBase.this
     (after (PluginBase.initPlugin None) Scenario.fresh_frame)) = false) ∧
  (impl_init (PluginBase.class (PluginBase.this Scenario.readonly_frame))
             {[ "enabled" := JBool true ]} [] = None ∧
   calls (PluginBase.env (after (PluginBase.initPlugin None) Scenario.readonly_frame))
     = [CallInit "system.host.h1.plugins.sentry" {[ "enabled" := JBool true ]}] ∧
   result (PluginBase.initPlugin None) Scenario.readonly_frame = Throw Scenario.boom ∧
   PluginBase.isActive (PluginBase.this
     (after (PluginBase.initPlugin None) Scenario.readonly_frame)) = false ∧
   states (statesClient (PluginBase.env
     (after (PluginBase.initPlugin None) Scenario.readonly_frame)))
     !! "system.host.h1.plugins.sentry.enabled" = None).
Proof. vm_compute. done. Qed.

(** C5, as amended: for every instantiated plugin whose own namespace and
    whose host give no concrete flag and whose configuration has no
    [enabled], the cascade defaults to enabled and [initPlugin] calls
    [init] with the configuration marked enabled; when [init] succeeds and
    the states database is set and accepts the write of the flag,
    [initPlugin] resolves with [isActive = true] and
    [<namespace>.enabled] persisted as an acknowledged [true]. *)
Theorem C5_default_is_enabled parentConfig f cfg :
  PluginBase.pluginConfig f = Some cfg →
  Cascade.reads (Cascade.enabledId (PluginBase.pluginNamespace (PluginBase.this f))) f = None →
  Cascade.host_flag parentConfig f = None →
  prop cfg "enabled" = JUndefined →
  Cascade.decision parentConfig f cfg = true ∧
  calls (PluginBase.env (after (PluginBase.initPlugin parentConfig) f))
    = (calls (PluginBase.env f) ++
       [CallInit (PluginBase.pluginNamespace (PluginBase.this f))
                 (<["enabled" := JBool true]> cfg)])%list ∧
  (impl_init (PluginBase.class (PluginBase.this f)) (<["enabled" := JBool true]> cfg)
             (calls (PluginBase.env f)) = None →
   Cascade.accepts_flag (PluginBase.this f) (PluginBase.env f) = true →
   result (PluginBase.initPlugin parentConfig) f = Ok tt ∧
   PluginBase.isActive (PluginBase.this (after (PluginBase.initPlugin parentConfig) f)) = true ∧
   states (statesClient (PluginBase.env (after (PluginBase.initPlugin parentConfig) f)))
     !! Cascade.enabledId (PluginBase.pluginNamespace (PluginBase.this f))
   = Some (mkState (JBool true) true (PluginBase.pluginNamespace (PluginBase.this f)))).
Proof.
  intros Hcfg Hown Hhost Hkey.
  assert (Hd : Cascade.decision parentConfig f cfg = true).
  { unfold Cascade.decision, Cascade.own_flag. rewrite Hown, Hhost.
    unfold PluginBase.configured. rewrite Hkey. by destruct (Cascade.prepared f). }
  split; [done|]. unfold after, result.
  rewrite (initPlugin_cascade _ _ _ Hcfg), Hd.
  destruct (prepare_frame parentConfig f) as [db Hp]. rewrite Hp. cbn [snd].
  set (f1 := PluginBase.mkFrame _ _ _).
  split.
  { by rewrite (initialize_true_calls f1 cfg). }
  intros Hinit [Hdb Hw%bool_decide_eq_true]%andb_prop.
  rewrite (initialize_true_run f1 cfg) by done. cbn zeta.
  subst f1. cbn [PluginBase.this PluginBase.env PluginBase.class
    PluginBase.set_parentIoPackage with_objects calls].
  rewrite Hinit, setActive_run. simpl. rewrite Hdb.
  unfold Cascade.enabledId in Hw. rewrite Hw. simpl.
  split; [done|]. split; [done|]. unfold Cascade.enabledId.
  by rewrite lookup_insert_eq.
Qed.

(** The theorem at the sentry plugin of the controller, databases set and
    nothing persisted. *)
Lemma C5_witness :
  Cascade.decision None Scenario.ready_frame ∅ = true ∧
  calls (PluginBase.env (after (PluginBase.initPlugin None) Scenario.ready_frame))
    = (calls (PluginBase.env Scenario.ready_frame) ++
       [CallInit (PluginBase.pluginNamespace (PluginBase.this Scenario.ready_frame))
                 (<["enabled" := JBool true]> ∅)])%list ∧
  result (PluginBase.initPlugin None) Scenario.ready_frame = Ok tt ∧
  PluginBase.isActive (PluginBase.this
    (after (PluginBase.initPlugin None) Scenario.ready_frame)) = true ∧
  states (statesClient (PluginBase.env (after (PluginBase.initPlugin None) Scenario.ready_frame)))
    !! Cascade.enabledId (PluginBase.pluginNamespace (PluginBase.this Scenario.ready_frame))
  = Some (mkState (JBool true) true
            (PluginBase.pluginNamespace (PluginBase.this Scenario.ready_frame))).
Proof.
  pose proof (C5_default_is_enabled None Scenario.ready_frame ∅
                eq_refl eq_refl eq_refl eq_refl) as (Hd & Hcalls & Hgood).
  exact (conj Hd (conj Hcalls (Hgood eq_refl eq_refl))).
Defined.





(** C8: the handler's [initPlugin name parentConfig] throws exactly when
    there is no instance for [name], whatever the reason (never
    instantiated, constructor failed, instance removed); the error is the
    explicit one and nothing is changed. For a name with an instance the
    call resolves: every failure of the plugin is contained. *)
Theorem C8_initPlugin_throws_iff_no_instance name parentConfig h :
  ((∃ e, result (PluginHandler.initPlugin name parentConfig) h = Throw e) ↔
   PluginHandler.isPluginInstantiated name h = false) ∧
  (PluginHandler.initPlugin name parentConfig h
     = (Throw (new_Error "Please instantiate plugin first!"), h) ∨
   result (PluginHandler.initPlugin name parentConfig) h = Ok tt).
Proof.
  unfold PluginHandler.isPluginInstantiated.
  destruct (PluginHandler.live name h) as [p|] eqn:Hlive.
  - assert (Hok : result (PluginHandler.initPlugin name parentConfig) h = Ok tt).
    { pose proof (handler_initPlugin_live name parentConfig h p Hlive) as Hrun.
      cbv zeta in Hrun. unfold result in *.
      destruct (PluginBase.initPlugin _ _).1.
      - by rewrite Hrun.
      - destruct Hrun as (w & -> & _). done. }
    split; [|by right]. rewrite Hok. split; [by intros [? ?]|done].
  - assert (Hthrow : PluginHandler.initPlugin name parentConfig h
                     = (Throw (new_Error "Please instantiate plugin first!"), h)).
    { unfold PluginHandler.initPlugin. by rewrite bind_get, Hlive. }
    split; [|by left]. unfold result. rewrite Hthrow. split; [done|by eexists].
Qed.

(** C9: while a live instance exists for [name], [instantiatePlugin name
    config dirs] is a no-op: it resolves after logging that the duplicate
    is ignored; nothing is resolved, required or constructed, and the
    registry, with the entry of [name], is unchanged. *)
Theorem C9_instantiatePlugin_twice name cfg dirs h :
  PluginHandler.isPluginInstantiated name h = true →
  PluginHandler.instantiatePlugin name cfg dirs h
    = (Ok tt,
       PluginHandler.on_world
         (add_log (info, logNamespace (PluginHandler.settings h) +:+ " " +:+
                         "Ignore duplicate plugin " +:+ name)) h) ∧
  PluginHandler.plugins (after (PluginHandler.instantiatePlugin name cfg dirs) h)
    = PluginHandler.plugins h ∧
  calls (PluginHandler.world (after (PluginHandler.instantiatePlugin name cfg dirs) h))
    = calls (PluginHandler.world h).
Proof.
  unfold PluginHandler.isPluginInstantiated. intros [p Hlive]%bool_decide_eq_true.
  assert (Hrun : PluginHandler.instantiatePlugin name cfg dirs h
    = (Ok tt,
       PluginHandler.on_world
         (add_log (info, logNamespace (PluginHandler.settings h) +:+ " " +:+
                         "Ignore duplicate plugin " +:+ name)) h)).
  { unfold PluginHandler.instantiatePlugin. by rewrite bind_get, Hlive. }
  unfold after. by rewrite Hrun.
Qed.

(** The theorem at a controller that has instantiated the sentry plugin. *)
Lemma C9_witness :
  PluginHandler.instantiatePlugin "sentry" (Some {[ "enabled" := JBool false ]}) Scenario.dir
    (Scenario.controller_with ["sentry"] Scenario.empty_store)
    = (Ok tt,
       PluginHandler.on_world
         (add_log (info, logNamespace (PluginHandler.settings
                           (Scenario.controller_with ["sentry"] Scenario.empty_store))
                         +:+ " " +:+ "Ignore duplicate plugin " +:+ "sentry"))
         (Scenario.controller_with ["sentry"] Scenario.empty_store)) ∧
  PluginHandler.plugins
    (after (PluginHandler.instantiatePlugin "sentry" (Some {[ "enabled" := JBool false ]})
              Scenario.dir)
       (Scenario.controller_with ["sentry"] Scenario.empty_store))
    = PluginHandler.plugins (Scenario.controller_with ["sentry"] Scenario.empty_store) ∧
  calls (PluginHandler.world
    (after (PluginHandler.instantiatePlugin "sentry" (Some {[ "enabled" := JBool false ]})
              Scenario.dir)
       (Scenario.controller_with ["sentry"] Scenario.empty_store)))
    = calls (PluginHandler.world (Scenario.controller_with ["sentry"] Scenario.empty_store)).
Proof.
  apply (C9_instantiatePlugin_twice "sentry" (Some {[ "enabled" := JBool false ]}) Scenario.dir
           (Scenario.controller_with ["sentry"] Scenario.empty_store)).
  reflexivity.
Defined.



(** * Further properties of the code *)

(** ** The plugin base class *)

(** X1: [setActive b] and then a read of the flag. When the states
    database is set and the store takes the write and gives the read, the
    state read back is [{val: b, ack: true, from: <pluginNamespace>}], and
    the flag in memory is [b]. *)
Theorem X1_setActive_then_getState b f :
  PluginBase.statesDb (PluginBase.this f) = true →
  states_unwritable (statesClient (PluginBase.env f))
    !! (PluginBase.pluginNamespace (PluginBase.this f) +:+ ".enabled") = None →
  states_unreadable (statesClient (PluginBase.env f))
    !! (PluginBase.pluginNamespace (PluginBase.this f) +:+ ".enabled") = None →
  result (_ <-- PluginBase.setActive b ;;
          PluginBase.getState (PluginBase.pluginNamespace (PluginBase.this f) +:+ ".enabled")) f
    = Ok (Some (mkState (JBool b) true (PluginBase.pluginNamespace (PluginBase.this f)))) ∧
  PluginBase.isActive (PluginBase.this (after (PluginBase.setActive b) f)) = b.
Proof.
  intros Hdb Hw Hr. split; [|apply setActive_frame].
  unfold result. rewrite setActive_getState; [done| |done].
  unfold Cascade.accepts_flag, Cascade.enabledId. rewrite Hdb. simpl.
  by apply bool_decide_eq_true_2.
Qed.

(** The theorem at the sentry plugin of the controller with the databases
    set, on an empty store. *)
Lemma X1_witness :
  result (_ <-- PluginBase.setActive true ;;
          PluginBase.getState
            (PluginBase.pluginNamespace (PluginBase.this Scenario.ready_frame) +:+ ".enabled"))
         Scenario.ready_frame
    = Ok (Some (mkState (JBool true) true
                  (PluginBase.pluginNamespace (PluginBase.this Scenario.ready_frame)))) ∧
  PluginBase.isActive (PluginBase.this (after (PluginBase.setActive true) Scenario.ready_frame))
    = true.
Proof.
  exact (X1_setActive_then_getState true Scenario.ready_frame eq_refl eq_refl eq_refl).
Defined.

(** X2: [setActive b] when the flag cannot be written, because the states
    database is not set or because the store rejects the write. The
    promise rejects with the error of the write, the store is as before,
    and the flag in memory is [b] all the same: [isActive] is assigned
    before the write is tried. *)
Theorem X2_setActive_without_write b f e :
  (if PluginBase.statesDb (PluginBase.this f)
   then states_unwritable (statesClient (PluginBase.env f))
          !! (PluginBase.pluginNamespace (PluginBase.this f) +:+ ".enabled")
   else Some (new_Error "States Database not initialized.")) = Some e →
  result (PluginBase.setActive b) f = Throw e ∧
  PluginBase.isActive (PluginBase.this (after (PluginBase.setActive b) f)) = b ∧
  PluginBase.env (after (PluginBase.setActive b) f) = PluginBase.env f ∧
  PluginBase.pluginConfig (after (PluginBase.setActive b) f) = PluginBase.pluginConfig f.
Proof.
  intros He. unfold result, after. rewrite setActive_outcome.
  unfold Outcome.write_error, Cascade.enabledId. by rewrite He.
Qed.

(** The theorem at the sentry plugin as [instantiatePlugin] leaves it,
    without a database. *)
Lemma X2_witness :
  result (PluginBase.setActive true) Scenario.fresh_frame
    = Throw (new_Error "States Database not initialized.") ∧
  PluginBase.isActive (PluginBase.this (after (PluginBase.setActive true) Scenario.fresh_frame))
    = true ∧
  PluginBase.env (after (PluginBase.setActive true) Scenario.fresh_frame)
    = PluginBase.env Scenario.fresh_frame ∧
  PluginBase.pluginConfig (after (PluginBase.setActive true) Scenario.fresh_frame)
    = PluginBase.pluginConfig Scenario.fresh_frame.
Proof.
  exact (X2_setActive_without_write true Scenario.fresh_frame
           (new_Error "States Database not initialized.") eq_refl).
Defined.

(** X3: what [initPlugin] of the base class comes to, for every instance
    with a configuration. The parent configuration is recorded. [init] is
    called exactly when the cascade decides to activate, once, with the
    configuration marked [enabled: true], and the configuration object of
    the caller is marked with it. The plugin ends active exactly when the
    cascade decided to activate, [init] resolved and the flag could be
    written; and the promise resolves exactly when the flag could be
    written. *)
Theorem X3_initPlugin_outcome parentConfig f cfg :
  PluginBase.pluginConfig f = Some cfg →
  (result (PluginBase.initPlugin parentConfig) f = Ok tt ↔
   Cascade.accepts_flag (PluginBase.this f) (PluginBase.env f) = true) ∧
  PluginBase.isActive (PluginBase.this (after (PluginBase.initPlugin parentConfig) f))
    = Cascade.decision parentConfig f cfg &&
      bool_decide (impl_init (PluginBase.class (PluginBase.this f))
                     (<["enabled" := JBool true]> cfg) (calls (PluginBase.env f)) = None) &&
      Cascade.accepts_flag (PluginBase.this f) (PluginBase.env f) ∧
  PluginBase.parentIoPackage (PluginBase.this (after (PluginBase.initPlugin parentConfig) f))
    = Some parentConfig ∧
  calls (PluginBase.env (after (PluginBase.initPlugin parentConfig) f))
    = (calls (PluginBase.env f) ++
       if Cascade.decision parentConfig f cfg
       then [CallInit (PluginBase.pluginNamespace (PluginBase.this f))
                      (<["enabled" := JBool true]> cfg)]
       else [])%list ∧
  PluginBase.pluginConfig (after (PluginBase.initPlugin parentConfig) f)
    = Some (if Cascade.decision parentConfig f cfg
            then <["enabled" := JBool true]> cfg else cfg).
Proof.
  intros Hcfg.
  destruct (initPlugin_outcome parentConfig f cfg Hcfg) as (Hr & Ht & Hc & Hcalls & _).
  repeat split.
  - rewrite Hr. intros H. apply accepts_flag_write_error.
    by destruct (Outcome.write_error _ _).
  - intros H%accepts_flag_write_error. by rewrite Hr, H.
  - rewrite Ht. cbn [PluginBase.set_isActive PluginBase.isActive].
    unfold Outcome.activated, Outcome.init_resolves.
    by destruct (impl_init _ _ _).
  - by rewrite Ht.
  - by rewrite Hcalls.
  - by rewrite Hc.
Qed.

(** The theorem at the sentry plugin of the controller on an empty store:
    it is initialised and ends active. *)
Lemma X3_witness :
  (result (PluginBase.initPlugin None) Scenario.ready_frame = Ok tt ↔
   Cascade.accepts_flag (PluginBase.this Scenario.ready_frame)
     (PluginBase.env Scenario.ready_frame) = true) ∧
  PluginBase.isActive (PluginBase.this (after (PluginBase.initPlugin None) Scenario.ready_frame))
    = Cascade.decision None Scenario.ready_frame ∅ &&
      bool_decide (impl_init (PluginBase.class (PluginBase.this Scenario.ready_frame))
                     (<["enabled" := JBool true]> ∅)
                     (calls (PluginBase.env Scenario.ready_frame)) = None) &&
      Cascade.accepts_flag (PluginBase.this Scenario.ready_frame)
        (PluginBase.env Scenario.ready_frame) ∧
  PluginBase.parentIoPackage
    (PluginBase.this (after (PluginBase.initPlugin None) Scenario.ready_frame)) = Some None ∧
  calls (PluginBase.env (after (PluginBase.initPlugin None) Scenario.ready_frame))
    = (calls (PluginBase.env Scenario.ready_frame) ++
       if Cascade.decision None Scenario.ready_frame ∅
       then [CallInit (PluginBase.pluginNamespace (PluginBase.this Scenario.ready_frame))
                      (<["enabled" := JBool true]> ∅)]
       else [])%list ∧
  PluginBase.pluginConfig (after (PluginBase.initPlugin None) Scenario.ready_frame)
    = Some (if Cascade.decision None Scenario.ready_frame ∅
            then <["enabled" := JBool true]> ∅ else ∅).
Proof.
  exact (X3_initPlugin_outcome None Scenario.ready_frame ∅ eq_refl).
Defined.

(** X4: rule 5a with any value. For every instance with a configuration
    whose two objects can be ensured and whose own [<namespace>.enabled]
    is read as a state with a value that is neither an object nor
    [undefined], the decision is the truthiness of that value, whatever
    the host flag and the configuration say: a number other than [0] and
    a text other than the empty one activate. [init] is called exactly
    when the value is truthy, and then the configuration is marked
    [enabled: true]. *)
Theorem X4_persisted_flag_is_coerced parentConfig f cfg st :
  PluginBase.pluginConfig f = Some cfg →
  Cascade.prepared f = true →
  result (PluginBase.getState
            (PluginBase.pluginNamespace (PluginBase.this f) +:+ ".enabled")) f
    = Ok (Some st) →
  concrete (val st) = true →
  Cascade.decision parentConfig f cfg = truthy (val st) ∧
  calls (PluginBase.env (after (PluginBase.initPlugin parentConfig) f))
    = (calls (PluginBase.env f) ++
       if truthy (val st)
       then [CallInit (PluginBase.pluginNamespace (PluginBase.this f))
                      (<["enabled" := JBool true]> cfg)]
       else [])%list ∧
  PluginBase.pluginConfig (after (PluginBase.initPlugin parentConfig) f)
    = Some (if truthy (val st) then <["enabled" := JBool true]> cfg else cfg).
Proof.
  intros Hcfg Hprep Hread Hconc.
  assert (Hd : Cascade.decision parentConfig f cfg = truthy (val st)).
  { unfold Cascade.decision, Cascade.own_flag, Cascade.reads, Cascade.enabledId.
    unfold result in Hread. rewrite Hprep, Hread. cbn [PluginBase.flag]. by rewrite Hconc. }
  destruct (initPlugin_outcome parentConfig f cfg Hcfg) as (_ & _ & Hc & Hcalls & _).
  split; [done|]. rewrite Hcalls, Hc.
  unfold Outcome.init_call, Outcome.configuration. by rewrite Hd.
Qed.

(** The theorem at the sentry plugin of the controller whose flag is
    persisted as the text [false]: the text is truthy, and [init] is
    called. *)
Lemma X4_witness :
  Cascade.decision None Cases.texted_frame ∅ = truthy (JString "false") ∧
  calls (PluginBase.env (after (PluginBase.initPlugin None) Cases.texted_frame))
    = (calls (PluginBase.env Cases.texted_frame) ++
       if truthy (JString "false")
       then [CallInit (PluginBase.pluginNamespace (PluginBase.this Cases.texted_frame))
                      (<["enabled" := JBool true]> ∅)]
       else [])%list ∧
  PluginBase.pluginConfig (after (PluginBase.initPlugin None) Cases.texted_frame)
    = Some (if truthy (JString "false") then <["enabled" := JBool true]> ∅ else ∅).
Proof.
  exact (X4_persisted_flag_is_coerced None Cases.texted_frame ∅
           (mkState (JString "false") true "system.host.h1.plugins.sentry")
           eq_refl eq_refl eq_refl eq_refl).
Defined.



(** X6: rule 5c, the configuration decides last. For every instance with
    a configuration whose own flag and whose host flag give no decision,
    the decision is [true] when the key [enabled] of the configuration is
    [undefined] or missing, and the truthiness of its value otherwise.
    When it is falsy [init] is not called, the configuration is left as
    it is, the plugin is inactive, and where the flag can be written it is
    persisted as [false]. *)
Theorem X6_configuration_decides_last parentConfig f cfg :
  PluginBase.pluginConfig f = Some cfg →
  Cascade.own_flag f = None →
  Cascade.host_flag parentConfig f = None →
  Cascade.decision parentConfig f cfg
    = match prop cfg "enabled" with
      | JUndefined => true
      | v => truthy v
      end ∧
  (Cascade.decision parentConfig f cfg = false →
   calls (PluginBase.env (after (PluginBase.initPlugin parentConfig) f))
     = calls (PluginBase.env f) ∧
   PluginBase.pluginConfig (after (PluginBase.initPlugin parentConfig) f) = Some cfg ∧
   PluginBase.isActive (PluginBase.this (after (PluginBase.initPlugin parentConfig) f))
     = false ∧
   (Cascade.accepts_flag (PluginBase.this f) (PluginBase.env f) = true →
    states (statesClient (PluginBase.env (after (PluginBase.initPlugin parentConfig) f)))
      !! (PluginBase.pluginNamespace (PluginBase.this f) +:+ ".enabled")
    = Some (mkState (JBool false) true (PluginBase.pluginNamespace (PluginBase.this f))))).
Proof.
  intros Hcfg Hown Hhost.
  split. { unfold Cascade.decision. by rewrite Hown, Hhost. }
  intros Hd.
  destruct (initPlugin_outcome parentConfig f cfg Hcfg)
    as (_ & Ht & Hc & Hcalls & _ & _ & Hst).
  unfold Outcome.init_call, Outcome.configuration, Outcome.activated in *.
  rewrite Hd in *. cbn [andb] in *.
  rewrite Hcalls, app_nil_r, Hc, Ht. repeat split; try done.
  intros Hacc. rewrite Hst, Hacc. cbn [states]. apply lookup_insert_eq.
Qed.

(** The theorem at the sentry plugin of the controller, configured with
    [enabled: false], on an empty store. *)
Lemma X6_witness :
  Cascade.decision None Cases.opted_out_frame {[ "enabled" := JBool false ]} = false ∧
  calls (PluginBase.env (after (PluginBase.initPlugin None) Cases.opted_out_frame))
    = calls (PluginBase.env Cases.opted_out_frame) ∧
  PluginBase.pluginConfig (after (PluginBase.initPlugin None) Cases.opted_out_frame)
    = Some {[ "enabled" := JBool false ]} ∧
  PluginBase.isActive (PluginBase.this (after (PluginBase.initPlugin None) Cases.opted_out_frame))
    = false ∧
  states (statesClient (PluginBase.env (after (PluginBase.initPlugin None) Cases.opted_out_frame)))
    !! (PluginBase.pluginNamespace (PluginBase.this Cases.opted_out_frame) +:+ ".enabled")
  = Some (mkState (JBool false) true
            (PluginBase.pluginNamespace (PluginBase.this Cases.opted_out_frame))).
Proof.
  pose proof (X6_configuration_decides_last None Cases.opted_out_frame
                {[ "enabled" := JBool false ]} eq_refl eq_refl eq_refl) as [Hd Hrest].
  destruct (Hrest eq_refl) as (H1 & H2 & H3 & H4).
  exact (conj eq_refl (conj H1 (conj H2 (conj H3 (H4 eq_refl))))).
Defined.

(** X7: the objects of the plugin. For every instance with a
    configuration and the objects database set, when the store takes the
    two writes, [initPlugin] leaves a folder object at the plugin
    namespace and a state object at [<namespace>.enabled], and no other
    object is touched; this is so whatever becomes of the flag and of
    [init]. *)
Theorem X7_initPlugin_ensures_objects parentConfig f cfg :
  PluginBase.pluginConfig f = Some cfg →
  PluginBase.objectsDb (PluginBase.this f) = true →
  objects_faulty (objectsClient (PluginBase.env f))
    !! PluginBase.pluginNamespace (PluginBase.this f) = None →
  objects_faulty (objectsClient (PluginBase.env f))
    !! (PluginBase.pluginNamespace (PluginBase.this f) +:+ ".enabled") = None →
  objects (objectsClient (PluginBase.env (after (PluginBase.initPlugin parentConfig) f)))
    !! PluginBase.pluginNamespace (PluginBase.this f) = Some TFolder ∧
  objects (objectsClient (PluginBase.env (after (PluginBase.initPlugin parentConfig) f)))
    !! (PluginBase.pluginNamespace (PluginBase.this f) +:+ ".enabled") = Some TState ∧
  ∀ id, id ≠ PluginBase.pluginNamespace (PluginBase.this f) →
        id ≠ PluginBase.pluginNamespace (PluginBase.this f) +:+ ".enabled" →
        objects (objectsClient (PluginBase.env (after (PluginBase.initPlugin parentConfig) f)))
          !! id
        = objects (objectsClient (PluginBase.env f)) !! id.
Proof.
  intros Hcfg Hdb H1 H2.
  assert (Hprep : Cascade.prepared f = true) by by apply prepared_iff.
  destruct (initPlugin_outcome parentConfig f cfg Hcfg) as (_ & _ & _ & _ & Hobj & _).
  rewrite Hobj, (prepare_objects parentConfig f Hprep). unfold Cascade.enabledId.
  cbn [objects]. repeat split.
  - rewrite lookup_insert_ne by by apply append_ne_self. apply lookup_insert_eq.
  - apply lookup_insert_eq.
  - intros id Hid1 Hid2. by rewrite !lookup_insert_ne.
Qed.

(** The theorem at the plugin [broken] of the controller, whose [init]
    rejects: the two objects are there all the same. *)
Lemma X7_witness :
  objects (objectsClient (PluginBase.env (after (PluginBase.initPlugin None) Cases.broken_frame)))
    !! PluginBase.pluginNamespace (PluginBase.this Cases.broken_frame) = Some TFolder ∧
  objects (objectsClient (PluginBase.env (after (PluginBase.initPlugin None) Cases.broken_frame)))
    !! (PluginBase.pluginNamespace (PluginBase.this Cases.broken_frame) +:+ ".enabled")
    = Some TState.
Proof.
  destruct (X7_initPlugin_ensures_objects None Cases.broken_frame ∅
              eq_refl eq_refl eq_refl eq_refl) as (H1 & H2 & _).
  exact (conj H1 H2).
Defined.

(** X8: the decision is remembered. After an [initPlugin] that could
    ensure its objects and write the flag, on a store that gives the read
    of the flag, the next [initPlugin] of an instance with the same
    namespace and the databases set (the same instance, or a new one after
    a restart) decides what the first one ended with, whatever the flag of
    the host, the parent configuration and the new configuration say. A
    plugin whose [init] rejected once is not initialised again. *)
Theorem X8_decision_is_remembered parentConfig f cfg p' parentConfig' cfg' :
  PluginBase.pluginConfig f = Some cfg →
  Cascade.prepared f = true →
  Cascade.accepts_flag (PluginBase.this f) (PluginBase.env f) = true →
  states_unreadable (statesClient (PluginBase.env f))
    !! (PluginBase.pluginNamespace (PluginBase.this f) +:+ ".enabled") = None →
  PluginBase.pluginNamespace p' = PluginBase.pluginNamespace (PluginBase.this f) →
  PluginBase.objectsDb p' = true →
  PluginBase.statesDb p' = true →
  Cascade.decision parentConfig'
    (PluginBase.mkFrame p' (Some cfg')
       (PluginBase.env (after (PluginBase.initPlugin parentConfig) f))) cfg'
  = PluginBase.isActive (PluginBase.this (after (PluginBase.initPlugin parentConfig) f)).
Proof.
  intros Hcfg Hprep Hacc Hread Hns Hodb Hsdb.
  destruct (initPlugin_outcome parentConfig f cfg Hcfg) as (_ & Ht & _ & _ & Hobj & _ & Hst).
  rewrite Hacc in Hst. rewrite Ht. cbn [PluginBase.set_isActive PluginBase.isActive].
  set (f2 := PluginBase.mkFrame _ _ _).
  assert (Hprep2 : Cascade.prepared f2 = true).
  { apply prepared_iff in Hprep as (_ & H1 & H2). apply prepared_iff.
    unfold f2. cbn [PluginBase.this PluginBase.env]. rewrite Hns, Hobj, prepare_faulty.
    done. }
  unfold Cascade.decision, Cascade.own_flag, Cascade.reads. rewrite Hprep2.
  rewrite getState_run. subst f2. cbn [PluginBase.this PluginBase.env].
  rewrite Hsdb, Hst, Hns. cbn [states_unreadable states]. unfold Cascade.enabledId.
  rewrite Hread, lookup_insert_eq. done.
Qed.

(** The theorem at the plugin [broken] of the controller: its [init]
    rejected, so that a second [initPlugin], now configured with
    [enabled: true], decides not to activate. *)
Lemma X8_witness :
  Cascade.decision None
    (PluginBase.mkFrame (PluginBase.this Cases.broken_frame)
       (Some {[ "enabled" := JBool true ]})
       (PluginBase.env (after (PluginBase.initPlugin None) Cases.broken_frame)))
    {[ "enabled" := JBool true ]}
  = PluginBase.isActive (PluginBase.this (after (PluginBase.initPlugin None) Cases.broken_frame)).
Proof.
  exact (X8_decision_is_remembered None Cases.broken_frame ∅
           (PluginBase.this Cases.broken_frame) None {[ "enabled" := JBool true ]}
           eq_refl eq_refl eq_refl eq_refl eq_refl eq_refl eq_refl).
Defined.

(** X9: a class that keeps the [init] of the base class. For every
    instance of such a class with a configuration, [initPlugin] ends with
    the plugin inactive, whatever the cascade decides; where the flag can
    be written it is persisted as [false]. *)
Theorem X9_base_init_never_activates parentConfig f cfg :
  PluginBase.pluginConfig f = Some cfg →
  impl_init (PluginBase.class (PluginBase.this f)) = impl_init PluginBase_class →
  PluginBase.isActive (PluginBase.this (after (PluginBase.initPlugin parentConfig) f)) = false ∧
  (Cascade.accepts_flag (PluginBase.this f) (PluginBase.env f) = true →
   states (statesClient (PluginBase.env (after (PluginBase.initPlugin parentConfig) f)))
     !! (PluginBase.pluginNamespace (PluginBase.this f) +:+ ".enabled")
   = Some (mkState (JBool false) true (PluginBase.pluginNamespace (PluginBase.this f)))).
Proof.
  intros Hcfg Hinit.
  destruct (initPlugin_outcome parentConfig f cfg Hcfg) as (_ & Ht & _ & _ & _ & _ & Hst).
  assert (Hact : Outcome.activated parentConfig f cfg = false).
  { unfold Outcome.activated, Outcome.init_resolves. rewrite Hinit. simpl.
    by rewrite andb_false_r. }
  rewrite Hact in *. rewrite Ht. split; [done|].
  intros Hacc. rewrite Hst, Hacc. cbn [states]. apply lookup_insert_eq.
Qed.

(** The theorem at the plugin [plain] of the controller, whose class is
    the base class. *)
Lemma X9_witness :
  PluginBase.isActive (PluginBase.this (after (PluginBase.initPlugin None) Cases.plain_frame))
    = false ∧
  states (statesClient (PluginBase.env (after (PluginBase.initPlugin None) Cases.plain_frame)))
    !! (PluginBase.pluginNamespace (PluginBase.this Cases.plain_frame) +:+ ".enabled")
  = Some (mkState (JBool false) true
            (PluginBase.pluginNamespace (PluginBase.this Cases.plain_frame))).
Proof.
  destruct (X9_base_init_never_activates None Cases.plain_frame ∅ eq_refl eq_refl) as [H1 H2].
  exact (conj H1 (H2 eq_refl)).
Defined.



(** ** The plugin handler *)

(** X11: what the handler's [initPlugin] comes to, for every name with an
    instance and a configuration. The promise resolves and the entry
    stays in its place. The instance is kept exactly when the flag could
    be written; otherwise the failure is contained, [destroy] is called
    once after [init], and the instance is removed. The plugin is active
    afterwards exactly when the cascade decided to activate, [init]
    resolved and the flag could be written. The configuration of the
    entry is marked [enabled: true] exactly when the cascade decided to
    activate. *)
Theorem X11_handler_initPlugin_outcome name parentConfig h p cfg :
  PluginHandler.getPluginInstance name h = Some p →
  PluginHandler.getPluginConfig name h = Some cfg →
  result (PluginHandler.initPlugin name parentConfig) h = Ok tt ∧
  (PluginHandler.plugins (after (PluginHandler.initPlugin name parentConfig) h)).*1
    = (PluginHandler.plugins h).*1 ∧
  PluginHandler.isPluginInstantiated name (after (PluginHandler.initPlugin name parentConfig) h)
    = Cascade.accepts_flag p (PluginHandler.world h) ∧
  PluginHandler.isPluginActive name (after (PluginHandler.initPlugin name parentConfig) h)
    = Cascade.decision parentConfig (PluginBase.mkFrame p (Some cfg) (PluginHandler.world h)) cfg &&
      bool_decide (impl_init (PluginBase.class p) (<["enabled" := JBool true]> cfg)
                     (calls (PluginHandler.world h)) = None) &&
      Cascade.accepts_flag p (PluginHandler.world h) ∧
  PluginHandler.getPluginConfig name (after (PluginHandler.initPlugin name parentConfig) h)
    = Some (if Cascade.decision parentConfig
                 (PluginBase.mkFrame p (Some cfg) (PluginHandler.world h)) cfg
            then <["enabled" := JBool true]> cfg else cfg) ∧
  calls (PluginHandler.world (after (PluginHandler.initPlugin name parentConfig) h))
    = (calls (PluginHandler.world h) ++
       (if Cascade.decision parentConfig
             (PluginBase.mkFrame p (Some cfg) (PluginHandler.world h)) cfg
        then [CallInit (PluginBase.pluginNamespace p) (<["enabled" := JBool true]> cfg)]
        else []) ++
       (if Cascade.accepts_flag p (PluginHandler.world h) then []
        else [CallDestroy (PluginBase.pluginNamespace p)]))%list.
Proof.
  intros Hlive Hcfg. unfold PluginHandler.getPluginInstance in Hlive.
  destruct (handler_initPlugin_outcome name parentConfig h p cfg Hlive Hcfg)
    as (w & Hrun & Hcalls & _).
  unfold result, after. rewrite Hrun. cbn [fst snd PluginHandler.world].
  split; [done|]. split.
  { cbn [PluginHandler.plugins]. apply keys_set_old.
    apply live_entry in Hlive as [c ->]. by eexists. }
  unfold PluginHandler.isPluginInstantiated, PluginHandler.isPluginActive.
  rewrite live_set_eq, config_set_eq, Hcalls. cbn [instance config].
  unfold Outcome.activated, Outcome.init_resolves, Outcome.configuration, Outcome.init_call.
  cbn [PluginBase.this PluginBase.env].
  destruct (Cascade.accepts_flag p (PluginHandler.world h)).
  - repeat split; try done.
    cbn [PluginBase.set_isActive PluginBase.isActive]. by destruct (impl_init _ _ _).
  - repeat split; try done. by rewrite !andb_false_r.
Qed.

(** The theorem at a controller whose sentry plugin has the databases,
    on a store that rejects the write of the flag: [init] is called, then
    [destroy], and the instance is removed. *)
Lemma X11_witness :
  result (PluginHandler.initPlugin "sentry" None) Cases.readonly = Ok tt ∧
  PluginHandler.isPluginInstantiated "sentry"
    (after (PluginHandler.initPlugin "sentry" None) Cases.readonly) = false ∧
  PluginHandler.isPluginActive "sentry"
    (after (PluginHandler.initPlugin "sentry" None) Cases.readonly) = false ∧
  calls (PluginHandler.world (after (PluginHandler.initPlugin "sentry" None) Cases.readonly))
    = [CallResolve "@iobroker/plugin-sentry" ["/opt/iobroker"];
       CallRequire "/opt/iobroker/node_modules/@iobroker/plugin-sentry";
       CallNew "system.host.h1.plugins.sentry";
       CallInit "system.host.h1.plugins.sentry" (<["enabled" := JBool true]> ∅);
       CallDestroy "system.host.h1.plugins.sentry"].
Proof.
  destruct (X11_handler_initPlugin_outcome "sentry" None Cases.readonly
              (Scenario.plugin Scenario.controller_settings "sentry" Scenario.works) ∅
              eq_refl eq_refl) as (H1 & _ & H2 & H3 & _ & H4).
  exact (conj H1 (conj H2 (conj H3 H4))).
Defined.

(** X12: the handler's [initPlugin] on an entry whose configuration is
    falsy. For every name with an instance and such a configuration, the
    promise resolves, [init] is not called, [destroy] is called once, the
    instance is removed while the entry stays, and the states are as
    before. *)
Theorem X12_initPlugin_without_configuration name parentConfig h p :
  PluginHandler.getPluginInstance name h = Some p →
  PluginHandler.getPluginConfig name h = None →
  result (PluginHandler.initPlugin name parentConfig) h = Ok tt ∧
  PluginHandler.isPluginInstantiated name (after (PluginHandler.initPlugin name parentConfig) h)
    = false ∧
  PluginHandler.pluginExists name (after (PluginHandler.initPlugin name parentConfig) h)
    = true ∧
  calls (PluginHandler.world (after (PluginHandler.initPlugin name parentConfig) h))
    = (calls (PluginHandler.world h) ++ [CallDestroy (PluginBase.pluginNamespace p)])%list ∧
  statesClient (PluginHandler.world (after (PluginHandler.initPlugin name parentConfig) h))
    = statesClient (PluginHandler.world h).
Proof.
  intros Hlive Hcfg. unfold PluginHandler.getPluginInstance in Hlive.
  destruct (handler_initPlugin_unconfigured name parentConfig h p Hlive Hcfg)
    as (w & Hrun & Hcalls & Hst).
  unfold result, after. rewrite Hrun. cbn [fst snd PluginHandler.world].
  unfold PluginHandler.isPluginInstantiated, PluginHandler.pluginExists.
  rewrite live_set_eq. cbn [instance PluginHandler.plugins]. rewrite get_set_eq.
  by repeat split.
Qed.

(** The theorem at a controller that added the sentry plugin without a
    configuration. *)
Lemma X12_witness :
  result (PluginHandler.initPlugin "sentry" None) Cases.unconfigured = Ok tt ∧
  PluginHandler.isPluginInstantiated "sentry"
    (after (PluginHandler.initPlugin "sentry" None) Cases.unconfigured) = false ∧
  PluginHandler.pluginExists "sentry"
    (after (PluginHandler.initPlugin "sentry" None) Cases.unconfigured) = true ∧
  calls (PluginHandler.world (after (PluginHandler.initPlugin "sentry" None) Cases.unconfigured))
    = (calls (PluginHandler.world Cases.unconfigured) ++
       [CallDestroy (PluginBase.pluginNamespace
                       (Scenario.plugin Scenario.controller_settings "sentry" Scenario.works))])%list ∧
  statesClient (PluginHandler.world
                  (after (PluginHandler.initPlugin "sentry" None) Cases.unconfigured))
    = statesClient (PluginHandler.world Cases.unconfigured).
Proof.
  exact (X12_initPlugin_without_configuration "sentry" None Cases.unconfigured
           (Scenario.plugin Scenario.controller_settings "sentry" Scenario.works)
           eq_refl eq_refl).
Defined.

(** X13: the handler's [initPlugin] before [setDatabase]. For every name
    with a configuration whose instance has no states database, the
    promise resolves and the instance is removed: the configuration alone
    decides whether [init] is called, the flag cannot be written, and the
    handler calls [destroy]. The states are as before. *)
Theorem X13_initPlugin_before_setDatabase name parentConfig h p cfg :
  PluginHandler.getPluginInstance name h = Some p →
  PluginHandler.getPluginConfig name h = Some cfg →
  PluginBase.statesDb p = false →
  result (PluginHandler.initPlugin name parentConfig) h = Ok tt ∧
  PluginHandler.isPluginInstantiated name (after (PluginHandler.initPlugin name parentConfig) h)
    = false ∧
  calls (PluginHandler.world (after (PluginHandler.initPlugin name parentConfig) h))
    = (calls (PluginHandler.world h) ++
       (if PluginBase.configured cfg
        then [CallInit (PluginBase.pluginNamespace p) (<["enabled" := JBool true]> cfg)]
        else []) ++
       [CallDestroy (PluginBase.pluginNamespace p)])%list ∧
  statesClient (PluginHandler.world (after (PluginHandler.initPlugin name parentConfig) h))
    = statesClient (PluginHandler.world h).
Proof.
  intros Hlive Hcfg Hdb. unfold PluginHandler.getPluginInstance in Hlive.
  destruct (handler_initPlugin_outcome name parentConfig h p cfg Hlive Hcfg)
    as (w & Hrun & Hcalls & Hst).
  assert (Hacc : Cascade.accepts_flag p (PluginHandler.world h) = false).
  { unfold Cascade.accepts_flag. by rewrite Hdb. }
  rewrite Hacc in *.
  unfold result, after. rewrite Hrun. cbn [fst snd PluginHandler.world].
  unfold PluginHandler.isPluginInstantiated. rewrite live_set_eq, Hcalls, Hst.
  unfold Outcome.init_call. rewrite decision_no_db by done.
  done.
Qed.

(** The theorem at a controller that added the sentry plugin and did not
    set the databases: [init] is called and the instance is lost. *)
Lemma X13_witness :
  result (PluginHandler.initPlugin "sentry" None) Cases.early = Ok tt ∧
  PluginHandler.isPluginInstantiated "sentry"
    (after (PluginHandler.initPlugin "sentry" None) Cases.early) = false ∧
  calls (PluginHandler.world (after (PluginHandler.initPlugin "sentry" None) Cases.early))
    = (calls (PluginHandler.world Cases.early) ++
       (if PluginBase.configured ∅
        then [CallInit "system.host.h1.plugins.sentry" (<["enabled" := JBool true]> ∅)]
        else []) ++
       [CallDestroy "system.host.h1.plugins.sentry"])%list ∧
  statesClient (PluginHandler.world (after (PluginHandler.initPlugin "sentry" None) Cases.early))
    = statesClient (PluginHandler.world Cases.early).
Proof.
  exact (X13_initPlugin_before_setDatabase "sentry" None Cases.early
           (PluginBase.constructor Scenario.works
              (PluginHandler.plugin_settings Scenario.controller_settings "sentry"
                 ["/opt/iobroker"]))
           ∅ eq_refl eq_refl eq_refl).
Defined.

(** X14: a [destroy] that is not forced, of an instance whose [destroy]
    resolves to [true]. [destroy] of the implementer is called once. When
    the flag can be written it is persisted as [false], the instance is
    removed and the promise resolves to [true]. When the flag cannot be
    written the promise rejects with the error of the write, and the
    instance stays in its entry, inactive, although it was destroyed. *)
Theorem X14_destroy_accepted name h p :
  PluginHandler.getPluginInstance name h = Some p →
  answer (impl_destroy (PluginBase.class p) (calls (PluginHandler.world h))) = true →
  calls (PluginHandler.world (after (PluginHandler.destroy name false) h))
    = (calls (PluginHandler.world h) ++ [CallDestroy (PluginBase.pluginNamespace p)])%list ∧
  if Cascade.accepts_flag p (PluginHandler.world h) then
    result (PluginHandler.destroy name false) h = Ok true ∧
    PluginHandler.isPluginInstantiated name (after (PluginHandler.destroy name false) h)
      = false ∧
    states (statesClient (PluginHandler.world (after (PluginHandler.destroy name false) h)))
      !! (PluginBase.pluginNamespace p +:+ ".enabled")
      = Some (mkState (JBool false) true (PluginBase.pluginNamespace p))
  else
    (∃ e, result (PluginHandler.destroy name false) h = Throw e) ∧
    PluginHandler.isPluginInstantiated name (after (PluginHandler.destroy name false) h)
      = true ∧
    PluginHandler.isPluginActive name (after (PluginHandler.destroy name false) h) = false ∧
    statesClient (PluginHandler.world (after (PluginHandler.destroy name false) h))
      = statesClient (PluginHandler.world h).
Proof.
  intros Hlive Hans. unfold PluginHandler.getPluginInstance in Hlive.
  destruct (handler_destroy_accepted name h p Hlive Hans) as (w & Hrun & Hcalls & Hst).
  pose proof (accepts_flag_write_error p (PluginHandler.world h)) as Hacc.
  unfold result, after, PluginHandler.isPluginInstantiated, PluginHandler.isPluginActive.
  rewrite Hrun.
  destruct (Outcome.write_error p (PluginHandler.world h)) as [e|].
  - cbn [fst snd PluginHandler.world]. rewrite live_set_eq. cbn [instance].
    split; [done|].
    destruct (Cascade.accepts_flag p (PluginHandler.world h)); [by destruct Hacc as [Hacc _]; specialize (Hacc eq_refl)|].
    repeat split; try done. by exists e.
  - cbn [fst snd PluginHandler.world]. rewrite live_set_eq. cbn [instance].
    split; [done|].
    destruct Hacc as [_ Hacc]. rewrite (Hacc eq_refl).
    repeat split; try done. rewrite Hst. cbn [states]. apply lookup_insert_eq.
Qed.

(** The theorem at a controller whose sentry plugin has the databases,
    on a store that rejects the write of the flag. *)
Lemma X14_witness :
  calls (PluginHandler.world (after (PluginHandler.destroy "sentry" false) Cases.readonly))
    = (calls (PluginHandler.world Cases.readonly) ++
       [CallDestroy "system.host.h1.plugins.sentry"])%list ∧
  (∃ e, result (PluginHandler.destroy "sentry" false) Cases.readonly = Throw e) ∧
  PluginHandler.isPluginInstantiated "sentry"
    (after (PluginHandler.destroy "sentry" false) Cases.readonly) = true ∧
  PluginHandler.isPluginActive "sentry"
    (after (PluginHandler.destroy "sentry" false) Cases.readonly) = false ∧
  statesClient (PluginHandler.world (after (PluginHandler.destroy "sentry" false) Cases.readonly))
    = statesClient (PluginHandler.world Cases.readonly).
Proof.
  exact (X14_destroy_accepted "sentry" Cases.readonly
           (Scenario.plugin Scenario.controller_settings "sentry" Scenario.works)
           eq_refl eq_refl).
Defined.

(** X15: a forced [destroy] and [destroyAll] leave the states as they
    are: unlike a [destroy] that is not forced, they do not persist the
    flag as [false], so that a plugin that was enabled is found enabled
    at the next start. *)
Theorem X15_forced_destroy_keeps_the_flags name h :
  statesClient (PluginHandler.world (after (PluginHandler.destroy name true) h))
    = statesClient (PluginHandler.world h) ∧
  statesClient (PluginHandler.world (after PluginHandler.destroyAll h))
    = statesClient (PluginHandler.world h).
Proof. split; [apply destroy_forced_states|apply destroyAll_states]. Qed.

(** X16: [setDatabaseForPlugins]. Every instance of the registry gets
    both databases and is otherwise as before; an entry without an
    instance stays without one; the keys, the configurations and the
    environment are as before, and the call does not throw. *)
Theorem X16_setDatabaseForPlugins_reaches_every_instance h :
  result PluginHandler.setDatabaseForPlugins h = Ok tt ∧
  PluginHandler.world (after PluginHandler.setDatabaseForPlugins h) = PluginHandler.world h ∧
  (PluginHandler.plugins (after PluginHandler.setDatabaseForPlugins h)).*1
    = (PluginHandler.plugins h).*1 ∧
  (∀ name, PluginHandler.getPluginConfig name (after PluginHandler.setDatabaseForPlugins h)
           = PluginHandler.getPluginConfig name h) ∧
  (∀ name, PluginHandler.getPluginInstance name (after PluginHandler.setDatabaseForPlugins h)
           = PluginBase.setDatabase <$> PluginHandler.getPluginInstance name h).
Proof.
  unfold result, after, PluginHandler.setDatabaseForPlugins, PluginHandler.getPluginInstance.
  rewrite bind_get.
  destruct (setDatabaseForPlugins_loop (ownKeys (PluginHandler.plugins h).*1) h)
    as (h' & -> & Hw & _ & Hk & Hc & Hl).
  cbn [fst snd]. repeat split; try done.
  intros name. rewrite Hl. case_decide as Hin; [done|].
  destruct (PluginHandler.live name h) as [p|] eqn:Hlive; [|done].
  exfalso. apply Hin, ownKeys_elem, get_is_key.
  apply live_entry in Hlive as [c ->]. by eexists.
Qed.

(** X17: the instances of a registry belong to their names. In every
    state reached from a new handler, the instance held for a name has the
    scope and the parent namespace of the handler's settings, the
    namespace [<namespace>.plugins.<name>], the log prefix
    [<logNamespace> Plugin <name>], and either both databases or none; and
    no other name holds an instance with the same namespace. *)
Theorem X17_instances_belong_to_their_names s e ops name p :
  PluginHandler.getPluginInstance name (reached s e ops) = Some p →
  PluginBase.pluginScope p = scope s ∧
  PluginBase.parentNamespace p = namespace s ∧
  PluginBase.pluginNamespace p = namespace s +:+ ".plugins." +:+ name ∧
  PluginBase.log p = logNamespace s +:+ " Plugin " +:+ name ∧
  PluginBase.objectsDb p = PluginBase.statesDb p ∧
  ∀ name' p', PluginHandler.getPluginInstance name' (reached s e ops) = Some p' →
              PluginBase.pluginNamespace p' = PluginBase.pluginNamespace p →
              name' = name.
Proof.
  intros Hlive. unfold PluginHandler.getPluginInstance in *.
  destruct (reached_consistent s e ops) as [_ Hall].
  destruct (Hall name p Hlive) as [(H1 & H2 & H3 & H4 & H5) _].
  rewrite reached_settings in *. repeat split; try done.
  intros name' p' Hlive' Hns.
  destruct (Hall name' p' Hlive') as [(_ & _ & H3' & _) _].
  rewrite H3, H3' in Hns.
  apply (enabledId_inj (namespace s)). by rewrite Hns.
Qed.

(** The theorem at a controller that started the plugins [sentry] and
    [broken]. *)
Lemma X17_witness :
  PluginHandler.getPluginInstance "sentry"
    (reached Scenario.controller_settings Scenario.empty_store Cases.startup)
    = Some (PluginBase.set_isActive true
              (PluginBase.set_parentIoPackage None
                 (Scenario.plugin Scenario.controller_settings "sentry" Scenario.works))) ∧
  PluginBase.pluginNamespace
    (PluginBase.set_isActive true
       (PluginBase.set_parentIoPackage None
          (Scenario.plugin Scenario.controller_settings "sentry" Scenario.works)))
    = namespace Scenario.controller_settings +:+ ".plugins." +:+ "sentry" ∧
  PluginBase.log
    (PluginBase.set_isActive true
       (PluginBase.set_parentIoPackage None
          (Scenario.plugin Scenario.controller_settings "sentry" Scenario.works)))
    = logNamespace Scenario.controller_settings +:+ " Plugin " +:+ "sentry".
Proof.
  destruct (X17_instances_belong_to_their_names Scenario.controller_settings
              Scenario.empty_store Cases.startup "sentry"
              (PluginBase.set_isActive true
                 (PluginBase.set_parentIoPackage None
                    (Scenario.plugin Scenario.controller_settings "sentry" Scenario.works)))
              eq_refl) as (_ & _ & H3 & H4 & _).
  exact (conj eq_refl (conj H3 H4)).
Defined.

(** X18: an active plugin has its flag persisted. In every state reached
    from a new handler by its operations, when [isPluginActive name] is
    true the states hold [{val: true, ack: true, from: <pluginNamespace>}]
    at [<namespace>.plugins.<name>.enabled]. *)
Theorem X18_active_is_persisted s e ops name :
  PluginHandler.isPluginActive name (reached s e ops) = true →
  states (statesClient (PluginHandler.world (reached s e ops)))
    !! ((namespace s +:+ ".plugins." +:+ name) +:+ ".enabled")
  = Some (mkState (JBool true) true (namespace s +:+ ".plugins." +:+ name)).
Proof.
  unfold PluginHandler.isPluginActive.
  destruct (PluginHandler.live name (reached s e ops)) as [p|] eqn:Hlive; [|done].
  intros Hactive.
  destruct (reached_consistent s e ops) as [_ Hall].
  destruct (Hall name p Hlive) as [(_ & _ & H3 & _) Hmir].
  rewrite reached_settings in H3. specialize (Hmir Hactive).
  by rewrite H3 in Hmir.
Qed.

(** The theorem at a controller that started the plugins [sentry] and
    [broken]. *)
Lemma X18_witness :
  states (statesClient (PluginHandler.world
            (reached Scenario.controller_settings Scenario.empty_store Cases.startup)))
    !! ((namespace Scenario.controller_settings +:+ ".plugins." +:+ "sentry") +:+ ".enabled")
  = Some (mkState (JBool true) true
            (namespace Scenario.controller_settings +:+ ".plugins." +:+ "sentry")).
Proof.
  exact (X18_active_is_persisted Scenario.controller_settings Scenario.empty_store
           Cases.startup "sentry" eq_refl).
Defined.

(** X19: [initPlugins]. The promise resolves, whatever the plugins do.
    The entries are taken in key order, one after the other: an entry
    without an instance is skipped, and every other one is initialised by
    the handler's [initPlugin] whether or not the ones before it failed.
    With distinct keys, every instance left in the registry has recorded
    the parent configuration. *)
Theorem X19_initPlugins_one_after_the_other parentConfig h :
  result (PluginHandler.initPlugins parentConfig) h = Ok tt ∧
  after (PluginHandler.initPlugins parentConfig) h
    = foldl (initPlugins_turn parentConfig) h (ownKeys (PluginHandler.plugins h).*1) ∧
  (NoDup (PluginHandler.plugins h).*1 →
   ∀ name p, PluginHandler.getPluginInstance name
               (after (PluginHandler.initPlugins parentConfig) h) = Some p →
             PluginBase.parentIoPackage p = Some parentConfig).
Proof.
  unfold result, after, PluginHandler.initPlugins, PluginHandler.getPluginInstance.
  rewrite bind_get, initPlugins_loop. cbn [fst snd]. repeat split.
  intros Hnd name p Hlive.
  destruct (decide (name ∈ ownKeys (PluginHandler.plugins h).*1)) as [Hin|Hout].
  - eapply initPlugins_turns_record; [by apply ownKeys_NoDup|done|done].
  - exfalso. apply Hout, ownKeys_elem, get_is_key.
    rewrite <- (initPlugins_turns_other parentConfig _ name h Hout).
    apply live_entry in Hlive as [c ->]. by eexists.
Qed.

(** The theorem at a controller that added the plugins [sentry] and
    [broken] and set the databases. *)
Lemma X19_witness :
  result (PluginHandler.initPlugins None)
         (Scenario.controller_with ["sentry"; "broken"] Scenario.empty_store) = Ok tt ∧
  ∀ name p,
    PluginHandler.getPluginInstance name
      (after (PluginHandler.initPlugins None)
         (Scenario.controller_with ["sentry"; "broken"] Scenario.empty_store)) = Some p →
    PluginBase.parentIoPackage p = Some None.
Proof.
  destruct (X19_initPlugins_one_after_the_other None
              (Scenario.controller_with ["sentry"; "broken"] Scenario.empty_store))
    as (H1 & _ & H3).
  refine (conj H1 (H3 _)).
  apply (bool_decide_eq_true_1
           (NoDup (PluginHandler.plugins
                     (Scenario.controller_with ["sentry"; "broken"] Scenario.empty_store)).*1)).
  reflexivity.
Defined.



(** X21: a new instance. For every name without an instance whose class
    is loaded and whose constructor returns, [instantiatePlugin] leaves
    the name in its place in the key order when it had an entry, and puts
    it last otherwise; the instance is of the loaded class, has the
    namespace [<namespace>.plugins.<name>], is inactive, and has no
    database and no parent configuration: after an instance was removed
    and made again, the databases have to be set again. *)
Theorem X21_instantiatePlugin_new_instance name cfg dirs h cls :
  PluginHandler.isPluginInstantiated name h = false →
  load (node (PluginHandler.world h)) name (dirs_of dirs) = Loaded cls →
  impl_constructor cls
    (PluginHandler.plugin_settings (PluginHandler.settings h) name (dirs_of dirs)) = None →
  (PluginHandler.plugins (after (PluginHandler.instantiatePlugin name cfg dirs) h)).*1
    = (if bool_decide (name ∈ (PluginHandler.plugins h).*1)
       then (PluginHandler.plugins h).*1
       else (PluginHandler.plugins h).*1 ++ [name])%list ∧
  ∃ p, PluginHandler.getPluginInstance name
         (after (PluginHandler.instantiatePlugin name cfg dirs) h) = Some p ∧
       PluginBase.class p = cls ∧
       PluginBase.pluginNamespace p
         = namespace (PluginHandler.settings h) +:+ ".plugins." +:+ name ∧
       PluginBase.isActive p = false ∧
       PluginBase.objectsDb p = false ∧
       PluginBase.statesDb p = false ∧
       PluginBase.parentIoPackage p = None.
Proof.
  intros Hinst Hload Hctor.
  assert (Hlive : PluginHandler.live name h = None).
  { unfold PluginHandler.isPluginInstantiated in Hinst.
    destruct (PluginHandler.live name h); [|done].
    apply bool_decide_eq_false_1 in Hinst. destruct Hinst. by eexists. }
  destruct (instantiatePlugin_run name cfg dirs h Hlive) as (w & Hrun & _).
  rewrite Hload, Hctor in Hrun.
  unfold after, PluginHandler.getPluginInstance. rewrite Hrun.
  cbn [snd PluginHandler.plugins]. split.
  - case_bool_decide as Hin.
    + apply keys_set_old. by apply get_is_key.
    + apply keys_set_new. destruct (get_prop name (PluginHandler.plugins h)) eqn:E; [|done].
      destruct Hin. apply get_is_key. by eexists.
  - eexists. rewrite live_set_eq. cbn [instance]. by repeat split.
Qed.

(** The theorem at a controller whose sentry plugin was removed by
    [destroyAll] and is instantiated again. *)
Lemma X21_witness :
  (PluginHandler.plugins
     (after (PluginHandler.instantiatePlugin "sentry" (Some ∅) Scenario.dir)
        (after PluginHandler.destroyAll
           (Scenario.controller_with ["sentry"; "broken"] Scenario.empty_store)))).*1
    = ["sentry"; "broken"] ∧
  ∃ p, PluginHandler.getPluginInstance "sentry"
         (after (PluginHandler.instantiatePlugin "sentry" (Some ∅) Scenario.dir)
            (after PluginHandler.destroyAll
               (Scenario.controller_with ["sentry"; "broken"] Scenario.empty_store))) = Some p ∧
       PluginBase.statesDb p = false.
Proof.
  destruct (X21_instantiatePlugin_new_instance "sentry" (Some ∅) Scenario.dir
              (after PluginHandler.destroyAll
                 (Scenario.controller_with ["sentry"; "broken"] Scenario.empty_store))
              Scenario.works eq_refl eq_refl eq_refl)
    as (H1 & p & H2 & _ & _ & _ & _ & H3 & _).
  exact (conj H1 (ex_intro _ p (conj H2 H3))).
Defined.

(** ** What the handler leaves behind *)

(** X22: every line is logged under the log namespace. Starting from an
    empty log, every line that the operations of a handler hand to the
    logger, be it by the handler or by the base class of one of its
    plugins, begins with the log namespace of the handler's settings and a
    space: both log through a [NamespaceLogger], the handler's made for
    [<logNamespace>] and a plugin's for [<logNamespace> Plugin <name>]. *)
Theorem X22_every_line_bears_the_log_namespace s e ops :
  logged e = [] →
  Forall (line_of (logNamespace s)) (logged (PluginHandler.world (reached s e ops))).
Proof.
  intros He.
  assert (H0 : Forall (line_of (logNamespace s)) (logged e)) by by rewrite He.
  by destruct (reached_speaks s e ops H0) as (_ & H & _).
Qed.

(** The theorem at a controller that started the plugins [sentry] and
    [broken]. *)
Lemma X22_witness :
  Forall (line_of "system.host.h1")
    (logged (PluginHandler.world
               (reached Scenario.controller_settings Scenario.empty_store Cases.startup))).
Proof.
  exact (X22_every_line_bears_the_log_namespace Scenario.controller_settings
           Scenario.empty_store Cases.startup eq_refl).
Defined.

(** X23: [init] and [destroy] follow the construction. Starting from an
    empty trace, in every state reached by the operations of a handler,
    every call of [init] or [destroy] of an implementer is made on a
    namespace whose instance was constructed before: the handler never
    calls into a plugin whose constructor it did not run. *)
Theorem X23_init_and_destroy_follow_construction s e ops pre c post :
  calls e = [] →
  calls (PluginHandler.world (reached s e ops)) = (pre ++ c :: post)%list →
  match c with
  | CallInit ns _ | CallDestroy ns => CallNew ns ∈ pre
  | _ => True
  end.
Proof.
  intros He.
  assert (H0 : orderly (calls e)).
  { rewrite He. intros [|? ?] ? ? [=]. }
  destruct (reached_constructed s e ops H0) as (Hord & _). apply Hord.
Qed.

(** The theorem at a controller that started the plugins [sentry] and
    [broken], at the call of [init] of the plugin [broken]. *)
Lemma X23_witness :
  CallNew "system.host.h1.plugins.broken"
  ∈ [CallResolve "@iobroker/plugin-sentry" ["/opt/iobroker"];
     CallRequire "/opt/iobroker/node_modules/@iobroker/plugin-sentry";
     CallNew "system.host.h1.plugins.sentry";
     CallResolve "@iobroker/plugin-broken" ["/opt/iobroker"];
     CallRequire "/opt/iobroker/node_modules/@iobroker/plugin-broken";
     CallNew "system.host.h1.plugins.broken";
     CallInit "system.host.h1.plugins.sentry" (<["enabled" := JBool true]> ∅)].
Proof.
  refine (X23_init_and_destroy_follow_construction Scenario.controller_settings
           Scenario.empty_store Cases.startup
           [CallResolve "@iobroker/plugin-sentry" ["/opt/iobroker"];
            CallRequire "/opt/iobroker/node_modules/@iobroker/plugin-sentry";
            CallNew "system.host.h1.plugins.sentry";
            CallResolve "@iobroker/plugin-broken" ["/opt/iobroker"];
            CallRequire "/opt/iobroker/node_modules/@iobroker/plugin-broken";
            CallNew "system.host.h1.plugins.broken";
            CallInit "system.host.h1.plugins.sentry" (<["enabled" := JBool true]> ∅)]
           (CallInit "system.host.h1.plugins.broken" (<["enabled" := JBool true]> ∅))
           [] eq_refl _).
  vm_compute. reflexivity.
Defined.
